(** * Startup coordination of the FastAPI MCP server template

    A shallow embedding of [api_mcp_fastapi_server.py]: the readiness probe
    ([startup_probe]), the startup coordinator ([lifespan]), the file I/O
    self-test ([gcp_fileio_test]) and the two functional handlers
    ([read_root], [simple_calculator]), followed by the properties of the
    specification that concern them.

    Python code is embedded as computations in a state-and-exception monad
    that also records the observable actions (lines printed, file system
    probes, sleeps) of each call. *)

From Stdlib Require Import PrimFloat.
From Stdlib Require Import ZArith QArith String Ascii List Lia.
From stdpp Require Import base option list strings gmap pretty.

Local Open Scope string_scope.
Local Open Scope list_scope.

(** ** Paths ([pathlib]) *)

(** [pathlib.Path] is [PosixPath] or [WindowsPath] after the platform.  A
    path is kept the way [pathlib] keeps it: a root and the list of its
    components.  Drive letters and the case folding of Windows are outside
    the model. *)
Inductive flavour := Posix | Windows.

Record Path := mkPath { p_flavour : flavour; p_root : string; p_parts : list string }.

Global Instance flavour_eq_dec : EqDecision flavour.
Proof. solve_decision. Defined.

Global Instance Path_eq_dec : EqDecision Path.
Proof. solve_decision. Defined.

Definition flavour_code (f : flavour) : bool :=
  match f with Posix => false | Windows => true end.

Definition flavour_of_code (b : bool) : flavour :=
  if b then Windows else Posix.

Global Instance Path_countable : Countable Path.
Proof.
  refine (inj_countable'
            (fun p => (flavour_code (p_flavour p), p_root p, p_parts p))
            (fun t => mkPath (flavour_of_code t.1.1) t.1.2 t.2) _).
  intros [[] r ps]; reflexivity.
Defined.

Definition is_sep (f : flavour) (c : ascii) : bool :=
  match f with
  | Posix => Ascii.eqb c "/"
  | Windows => Ascii.eqb c "/" || Ascii.eqb c "\"
  end.

Definition sep_string (f : flavour) : string :=
  match f with Posix => "/" | Windows => "\" end.

(** [split_on sep cur s]: the pieces of [s] between separators, [cur] being
    the piece read so far. *)
Fixpoint split_on (sep : ascii -> bool) (cur s : string) : list string :=
  match s with
  | EmptyString => [cur]
  | String c s' =>
      if sep c then cur :: split_on sep "" s'
      else split_on sep (cur +:+ String c "") s'
  end.

Fixpoint leading_seps (sep : ascii -> bool) (s : string) : nat :=
  match s with
  | String c s' => if sep c then S (leading_seps sep s') else 0
  | EmptyString => 0
  end.

(** The root of a path string: exactly two leading slashes are kept on
    POSIX, any other positive number of them is one separator. *)
Definition root_of (f : flavour) (s : string) : string :=
  match leading_seps (is_sep f) s with
  | 0 => ""
  | 2 => match f with Posix => "//" | Windows => "\" end
  | _ => sep_string f
  end.

Definition is_component (s : string) : bool :=
  negb (String.eqb s "") && negb (String.eqb s ".").

(** [Path(s)] *)
Definition Path_of_string (f : flavour) (s : string) : Path :=
  mkPath f (root_of f s) (filter (fun c => is_component c = true)
                                 (split_on (is_sep f) "" s)).

Fixpoint join_with (sep : string) (l : list string) : string :=
  match l with
  | [] => ""
  | [x] => x
  | x :: l' => x +:+ sep +:+ join_with sep l'
  end.

(** [str(p)] *)
Definition Path_str (p : Path) : string :=
  match p_root p, p_parts p with
  | "", [] => "."
  | r, ps => r +:+ join_with (sep_string (p_flavour p)) ps
  end.

(** [p.joinpath(s)] *)
Definition joinpath (p : Path) (s : string) : Path :=
  let q := Path_of_string (p_flavour p) s in
  if String.eqb (p_root q) "" then mkPath (p_flavour p) (p_root p) (p_parts p ++ p_parts q)
  else q.

(** [p.parent] *)
Definition Path_parent (p : Path) : Path :=
  mkPath (p_flavour p) (p_root p) (removelast (p_parts p)).

(** ** The file system *)

Inductive node := File (content : string) | Dir.

(** The operating system resolves a relative path against the current
    working directory. *)
Definition resolve (cwd p : Path) : Path :=
  if String.eqb (p_root p) "" then mkPath (p_flavour p) (p_root cwd) (p_parts cwd ++ p_parts p)
  else p.

Definition node_is_file (o : option node) : bool :=
  match o with Some (File _) => true | _ => false end.

Definition node_is_dir (o : option node) : bool :=
  match o with Some Dir => true | _ => false end.

Definition node_exists (o : option node) : bool :=
  match o with Some _ => true | None => false end.

(** ** Python values and exceptions *)

Inductive pyval :=
| PyNone
| PyStr (s : string)
| PyInt (z : Z)
| PyPath (p : Path).

(** [str(v)], as an f-string renders it *)
Definition py_str (v : pyval) : string :=
  match v with
  | PyNone => "None"
  | PyStr s => s
  | PyInt z => pretty z
  | PyPath p => Path_str p
  end.

Inductive exn :=
| HTTPException (status_code : nat) (detail : string)
| Exception (args : list string)
| AttributeError (name : string)
| KeyError (key : string)
| OSError (kind : string) (p : Path).

(** ** The state of the process and of its surroundings *)

Record State := mkState {
  platform_system : string;                 (* platform.system() *)
  home_dir : string;                        (* the home directory *)
  cur_dir : string;                         (* the current working directory *)
  fs : gmap Path node;                      (* the file system *)
  environ : gmap string string;             (* os.environ *)
  random_state : nat -> nat;                (* the draws random will make *)
  heap : list (gmap string pyval);          (* the dict objects, by identity *)
  g_app_config : option nat;                (* module-level name app_config *)
  probe_succeeded : bool;                   (* module-level flag *)
  app_state_app_config : option nat         (* app.state.app_config *)
}.

Definition set_fs (f : gmap Path node) (s : State) : State :=
  mkState (platform_system s) (home_dir s) (cur_dir s) f (environ s) (random_state s)
          (heap s) (g_app_config s) (probe_succeeded s) (app_state_app_config s).

Definition set_environ (e : gmap string string) (s : State) : State :=
  mkState (platform_system s) (home_dir s) (cur_dir s) (fs s) e (random_state s)
          (heap s) (g_app_config s) (probe_succeeded s) (app_state_app_config s).

Definition set_random_state (r : nat -> nat) (s : State) : State :=
  mkState (platform_system s) (home_dir s) (cur_dir s) (fs s) (environ s) r
          (heap s) (g_app_config s) (probe_succeeded s) (app_state_app_config s).

Definition set_heap (h : list (gmap string pyval)) (s : State) : State :=
  mkState (platform_system s) (home_dir s) (cur_dir s) (fs s) (environ s) (random_state s)
          h (g_app_config s) (probe_succeeded s) (app_state_app_config s).

Definition set_probe_succeeded (b : bool) (s : State) : State :=
  mkState (platform_system s) (home_dir s) (cur_dir s) (fs s) (environ s) (random_state s)
          (heap s) (g_app_config s) b (app_state_app_config s).

Definition set_app_state_app_config (o : option nat) (s : State) : State :=
  mkState (platform_system s) (home_dir s) (cur_dir s) (fs s) (environ s) (random_state s)
          (heap s) (g_app_config s) (probe_succeeded s) o.

Definition set_g_app_config (o : option nat) (s : State) : State :=
  mkState (platform_system s) (home_dir s) (cur_dir s) (fs s) (environ s) (random_state s)
          (heap s) o (probe_succeeded s) (app_state_app_config s).

Definition path_flavour (s : State) : flavour :=
  if String.eqb (platform_system s) "Windows" then Windows else Posix.

(** ** Observable actions *)

Inductive check_kind := CkExists | CkIsFile | CkIsDir.

Inductive event :=
| Print (line : string)                           (* print(...) *)
| PrintJson (entry : list (string * string))      (* print(json.dumps(entry)) *)
| FsCheck (k : check_kind) (p : Path) (r : bool)  (* exists(), is_file(), is_dir() *)
| Sleep (seconds : Q)                             (* await asyncio.sleep(...) *)
| LoadDotenv (p : Path)
| Unlink (p : Path)
| OpenWrite (p : Path)
| FileWrite (p : Path) (data : string)
| ReadLines (p : Path)
| Mkdir (p : Path).

Definition is_fs_check (e : event) : bool :=
  match e with FsCheck _ _ _ => true | _ => false end.

Definition is_sleep (e : event) : bool :=
  match e with Sleep _ => true | _ => false end.

(** ** The monad *)

Inductive outcome (A : Type) :=
| Returned (a : A)
| Raised (e : exn).
Arguments Returned {A} a.
Arguments Raised {A} e.

Record run (A : Type) := mkRun { res : outcome A; st : State; evs : list event }.
Arguments mkRun {A} res st evs.
Arguments res {A} r.
Arguments st {A} r.
Arguments evs {A} r.

Definition M (A : Type) : Type := State -> run A.

Definition ret {A} (a : A) : M A := fun s => mkRun (Returned a) s [].

(** The run [r] after the actions [t]. *)
Definition prepend {A} (t : list event) (r : run A) : run A :=
  mkRun (res r) (st r) (t ++ evs r).

Definition bind {A B} (m : M A) (k : A -> M B) : M B := fun s =>
  let r1 := m s in
  match res r1 with
  | Returned a => prepend (evs r1) (k a (st r1))
  | Raised e => mkRun (Raised e) (st r1) (evs r1)
  end.

Definition raise {A} (e : exn) : M A := fun s => mkRun (Raised e) s [].

Definition emit (e : event) : M unit := fun s => mkRun (Returned tt) s [e].

Definition get {A} (f : State -> A) : M A := fun s => mkRun (Returned (f s)) s [].

Definition modify (f : State -> State) : M unit := fun s => mkRun (Returned tt) (f s) [].

Notation "x <- m ;; k" := (bind m (fun x => k))
  (at level 62, m at next level, right associativity, only parsing).
Notation "m ;;; k" := (bind m (fun _ => k))
  (at level 62, right associativity, only parsing).

Definition when (b : bool) (m : M unit) : M unit := if b then m else ret tt.

Inductive loop_ctl := Continue | Break.

(** [for x in xs: body] *)
Fixpoint for_each {A} (xs : list A) (body : A -> M unit) : M unit :=
  match xs with
  | [] => ret tt
  | x :: xs' => body x ;;; for_each xs' body
  end.

(** [for x in xs: body  else: orelse]: the [else] suite runs when the loop
    was not left by [break]. *)
Fixpoint for_else {A} (xs : list A) (body : A -> M loop_ctl) (orelse : M unit) : M unit :=
  match xs with
  | [] => orelse
  | x :: xs' =>
      c <- body x ;;
      match c with
      | Break => ret tt
      | Continue => for_else xs' body orelse
      end
  end.

(** [[f(x) for x in xs]] with an effectful [f] *)
Fixpoint map_m {A B} (f : A -> M B) (xs : list A) : M (list B) :=
  match xs with
  | [] => ret []
  | x :: xs' => y <- f x ;; ys <- map_m f xs' ;; ret (y :: ys)
  end.

(** ** Strings *)

Definition LF : ascii := ascii_of_nat 10.
Definition CR : ascii := ascii_of_nat 13.
Definition nl : string := String LF "".

(** [str.isspace] on the ASCII range *)
Definition isspace (c : ascii) : bool :=
  let n := nat_of_ascii c in
  (Nat.leb 9 n && Nat.leb n 13) || (Nat.leb 28 n && Nat.leb n 32).

Fixpoint lstrip (s : string) : string :=
  match s with
  | String c s' => if isspace c then lstrip s' else s
  | EmptyString => EmptyString
  end.

Definition string_rev (s : string) : string :=
  string_of_list_ascii (rev (list_ascii_of_string s)).

Definition rstrip (s : string) : string := string_rev (lstrip (string_rev s)).

(** [s.strip()] *)
Definition strip (s : string) : string := rstrip (lstrip s).

(** [s[-n:]] *)
Definition last_chars (n : nat) (s : string) : string :=
  string_of_list_ascii
    (skipn (String.length s - n) (list_ascii_of_string s)).

(** Reading in text mode turns every line ending into a line feed. *)
Fixpoint universal_newlines (s : string) : string :=
  match s with
  | EmptyString => EmptyString
  | String c s' =>
      if Ascii.eqb c CR then
        match s' with
        | String c' s'' =>
            if Ascii.eqb c' LF then String LF (universal_newlines s'')
            else String LF (universal_newlines s')
        | EmptyString => String LF EmptyString
        end
      else String c (universal_newlines s')
  end.

(** Writing in text mode turns a line feed into the line ending of the
    platform. *)
Fixpoint write_newlines (f : flavour) (s : string) : string :=
  match s with
  | EmptyString => EmptyString
  | String c s' =>
      if Ascii.eqb c LF then
        match f with
        | Posix => String LF (write_newlines f s')
        | Windows => String CR (String LF (write_newlines f s'))
        end
      else String c (write_newlines f s')
  end.

(** The lines of a text, each with its line feed. *)
Fixpoint lines_from (cur s : string) : list string :=
  match s with
  | EmptyString => if String.eqb cur "" then [] else [cur]
  | String c s' =>
      if Ascii.eqb c LF then (cur +:+ nl) :: lines_from "" s'
      else lines_from (cur +:+ String c "") s'
  end.

Definition splitlines_keepends (content : string) : list string :=
  lines_from "" (universal_newlines content).

(** [string.ascii_letters] and [string.digits] *)
Definition ascii_letters : string :=
  "abcdefghijklmnopqrstuvwxyzABCDEFGHIJKLMNOPQRSTUVWXYZ".
Definition digits : string := "0123456789".

(** ** Primitive operations *)

Definition print (line : string) : M unit := emit (Print line).

(** [Path.home()] and [Path.cwd()] *)
Definition Path_home : M Path :=
  get (fun s => Path_of_string (path_flavour s) (home_dir s)).

Definition Path_cwd : M Path :=
  get (fun s => Path_of_string (path_flavour s) (cur_dir s)).

(** What the file system holds at [p].  A path without components is the
    root (or the current directory), which is a directory. *)
Definition lookup_path (f : gmap Path node) (p : Path) : option node :=
  match p_parts p with
  | [] => Some Dir
  | _ => f !! p
  end.

Definition abspath (s : State) (p : Path) : Path :=
  resolve (Path_of_string (path_flavour s) (cur_dir s)) p.

Definition stat (p : Path) (s : State) : option node :=
  lookup_path (fs s) (abspath s p).

Definition Path_exists (p : Path) : M bool :=
  b <- get (fun s => node_exists (stat p s)) ;;
  emit (FsCheck CkExists p b) ;;;
  ret b.

Definition Path_is_file (p : Path) : M bool :=
  b <- get (fun s => node_is_file (stat p s)) ;;
  emit (FsCheck CkIsFile p b) ;;;
  ret b.

Definition Path_is_dir (p : Path) : M bool :=
  b <- get (fun s => node_is_dir (stat p s)) ;;
  emit (FsCheck CkIsDir p b) ;;;
  ret b.

(** [p.unlink()] *)
Definition Path_unlink (p : Path) : M unit :=
  o <- get (stat p) ;;
  match o with
  | Some (File _) =>
      emit (Unlink p) ;;;
      modify (fun s => set_fs (delete (abspath s p) (fs s)) s)
  | Some Dir => raise (OSError "IsADirectoryError" p)
  | None => raise (OSError "FileNotFoundError" p)
  end.

(** [open(file=p, mode="w")]: the file is created or emptied; its directory
    has to exist. *)
Definition open_w (p : Path) : M unit :=
  o <- get (stat p) ;;
  parent <- get (fun s => lookup_path (fs s) (Path_parent (abspath s p))) ;;
  match o, parent with
  | Some Dir, _ => raise (OSError "IsADirectoryError" p)
  | _, Some Dir =>
      emit (OpenWrite p) ;;;
      modify (fun s => set_fs (<[abspath s p := File ""]> (fs s)) s)
  | _, Some (File _) => raise (OSError "NotADirectoryError" p)
  | _, None => raise (OSError "FileNotFoundError" p)
  end.

Definition append_data (data : string) (n : node) : node :=
  match n with
  | File c => File (c +:+ data)
  | Dir => Dir
  end.

(** [f.write(data)] on the file opened at [p] *)
Definition file_write (p : Path) (data : string) : M unit :=
  emit (FileWrite p data) ;;;
  modify (fun s =>
            set_fs (alter (append_data (write_newlines (path_flavour s) data))
                          (abspath s p) (fs s)) s).

(** [open(file=p, mode="r")] followed by [f.readlines()] *)
Definition read_lines (p : Path) : M (list string) :=
  o <- get (stat p) ;;
  match o with
  | Some (File c) => emit (ReadLines p) ;;; ret (splitlines_keepends c)
  | Some Dir => raise (OSError "IsADirectoryError" p)
  | None => raise (OSError "FileNotFoundError" p)
  end.

(** Creating, from the root down, the directories of [rest] below [pre]:
    [None] when a file is in the way. *)
Fixpoint mkdir_chain (mk : list string -> Path) (pre rest : list string)
         (f : gmap Path node) : option (gmap Path node) :=
  match rest with
  | [] => Some f
  | c :: rest' =>
      let q := mk (pre ++ [c]) in
      match f !! q with
      | Some (File _) => None
      | Some Dir => mkdir_chain mk (pre ++ [c]) rest' f
      | None => mkdir_chain mk (pre ++ [c]) rest' (<[q := Dir]> f)
      end
  end.

(** [p.mkdir(parents=True, exist_ok=True)] *)
Definition Path_mkdir_parents (p : Path) : M unit :=
  q <- get (fun s => abspath s p) ;;
  f <- get fs ;;
  match mkdir_chain (mkPath (p_flavour q) (p_root q)) [] (p_parts q) f with
  | Some f' => emit (Mkdir p) ;;; modify (set_fs f')
  | None => raise (OSError "FileExistsError" p)
  end.

(** [await asyncio.sleep(seconds)]: the coroutine is suspended, and what
    happens to the file system meanwhile is [outside]. *)
Definition asyncio_sleep (seconds : Q) (outside : gmap Path node -> gmap Path node) : M unit :=
  emit (Sleep seconds) ;;;
  modify (fun s => set_fs (outside (fs s)) s).

(** [os.environ.get(key)] and [os.environ.get(key, default)] *)
Definition environ_get (key : string) : M (option string) :=
  get (fun s => environ s !! key).

Definition environ_get_default (key dflt : string) : M string :=
  get (fun s => default dflt (environ s !! key)).

(** [random.choice(seq)] *)
Definition random_choice (seq : string) : M ascii := fun s =>
  let k := random_state s 0 in
  mkRun (Returned (nth (k mod String.length seq) (list_ascii_of_string seq) Ascii.zero))
        (set_random_state (fun i => random_state s (S i)) s) [].

(** A dict literal makes a new object. *)
Definition new_dict (d : gmap string pyval) : M nat :=
  h <- get heap ;;
  modify (set_heap (h ++ [d])) ;;;
  ret (length h).

(** [d[key]] for the dict object at [l] *)
Definition dict_getitem (l : nat) (key : string) : M pyval :=
  h <- get heap ;;
  match h !! l with
  | Some d =>
      match d !! key with
      | Some v => ret v
      | None => raise (KeyError key)
      end
  | None => raise (KeyError key)
  end.

(** ** The server: [api_mcp_fastapi_server.py] *)

Section Server.

(** [dotenv.dotenv_values]: the key/value pairs a [.env] text holds (the
    parser of the python-dotenv package). *)
Variable dotenv_values : string -> list (string * string).

(** [repr] of a float, as an f-string renders it. *)
Variable float_repr : PrimFloat.float -> string.

(** [load_dotenv(dotenv_path=p)]: the pairs of the file are put into
    [os.environ], a variable that is already set keeps its value; a missing
    file is not an error. *)
Definition setdefault_env (e : gmap string string) (kv : string * string) : gmap string string :=
  match e !! kv.1 with
  | Some _ => e
  | None => <[kv.1 := kv.2]> e
  end.

Definition load_dotenv (dotenv_path : Path) : M unit :=
  emit (LoadDotenv dotenv_path) ;;;
  o <- get (stat dotenv_path) ;;
  match o with
  | Some (File c) =>
      modify (fun s => set_environ (foldl setdefault_env (environ s) (dotenv_values c)) s)
  | _ => ret tt
  end.

(** The module-level [app_config] literal. *)
Definition app_config_literal : gmap string pyval :=
  <["llm_provider" := PyStr "openai"]>
  (<["embedding_model" := PyStr "text-embedding-3-small"]>
  (<["max_step_iterations" := PyInt 3]>
  (<["path_chroma_db" := PyNone]>
  (<["chroma_collection_name" := PyStr "Biography_of_Christopher_Diaz"]>
  (<["bucket_mount_path" := PyNone]> ∅))))).

(** [log_entry.update(kwargs)] on an entry kept in insertion order *)
Fixpoint entry_set (k v : string) (entry : list (string * string)) : list (string * string) :=
  match entry with
  | [] => [(k, v)]
  | (k', v') :: rest =>
      if String.eqb k k' then (k, v) :: rest else (k', v') :: entry_set k v rest
  end.

Definition log_structured_message (severity message : string)
           (kwargs : list (string * string)) : M unit :=
  let log_entry := [("severity", severity); ("message", message)] in
  let log_entry := foldl (fun e kv => entry_set kv.1 kv.2 e) log_entry kwargs in
  emit (PrintJson log_entry).

Definition savvy_get_os (verbose : bool) : M string :=
  sys <- get platform_system ;;
  if String.eqb sys "Windows" then ret "Windows"
  else if String.eqb sys "Linux" then ret "Linux"
  else if String.eqb sys "Darwin" then ret "macOS"
  else raise (Exception ["Unknown OS: "; sys]).

(** [not p.exists() or not p.is_file()] *)
Definition missing_file (p : Path) : M bool :=
  e <- Path_exists p ;;
  if negb e then ret true
  else f <- Path_is_file p ;; ret (negb f).

Definition gcp_json_credentials_exist (verbose : bool) : M bool :=
  os_name <- savvy_get_os false ;;
  if String.eqb os_name "Windows" then
    h <- Path_home ;;
    let path_gcloud := joinpath h "AppData\Roaming\gcloud" in
    e <- Path_exists path_gcloud ;;
    if negb e then
      when verbose (print ("WARNING:  Google CLI folder not found: " +:+ Path_str path_gcloud)) ;;;
      ret false
    else
      when verbose (print ("path_gcloud: " +:+ Path_str path_gcloud)) ;;;
      let path_file_json := joinpath path_gcloud "application_default_credentials.json" in
      m <- missing_file path_file_json ;;
      if m then
        when verbose (print ("WARNING: Application Default Credential JSON file missing: "
                             +:+ Path_str path_file_json)) ;;;
        ret false
      else
        when verbose (print (Path_str path_file_json)) ;;;
        ret true
  else
    h <- Path_home ;;
    let path_gcloud := joinpath h ".config/gcloud/" in
    e <- Path_exists path_gcloud ;;
    if negb e then
      when verbose
           (print ("Path.home(): " +:+ " " +:+ Path_str h) ;;;
            print ("WARNING:  Google CLI folder not found: " +:+ Path_str path_gcloud)) ;;;
      ret false
    else
      when verbose (print ("path_gcloud: " +:+ Path_str path_gcloud)) ;;;
      let path_file_json := joinpath path_gcloud "application_default_credentials.json" in
      m <- missing_file path_file_json ;;
      if m then
        when verbose (print ("WARNING: Application Default Credential JSON file missing: "
                             +:+ Path_str path_file_json)) ;;;
        ret false
      else
        when verbose (print (Path_str path_file_json)) ;;;
        ret true.

(** [''.join(random.choice(characters) for i in range(length))] *)
Definition random_string (characters : string) (length : nat) : M string :=
  cs <- map_m (fun _ => random_choice characters) (seq 0 length) ;;
  ret (string_of_list_ascii cs).

(** The reading loop of [gcp_fileio_test]; [i] counts the lines. *)
Fixpoint print_lines (i : nat) (lines : list string) : M unit :=
  match lines with
  | [] => ret tt
  | line :: rest =>
      let i := i + 1 in
      when (Nat.ltb 0 (String.length (strip line)))
           (print (pretty i +:+ "  " +:+ strip line)) ;;;
      print_lines i rest
  end.

(** The first half of [gcp_fileio_test]: the old file is removed and the
    random lines are written. *)
Definition fileio_write (path_file : Path) : M unit :=
  print ("path_file: " +:+ Path_str path_file) ;;;
  b <- Path_is_file path_file ;;
  when b (Path_unlink path_file) ;;;
  b <- Path_is_file path_file ;;
  when b (raise (Exception ["Unable to delete file " +:+ Path_str path_file])) ;;;
  let length := 40 in
  let characters := ascii_letters +:+ digits in
  print ("Writing line by line utf-8 text file: " +:+ Path_str path_file) ;;;
  open_w path_file ;;;
  for_each (seq 0 5)
           (fun l => rnd_str <- random_string characters length ;;
                     file_write path_file (rnd_str +:+ nl)).

(** The second half of [gcp_fileio_test]: the lines are read and printed. *)
Definition fileio_read_back (path_file : Path) : M unit :=
  b <- Path_is_file path_file ;;
  when (negb b) (raise (Exception ["File not found " +:+ Path_str path_file])) ;;;
  print ("Reading line by line utf-8 text file: " +:+ Path_str path_file) ;;;
  lines <- read_lines path_file ;;
  print_lines 0 lines.

Definition gcp_fileio_test (path_mount : Path) (verbose : bool) : M unit :=
  let path_file := joinpath path_mount "text_file_utf8.txt" in
  fileio_write path_file ;;;
  fileio_read_back path_file.

(** *** [lifespan] *)

Definition max_checks : nat := 10.
Definition check_period : Q := 1 # 2.

(** A. the local development path of [lifespan] *)
Definition lifespan_local : M Path :=
  path_bucket_mount <- Path_cwd ;;
  let dotenv_path := joinpath path_bucket_mount ".env" in
  print ("INFO: Detected Local Development environment. .env path: " +:+ Path_str dotenv_path) ;;;
  b <- Path_is_file dotenv_path ;;
  when (negb b)
       (raise (Exception ["CRITICAL: .env file not found locally at " +:+ Path_str dotenv_path
                          +:+ ". Cannot start."])) ;;;
  load_dotenv dotenv_path ;;;
  print "INFO: Local environment variables loaded successfully." ;;;
  ret path_bucket_mount.

(** The suite of the loop that waits for the FUSE mount, iteration [i].
    [outside i] is what happens to the file system while the coroutine
    sleeps in iteration [i]. *)
Definition wait_for_fuse_body (dotenv_path : Path)
           (outside : nat -> gmap Path node -> gmap Path node) (i : nat) : M loop_ctl :=
  b <- Path_is_file dotenv_path ;;
  if b then
    load_dotenv dotenv_path ;;;
    print "INFO: GCS FUSE mount confirmed ready. Environment variables loaded." ;;;
    ret Break
  else
    print ("INFO: Waiting for FUSE mount in lifespan... Attempt " +:+ pretty (i + 1)
           +:+ "/" +:+ pretty max_checks) ;;;
    asyncio_sleep check_period (outside i) ;;;
    ret Continue.

(** The [else] suite of the loop. *)
Definition wait_for_fuse_else : M unit :=
  print "CRITICAL WARNING: FUSE file not found in lifespan after checks. Application may be misconfigured or the mount failed.".

(** The loop that waits for the FUSE mount. *)
Definition wait_for_fuse (dotenv_path : Path)
           (outside : nat -> gmap Path node -> gmap Path node) : M unit :=
  for_else (seq 0 max_checks) (wait_for_fuse_body dotenv_path outside) wait_for_fuse_else.

(** B. the Cloud Run deployment path of [lifespan] *)
Definition lifespan_deployed (outside : nat -> gmap Path node -> gmap Path node) : M Path :=
  mount <- environ_get_default "MOUNT_PATH" "/mnt/storage" ;;
  fl <- get path_flavour ;;
  let path_bucket_mount := Path_of_string fl mount in
  let dotenv_path := joinpath path_bucket_mount ".env" in
  print ("INFO: Detected Cloud Run/Deployment environment. .env path: " +:+ Path_str dotenv_path) ;;;
  wait_for_fuse dotenv_path outside ;;;
  ret path_bucket_mount.

(** The record [lifespan] puts on [app.state.app_config]. *)
Definition lifespan_config (fl : flavour) (path_bucket_mount : Path) : gmap string pyval :=
  <["llm_provider" := PyStr "openai"]>
  (<["embedding_model" := PyStr "text-embedding-3-small"]>
  (<["max_step_iterations" := PyInt 3]>
  (<["path_chroma_db" := PyPath (joinpath (Path_of_string fl "/tmp") "chroma_langchain_db")]>
  (<["chroma_collection_name" := PyStr "Biography_of_Christopher_Diaz"]>
  (<["bucket_mount_path" := PyPath path_bucket_mount]> ∅))))).

(** [app.state.app_config] *)
Definition app_state_get : M nat :=
  o <- get app_state_app_config ;;
  match o with
  | Some l => ret l
  | None => raise (AttributeError "app_config")
  end.

Definition lifespan_publish (path_bucket_mount : Path) : M unit :=
  fl <- get path_flavour ;;
  l <- new_dict (lifespan_config fl path_bucket_mount) ;;
  modify (set_app_state_app_config (Some l)) ;;;
  c <- app_state_get ;; v <- dict_getitem c "chroma_collection_name" ;;
  print ("chroma_collection_name: " +:+ py_str v) ;;;
  c <- app_state_get ;; v <- dict_getitem c "path_chroma_db" ;;
  print ("path_chroma_db: " +:+ py_str v) ;;;
  c <- app_state_get ;; v <- dict_getitem c "bucket_mount_path" ;;
  print ("bucket_mount_path: " +:+ py_str v).

(** A value used as a [Path]: only a [Path] has [joinpath]. *)
Definition as_path (v : pyval) : M Path :=
  match v with
  | PyPath p => ret p
  | _ => raise (AttributeError "joinpath")
  end.

Definition lifespan_selftest : M unit :=
  c <- app_state_get ;; v <- dict_getitem c "bucket_mount_path" ;;
  p <- as_path v ;;
  gcp_fileio_test p false ;;;
  cred <- gcp_json_credentials_exist false ;;
  when (negb cred)
       (c <- app_state_get ;; v <- dict_getitem c "path_chroma_db" ;;
        fl <- get path_flavour ;;
        let path_chroma_db := Path_of_string fl (py_str v) in
        d <- Path_is_dir path_chroma_db ;;
        when (negb d) (Path_mkdir_parents path_chroma_db) ;;;
        gcp_fileio_test path_chroma_db false).

(** [lifespan] through the publication of the configuration *)
Definition lifespan_configure (outside : nat -> gmap Path node -> gmap Path node) : M unit :=
  print "Application lifespan startup sequence initiated." ;;;
  cred <- gcp_json_credentials_exist false ;;
  path_bucket_mount <- (if cred then lifespan_local else lifespan_deployed outside) ;;
  lifespan_publish path_bucket_mount.

(** [lifespan] up to its [yield] *)
Definition lifespan_startup (outside : nat -> gmap Path node -> gmap Path node) : M unit :=
  lifespan_configure outside ;;;
  lifespan_selftest.

(** [lifespan] after its [yield] *)
Definition lifespan_shutdown : M unit :=
  print "Application shutdown sequence initiated.".

(** *** Request and response schemas *)

Record ToolInput := mkToolInput {
  num1 : PrimFloat.float;
  num2 : PrimFloat.float;
  operation : string
}.

Record ToolOutput := mkToolOutput {
  result : PrimFloat.float;
  message : string
}.

(** *** Endpoints *)

Definition get_chroma_db_connection : M pyval :=
  print "get_chroma_db_connection()" ;;;
  ret PyNone.

(** GET /ready *)
Definition startup_probe : M (list (string * string)) :=
  succeeded <- get probe_succeeded ;;
  if succeeded then
    ret [("status", "ok"); ("message", "FUSE mount and probe confirmed ready.")]
  else
    m <- environ_get "MOUNT_PATH" ;;
    print ("os.environ.get('MOUNT_PATH'): " +:+ default "None" m) ;;;
    mount <- environ_get_default "MOUNT_PATH" "/mnt/storage" ;;
    fl <- get path_flavour ;;
    let path_bucket_mount := Path_of_string fl mount in
    let dotenv_path := joinpath path_bucket_mount ".env" in
    b <- Path_is_file dotenv_path ;;
    if b then
      print ("INFO: Startup probe succeeded. FUSE file found at: " +:+ Path_str dotenv_path
             +:+ ". Starting Lifespan...") ;;;
      modify (set_probe_succeeded true) ;;;
      ret [("status", "ok"); ("message", "FUSE mount ready, application is starting up.")]
    else
      print ("INFO: Startup probe failed: " +:+ Path_str dotenv_path +:+ " not found. Waiting...") ;;;
      raise (HTTPException 503 "Waiting for GCS FUSE mount to stabilize.").

(** The truth value of [os.environ.get(...)]: a string that is not empty. *)
Definition truthy (o : option string) : bool :=
  match o with
  | Some s => negb (String.eqb s "")
  | None => false
  end.

(** GET / *)
Definition read_root : M (list (string * string)) :=
  config <- app_state_get ;;
  v <- dict_getitem config "chroma_collection_name" ;;
  print ("config['chroma_collection_name']: " +:+ py_str v) ;;;
  v <- dict_getitem config "path_chroma_db" ;;
  print ("config['path_chroma_db']: " +:+ py_str v) ;;;
  v <- dict_getitem config "bucket_mount_path" ;;
  print ("config['bucket_mount_path']: " +:+ py_str v) ;;;
  vector_store <- get_chroma_db_connection ;;
  openai_key_val <- environ_get "OPENAI_API_KEY" ;;
  if truthy openai_key_val then
    log_structured_message "INFO" "OpenAI API Key check: Key is SET."
      [("key_preview", "sk-..." +:+ last_chars 4 (default "" openai_key_val))] ;;;
    ret [("status", "ok"); ("message", "Server is running. See /docs for API schema.")]
  else
    log_structured_message "CRITICAL" "OpenAI API Key check: Key is MISSING."
      [("resolution", "Set OPENAI_API_KEY in Cloud Run environment variables.")] ;;;
    ret [("status", "ok"); ("message", "Server is running, BUT OPENAI_API_KEY not found!.")].

(** POST /api/calculator *)
Definition simple_calculator (input_data : ToolInput) : M ToolOutput :=
  if String.eqb (operation input_data) "add" then
    let total := PrimFloat.add (num1 input_data) (num2 input_data) in
    let message := "Successfully calculated the sum of " +:+ float_repr (num1 input_data)
                   +:+ " and " +:+ float_repr (num2 input_data) +:+ "." in
    ret (mkToolOutput total message)
  else
    let message := "Operation '" +:+ operation input_data
                   +:+ "' not supported yet. Defaulting to addition." in
    let total := PrimFloat.add (num1 input_data) (num2 input_data) in
    ret (mkToolOutput total message).

(** The status FastAPI answers with: 200 when the handler returns, the
    status of an [HTTPException], 500 for any other exception. *)
Definition http_status {A} (o : outcome A) : nat :=
  match o with
  | Returned _ => 200
  | Raised (HTTPException code _) => code
  | Raised _ => 500
  end.

(** *** Loading the module *)

Definition module_load : M unit :=
  print "'api_mcp_fastapi_server.py'  v0.0.0" ;;;
  l <- new_dict app_config_literal ;;
  modify (set_g_app_config (Some l)) ;;;
  modify (set_probe_succeeded false).

(** *** The life of the process *)

Inductive request :=
| GetReady                                   (* GET /ready *)
| GetRoot                                    (* GET / *)
| PostCalculator (input_data : ToolInput).   (* POST /api/calculator *)

Inductive op :=
| Handle (r : request)
| Startup (outside : nat -> gmap Path node -> gmap Path node)
| Shutdown
| Outside (change : gmap Path node -> gmap Path node).

Definition handle (r : request) (s : State) : State :=
  match r with
  | GetReady => st (startup_probe s)
  | GetRoot => st (read_root s)
  | PostCalculator input_data => st (simple_calculator input_data s)
  end.

Definition step (s : State) (o : op) : State :=
  match o with
  | Handle r => handle r s
  | Startup outside => st (lifespan_startup outside s)
  | Shutdown => st (lifespan_shutdown s)
  | Outside change => set_fs (change (fs s)) s
  end.

Definition run_ops (ops : list op) (s : State) : State := foldl step s ops.

Definition is_startup (o : op) : bool :=
  match o with Startup _ => true | _ => false end.

(** The process before the module is loaded. *)
Definition process_start (system home cur : string) (f : gmap Path node)
           (e : gmap string string) (r : nat -> nat) : State :=
  mkState system home cur f e r [] None false None.

(** The file system the [n]-th check of the waiting loop sees, from [f]. *)
Fixpoint fs_at (outside : nat -> gmap Path node -> gmap Path node)
         (f : gmap Path node) (n : nat) : gmap Path node :=
  match n with
  | 0 => f
  | S n' => outside n' (fs_at outside f n')
  end.

(** ** A logic of frames

    [respects R P m]: whatever state [m] starts from, the state it ends in
    is related to it by [R], and every action it records satisfies [P];
    so also when [m] raises. *)

Definition respects {A} (R : State -> State -> Prop) (P : event -> Prop) (m : M A) : Prop :=
  forall s, R s (st (m s)) /\ Forall P (evs (m s)).

(** The states that differ at most in the file system, the environment
    variables and the random draws: nothing of the module or of [app]. *)
Definition only_world (s s' : State) : Prop :=
  s' = mkState (platform_system s) (home_dir s) (cur_dir s)
               (fs s') (environ s') (random_state s')
               (heap s) (g_app_config s) (probe_succeeded s) (app_state_app_config s).

Definition any_event (e : event) : Prop := True.

(** The actions of a probe of the surroundings: lines printed and file
    system checks. *)
Definition is_observation (e : event) : Prop :=
  match e with
  | Print _ | FsCheck _ _ _ => True
  | _ => False
  end.


(** ** The readiness probe *)

(** The marker file: [.env] at the configured mount path. *)
Definition mount_root (s : State) : Path :=
  Path_of_string (path_flavour s) (default "/mnt/storage" (environ s !! "MOUNT_PATH")).

Definition mount_marker (s : State) : Path := joinpath (mount_root s) ".env".

Definition ready_again : list (string * string) :=
  [("status", "ok"); ("message", "FUSE mount and probe confirmed ready.")].

Definition ready_first : list (string * string) :=
  [("status", "ok"); ("message", "FUSE mount ready, application is starting up.")].

(** ** What no operation undoes

    [grows s s']: from [s] to [s'] the module-level name [app_config] is
    bound as before, the readiness flag has not gone back to false, the dict
    objects of [s] are still there unchanged, and [app.state.app_config] is
    as before or a dict object made since. *)
Definition grows (s s' : State) : Prop :=
  g_app_config s' = g_app_config s
  /\ (probe_succeeded s = true -> probe_succeeded s' = true)
  /\ (exists k, heap s' = heap s ++ k)
  /\ (app_state_app_config s' = app_state_app_config s
      \/ exists l, app_state_app_config s' = Some l /\ length (heap s) <= l).

(** [same_config s s']: the dict objects and the two references to them
    are the same in [s] and [s']. *)
Definition same_config (s s' : State) : Prop :=
  heap s' = heap s
  /\ g_app_config s' = g_app_config s
  /\ app_state_app_config s' = app_state_app_config s.

(** ** The waiting loop of [lifespan] *)

(** The file system the check after [k] sleeps sees, when the first of
    these sleeps is the one of iteration [i0]. *)
Fixpoint fs_from (outside : nat -> gmap Path node -> gmap Path node) (i0 : nat)
         (f : gmap Path node) (k : nat) : gmap Path node :=
  match k with
  | 0 => f
  | S k' => outside (i0 + k') (fs_from outside i0 f k')
  end.

(** Whether the [n]-th check of the loop (counted from 0) finds [p]. *)
Definition marker_seen (outside : nat -> gmap Path node -> gmap Path node)
           (s : State) (p : Path) (n : nat) : bool :=
  node_is_file (lookup_path (fs_at outside (fs s) n) (abspath s p)).

(** What a check that does not find [p] records, in iteration [i]. *)
Definition failed_check (p : Path) (i : nat) : list event :=
  [FsCheck CkIsFile p false;
   Print ("INFO: Waiting for FUSE mount in lifespan... Attempt " +:+ pretty (i + 1)
          +:+ "/" +:+ pretty max_checks);
   Sleep check_period].

(** What the check that finds [p] records. *)
Definition found_check (p : Path) : list event :=
  [FsCheck CkIsFile p true;
   LoadDotenv p;
   Print "INFO: GCS FUSE mount confirmed ready. Environment variables loaded."].

(** [os.environ] after [load_dotenv(dotenv_path=p)]. *)
Definition loaded_environ (s : State) (p : Path) : gmap string string :=
  match stat p s with
  | Some (File c) => foldl setdefault_env (environ s) (dotenv_values c)
  | _ => environ s
  end.

Definition is_load (e : event) : bool :=
  match e with LoadDotenv _ => true | _ => false end.

(** ** After the start-up *)

(** [app.state.app_config] is a record that [lifespan] made. *)
Definition started (s : State) : Prop :=
  exists l fl p,
    app_state_app_config s = Some l /\ heap s !! l = Some (lifespan_config fl p).

(** The configuration root of the local development path and its [.env]. *)
Definition local_root (s : State) : Path :=
  Path_of_string (path_flavour s) (cur_dir s).

Definition local_marker (s : State) : Path := joinpath (local_root s) ".env".


(** ** The self-test *)

(** The characters that [n] calls of [random.choice(chars)] return when the
    draws to come are [r]. *)
Fixpoint drawn_chars (chars : string) (n : nat) (r : nat -> nat) : list ascii :=
  match n with
  | 0 => []
  | S n' =>
      nth (r 0 mod String.length chars) (list_ascii_of_string chars) Ascii.zero
      :: drawn_chars chars n' (fun i => r (S i))
  end.

(** The [n] lines that [fileio_write] writes when the draws to come are [r]. *)
Fixpoint written_lines (n : nat) (r : nat -> nat) : list string :=
  match n with
  | 0 => []
  | S n' =>
      (string_of_list_ascii (drawn_chars (ascii_letters +:+ digits) 40 r) +:+ nl)
      :: written_lines n' (fun i => r (40 + i))
  end.

(** The content of a file after the lines are written to it in text mode. *)
Definition text_of_lines (f : flavour) (lines : list string) : string :=
  foldl (fun c line => c +:+ write_newlines f line) "" lines.

(** What [print_lines] prints. *)
Fixpoint printed_lines (i : nat) (lines : list string) : list event :=
  match lines with
  | [] => []
  | line :: rest =>
      (if Nat.ltb 0 (String.length (strip line))
       then [Print (pretty (i + 1) +:+ "  " +:+ strip line)]
       else [])
      ++ printed_lines (i + 1) rest
  end.

Definition is_file_write (e : event) : bool :=
  match e with FileWrite _ _ => true | _ => false end.

(** ** The detection of the environment *)

(** The folder of gcloud in the home directory, after the platform, and
    the credentials file in it. *)
Definition gcloud_dir (s : State) : Path :=
  joinpath (Path_of_string (path_flavour s) (home_dir s))
           (if String.eqb (platform_system s) "Windows"
            then "AppData\Roaming\gcloud" else ".config/gcloud/").

Definition adc_json (s : State) : Path :=
  joinpath (gcloud_dir s) "application_default_credentials.json".

(** The platforms [savvy_get_os] knows. *)
Definition known_platform (s : State) : Prop :=
  platform_system s = "Windows" \/ platform_system s = "Linux"
  \/ platform_system s = "Darwin".

(** ** The environment variables *)

(** [env_kept s s']: every variable that is set in [s] has the same value
    in [s']. *)
Definition env_kept (s s' : State) : Prop :=
  forall k v, environ s !! k = Some v -> environ s' !! k = Some v.

(** ** The lines of the self-test *)

(** The [k]-th string that the writing loop of [gcp_fileio_test] draws,
    when the draws to come are [r]. *)
Definition drawn_string (k : nat) (r : nat -> nat) : string :=
  string_of_list_ascii
    (drawn_chars (ascii_letters +:+ digits) 40 (fun i => r (40 * k + i))).

(** A string without a character that [str.isspace] accepts, and so
    without a line ending. *)
Definition no_space (b : string) : Prop :=
  Forall (fun c => isspace c = false) (list_ascii_of_string b).

Definition is_mkdir (e : event) : bool :=
  match e with Mkdir _ => true | _ => false end.

(** [ends_with q x]: the last component of the path [q] is [x]. *)
Definition ends_with (q : Path) (x : string) : Prop :=
  exists l, p_parts q = l ++ [x].



(** An action that creates no directory. *)
Definition no_mkdir (e : event) : Prop := is_mkdir e = false.

(** The text of lines, each ending in a line feed. *)
Definition join_lines (bodies : list string) : string :=
  foldr (fun b rest => (b +:+ nl) +:+ rest) "" bodies.
(** * Properties *)

(** ** Frames *)

Global Instance only_world_preorder : PreOrder only_world.
Proof.
  split.
  - intros []; reflexivity.
  - intros s1 s2 s3 H12 H23. unfold only_world in *.
    rewrite H23 at 1. rewrite H12. reflexivity.
Qed.

Section Frames.

Context (R : State -> State -> Prop) `{!PreOrder R} (P : event -> Prop).

Lemma respects_ret {A} (a : A) : respects R P (ret a).
Proof. intros s; split; [reflexivity | constructor]. Qed.

Lemma respects_raise {A} (e : exn) : respects R P (@raise A e).
Proof. intros s; split; [reflexivity | constructor]. Qed.

Lemma respects_get {A} (f : State -> A) : respects R P (get f).
Proof. intros s; split; [reflexivity | constructor]. Qed.

Lemma respects_emit (e : event) : P e -> respects R P (emit e).
Proof. intros He s; split; [reflexivity | repeat constructor; exact He]. Qed.

Lemma respects_modify (f : State -> State) :
  (forall s, R s (f s)) -> respects R P (modify f).
Proof. intros Hf s; split; [apply Hf | constructor]. Qed.

Lemma respects_bind {A B} (m : M A) (k : A -> M B) :
  respects R P m -> (forall a, respects R P (k a)) -> respects R P (bind m k).
Proof.
  intros Hm Hk s. unfold bind.
  destruct (Hm s) as [HR HP].
  destruct (res (m s)) as [a | e]; simpl.
  - destruct (Hk a (st (m s))) as [HR' HP']. split.
    + etransitivity; eassumption.
    + apply Forall_app; split; assumption.
  - split; assumption.
Qed.

Lemma respects_when (b : bool) (m : M unit) :
  respects R P m -> respects R P (when b m).
Proof. intros Hm. destruct b; simpl; [exact Hm | apply respects_ret]. Qed.

Lemma respects_for_each {A} (xs : list A) (body : A -> M unit) :
  (forall x, respects R P (body x)) -> respects R P (for_each xs body).
Proof.
  intros Hb. induction xs as [| x xs IH]; simpl.
  - apply respects_ret.
  - apply respects_bind; [apply Hb | intros _; exact IH].
Qed.

Lemma respects_for_else {A} (xs : list A) (body : A -> M loop_ctl) (orelse : M unit) :
  (forall x, respects R P (body x)) -> respects R P orelse ->
  respects R P (for_else xs body orelse).
Proof.
  intros Hb He. induction xs as [| x xs IH]; simpl.
  - exact He.
  - apply respects_bind; [apply Hb |].
    intros [|]; [exact IH | apply respects_ret].
Qed.

Lemma respects_map_m {A B} (f : A -> M B) (xs : list A) :
  (forall x, respects R P (f x)) -> respects R P (map_m f xs).
Proof.
  intros Hf. induction xs as [| x xs IH]; simpl.
  - apply respects_ret.
  - apply respects_bind; [apply Hf | intros y].
    apply respects_bind; [exact IH | intros ys; apply respects_ret].
Qed.

End Frames.

Lemma respects_weaken {A} (R R' : State -> State -> Prop) (P P' : event -> Prop) (m : M A) :
  (forall s s', R s s' -> R' s s') -> (forall e, P e -> P' e) ->
  respects R P m -> respects R' P' m.
Proof.
  intros HR HP Hm s. destruct (Hm s) as [H1 H2]. split.
  - apply HR, H1.
  - eapply Forall_impl; [exact H2 | exact HP].
Qed.

(** One step of a frame proof: the rule of the construct at the head. *)
Ltac frame_step :=
  lazymatch goal with
  | |- respects _ _ (bind _ _) =>
      apply respects_bind; [solve [typeclasses eauto] .. | | intros ?]
  | |- respects _ _ (ret _) => apply respects_ret; typeclasses eauto
  | |- respects _ _ (raise _) => apply respects_raise; typeclasses eauto
  | |- respects _ _ (get _) => apply respects_get; typeclasses eauto
  | |- respects _ _ (emit _) => apply respects_emit; [solve [typeclasses eauto] .. |]
  | |- respects _ _ (print _) => apply respects_emit; [solve [typeclasses eauto] .. |]
  | |- respects _ _ (modify _) =>
      apply respects_modify; [solve [typeclasses eauto] .. | intros ?]
  | |- respects _ _ (when _ _) => apply respects_when; [solve [typeclasses eauto] .. |]
  | |- respects _ _ (for_each _ _) =>
      apply respects_for_each; [solve [typeclasses eauto] .. | intros ?]
  | |- respects _ _ (for_else _ _ _) =>
      apply respects_for_else; [solve [typeclasses eauto] .. | intros ? |]
  | |- respects _ _ (map_m _ _) =>
      apply respects_map_m; [solve [typeclasses eauto] .. | intros ?]
  | |- respects _ _ (if ?b then _ else _) => destruct b
  | |- respects _ _ (match ?x with _ => _ end) => destruct x
  end.

Create HintDb prims discriminated.

#[local] Hint Unfold print Path_home Path_cwd Path_exists Path_is_file Path_is_dir
  Path_unlink open_w file_write read_lines Path_mkdir_parents asyncio_sleep
  environ_get environ_get_default new_dict dict_getitem load_dotenv
  log_structured_message savvy_get_os missing_file random_string app_state_get
  as_path get_chroma_db_connection : prims.

Ltac frame_side :=
  solve [ exact I | reflexivity
        | match goal with s : State |- _ => destruct s; reflexivity end ].

(** The frame lemmas proved so far, by the head of the computation. *)
Ltac frame_known := fail.

Ltac frame :=
  repeat first [ progress cbv zeta
               | frame_known
               | frame_step
               | progress autounfold with prims
               | frame_side ].

Lemma random_choice_frame (characters : string) :
  respects only_world any_event (random_choice characters).
Proof.
  intros s; split; [destruct s; reflexivity | constructor].
Qed.

(** [gcp_json_credentials_exist] only looks: the state is left as it was. *)
Lemma gcp_json_credentials_exist_pure (verbose : bool) :
  respects eq is_observation (gcp_json_credentials_exist verbose).
Proof. unfold gcp_json_credentials_exist. frame. Qed.

Lemma gcp_json_credentials_exist_state (verbose : bool) (s : State) :
  st (gcp_json_credentials_exist verbose s) = s.
Proof. symmetry. apply (gcp_json_credentials_exist_pure verbose s). Qed.

Lemma gcp_json_credentials_exist_frame (verbose : bool) :
  respects only_world any_event (gcp_json_credentials_exist verbose).
Proof.
  eapply respects_weaken; [| | apply (gcp_json_credentials_exist_pure verbose)].
  - intros s s' Heq. rewrite <- Heq. reflexivity.
  - intros e _. exact I.
Qed.

Lemma print_lines_frame (lines : list string) (i : nat) :
  respects only_world any_event (print_lines i lines).
Proof.
  revert i. induction lines as [| line rest IH]; intros i; simpl.
  - frame.
  - cbv zeta. frame_step; [frame | apply IH].
Qed.

Ltac frame_known ::=
  lazymatch goal with
  | |- respects _ _ (random_choice _) => apply random_choice_frame
  | |- respects _ _ (print_lines _ _) => apply print_lines_frame
  | |- respects _ _ (gcp_json_credentials_exist _) => apply gcp_json_credentials_exist_frame
  end.

Lemma gcp_fileio_test_frame (path_mount : Path) (verbose : bool) :
  respects only_world any_event (gcp_fileio_test path_mount verbose).
Proof. unfold gcp_fileio_test, fileio_write, fileio_read_back. frame. Qed.

Lemma wait_for_fuse_frame (dotenv_path : Path) outside :
  respects only_world any_event (wait_for_fuse dotenv_path outside).
Proof. unfold wait_for_fuse, wait_for_fuse_body, wait_for_fuse_else. frame. Qed.

Lemma lifespan_local_frame : respects only_world any_event lifespan_local.
Proof. unfold lifespan_local. frame. Qed.

Ltac frame_known ::=
  lazymatch goal with
  | |- respects _ _ (random_choice _) => apply random_choice_frame
  | |- respects _ _ (print_lines _ _) => apply print_lines_frame
  | |- respects _ _ (gcp_json_credentials_exist _) => apply gcp_json_credentials_exist_frame
  | |- respects _ _ (gcp_fileio_test _ _) => apply gcp_fileio_test_frame
  | |- respects _ _ (wait_for_fuse _ _) => apply wait_for_fuse_frame
  end.

Lemma lifespan_deployed_frame outside :
  respects only_world any_event (lifespan_deployed outside).
Proof. unfold lifespan_deployed. frame. Qed.

Lemma lifespan_selftest_frame : respects only_world any_event lifespan_selftest.
Proof. unfold lifespan_selftest. frame. Qed.

Lemma lifespan_shutdown_frame : respects only_world any_event lifespan_shutdown.
Proof. unfold lifespan_shutdown. frame. Qed.

Lemma read_root_frame : respects eq any_event read_root.
Proof. unfold read_root. frame. Qed.

Lemma simple_calculator_frame (input_data : ToolInput) :
  respects eq any_event (simple_calculator input_data).
Proof. unfold simple_calculator. frame. Qed.

(** ** Running a computation step by step *)

Lemma run_eta {A} (r : run A) : r = mkRun (res r) (st r) (evs r).
Proof. destruct r; reflexivity. Qed.

Lemma prepend_nil {A} (r : run A) : prepend [] r = r.
Proof. destruct r; reflexivity. Qed.

Lemma prepend_mkRun {A} (t t' : list event) (o : outcome A) (s : State) :
  prepend t (mkRun o s t') = mkRun o s (t ++ t').
Proof. reflexivity. Qed.

Lemma prepend_prepend {A} (t t' : list event) (r : run A) :
  prepend t (prepend t' r) = prepend (t ++ t') r.
Proof. unfold prepend; simpl. rewrite app_assoc. reflexivity. Qed.

Lemma res_prepend {A} (t : list event) (r : run A) : res (prepend t r) = res r.
Proof. reflexivity. Qed.

Lemma st_prepend {A} (t : list event) (r : run A) : st (prepend t r) = st r.
Proof. reflexivity. Qed.


Lemma bind_returned {A B} (m : M A) (k : A -> M B) s a s1 t1 :
  m s = mkRun (Returned a) s1 t1 -> bind m k s = prepend t1 (k a s1).
Proof. intros H. unfold bind. rewrite H. reflexivity. Qed.

Lemma bind_raised {A B} (m : M A) (k : A -> M B) s e s1 t1 :
  m s = mkRun (Raised e) s1 t1 -> bind m k s = mkRun (Raised e) s1 t1.
Proof. intros H. unfold bind. rewrite H. reflexivity. Qed.

Lemma bind_ret {A B} (a : A) (k : A -> M B) s : bind (ret a) k s = k a s.
Proof. rewrite (bind_returned _ _ s a s []) by reflexivity. apply prepend_nil. Qed.

Lemma bind_get {A B} (f : State -> A) (k : A -> M B) s : bind (get f) k s = k (f s) s.
Proof. rewrite (bind_returned _ _ s (f s) s []) by reflexivity. apply prepend_nil. Qed.

Lemma bind_modify {B} (f : State -> State) (k : unit -> M B) s :
  bind (modify f) k s = k tt (f s).
Proof. rewrite (bind_returned _ _ s tt (f s) []) by reflexivity. apply prepend_nil. Qed.

Lemma bind_emit {B} (e : event) (k : unit -> M B) s :
  bind (emit e) k s = prepend [e] (k tt s).
Proof. apply bind_returned. reflexivity. Qed.

Lemma bind_raise {A B} (e : exn) (k : A -> M B) s :
  bind (raise e) k s = mkRun (Raised e) s [].
Proof. apply bind_raised. reflexivity. Qed.

Lemma bind_assoc {A B C} (m : M A) (f : A -> M B) (g : B -> M C) s :
  bind (bind m f) g s = bind m (fun x => bind (f x) g) s.
Proof.
  unfold bind. destruct (m s) as [[a | e] s1 t1]; simpl; [| reflexivity].
  destruct (f a s1) as [[b | e] s2 t2]; simpl; [| reflexivity].
  unfold prepend; simpl. rewrite app_assoc. reflexivity.
Qed.

Lemma ret_run {A} (a : A) s : ret a s = mkRun (Returned a) s [].
Proof. reflexivity. Qed.

Lemma raise_run {A} (e : exn) s : @raise A e s = mkRun (Raised e) s [].
Proof. reflexivity. Qed.

Lemma emit_run (e : event) s : emit e s = mkRun (Returned tt) s [e].
Proof. reflexivity. Qed.

Lemma modify_run (f : State -> State) s : modify f s = mkRun (Returned tt) (f s) [].
Proof. reflexivity. Qed.

Lemma get_run {A} (f : State -> A) s : get f s = mkRun (Returned (f s)) s [].
Proof. reflexivity. Qed.

(** One pass of symbolic execution: the binds are reassociated, the
    primitive at the head is run, and the fields of the state are read. *)
Ltac exec_step :=
  first [ rewrite bind_assoc | rewrite bind_ret | rewrite bind_get
        | rewrite bind_modify | rewrite bind_emit | rewrite bind_raise
        | rewrite ret_run | rewrite raise_run | rewrite emit_run
        | rewrite modify_run | rewrite get_run
        | rewrite prepend_mkRun | rewrite prepend_prepend ].

Ltac exec_fields :=
  cbn [platform_system home_dir cur_dir fs environ random_state heap
       g_app_config probe_succeeded app_state_app_config
       set_fs set_environ set_random_state set_heap set_probe_succeeded
       set_app_state_app_config set_g_app_config path_flavour abspath stat
       res st evs app when].

Ltac exec :=
  repeat first [ exec_step | progress exec_fields | progress cbv beta iota zeta ].

Lemma lifespan_config_lookup (fl : flavour) (p : Path) :
  lifespan_config fl p !! "chroma_collection_name" = Some (PyStr "Biography_of_Christopher_Diaz")
  /\ lifespan_config fl p !! "path_chroma_db"
     = Some (PyPath (joinpath (Path_of_string fl "/tmp") "chroma_langchain_db"))
  /\ lifespan_config fl p !! "bucket_mount_path" = Some (PyPath p)
  /\ lifespan_config fl p !! "llm_provider" = Some (PyStr "openai")
  /\ lifespan_config fl p !! "embedding_model" = Some (PyStr "text-embedding-3-small")
  /\ lifespan_config fl p !! "max_step_iterations" = Some (PyInt 3).
Proof. unfold lifespan_config. repeat split; simplify_map_eq; reflexivity. Qed.

Lemma lifespan_publish_run (path_bucket_mount : Path) (s : State) :
  let d := lifespan_config (path_flavour s) path_bucket_mount in
  lifespan_publish path_bucket_mount s =
  mkRun (Returned tt)
        (set_app_state_app_config (Some (length (heap s))) (set_heap (heap s ++ [d]) s))
        [Print "chroma_collection_name: Biography_of_Christopher_Diaz";
         Print ("path_chroma_db: " +:+ Path_str (joinpath (Path_of_string (path_flavour s) "/tmp") "chroma_langchain_db"));
         Print ("bucket_mount_path: " +:+ Path_str path_bucket_mount)].
Proof.
  intros d. unfold lifespan_publish.
  autounfold with prims.
  destruct (lifespan_config_lookup (path_flavour s) path_bucket_mount) as (H1 & H2 & H3 & _).
  repeat first [ rewrite H1 | rewrite H2 | rewrite H3
               | rewrite list_lookup_middle by reflexivity
               | exec_step | progress exec_fields
               | progress cbv beta iota zeta | progress cbn [py_str] ].
  reflexivity.
Qed.

(** ** The readiness probe *)

Lemma startup_probe_ready (s : State) :
  probe_succeeded s = true ->
  startup_probe s = mkRun (Returned ready_again) s [].
Proof.
  intros H. unfold startup_probe. rewrite bind_get, H. reflexivity.
Qed.

Lemma startup_probe_pending_run (s : State) :
  probe_succeeded s = false ->
  startup_probe s =
  if node_is_file (stat (mount_marker s) s) then
    mkRun (Returned ready_first) (set_probe_succeeded true s)
          [Print ("os.environ.get('MOUNT_PATH'): " +:+ default "None" (environ s !! "MOUNT_PATH"));
           FsCheck CkIsFile (mount_marker s) true;
           Print ("INFO: Startup probe succeeded. FUSE file found at: "
                  +:+ Path_str (mount_marker s) +:+ ". Starting Lifespan...")]
  else
    mkRun (Raised (HTTPException 503 "Waiting for GCS FUSE mount to stabilize.")) s
          [Print ("os.environ.get('MOUNT_PATH'): " +:+ default "None" (environ s !! "MOUNT_PATH"));
           FsCheck CkIsFile (mount_marker s) false;
           Print ("INFO: Startup probe failed: " +:+ Path_str (mount_marker s)
                  +:+ " not found. Waiting...")].
Proof.
  intros H. unfold startup_probe. rewrite bind_get, H.
  autounfold with prims. exec.
  fold (mount_root s). fold (mount_marker s).
  change (lookup_path (fs s)
            (resolve (Path_of_string (path_flavour s) (cur_dir s)) (mount_marker s)))
    with (stat (mount_marker s) s).
  destruct (node_is_file (stat (mount_marker s) s)); exec; reflexivity.
Qed.

(** ** What no operation undoes *)

Global Instance grows_preorder : PreOrder grows.
Proof.
  split.
  - intros s. unfold grows. repeat split; auto.
    exists []. rewrite app_nil_r. reflexivity.
  - intros s1 s2 s3 (Hg & Hp & [k Hk] & Ha) (Hg' & Hp' & [k' Hk'] & Ha').
    unfold grows. repeat split.
    + congruence.
    + auto.
    + exists (k ++ k'). rewrite Hk', Hk, app_assoc. reflexivity.
    + destruct Ha' as [Ha' | (l & Hl & Hle)].
      * rewrite Ha'. exact Ha.
      * right. exists l. split; [exact Hl |].
        rewrite Hk, length_app in Hle. lia.
Qed.

Global Instance same_config_preorder : PreOrder same_config.
Proof.
  split.
  - intros s. unfold same_config. auto.
  - intros s1 s2 s3 (H1 & H2 & H3) (H1' & H2' & H3'). unfold same_config.
    repeat split; congruence.
Qed.

Lemma only_world_same_config (s s' : State) : only_world s s' -> same_config s s'.
Proof. intros H. rewrite H. unfold same_config. auto. Qed.

Lemma only_world_grows (s s' : State) : only_world s s' -> grows s s'.
Proof.
  intros H. rewrite H. unfold grows; simpl. repeat split; auto.
  exists []. rewrite app_nil_r. reflexivity.
Qed.

Lemma startup_probe_state (s : State) :
  st (startup_probe s) = s \/ st (startup_probe s) = set_probe_succeeded true s.
Proof.
  destruct (probe_succeeded s) eqn:Hp.
  - rewrite startup_probe_ready by exact Hp. left. reflexivity.
  - rewrite startup_probe_pending_run by exact Hp.
    destruct (node_is_file _); [right | left]; reflexivity.
Qed.

Lemma startup_probe_grows (s : State) : grows s (st (startup_probe s)).
Proof.
  destruct (startup_probe_state s) as [-> | ->]; [reflexivity |].
  unfold grows; simpl. repeat split; auto.
  exists []. rewrite app_nil_r. reflexivity.
Qed.

Lemma startup_probe_same_config (s : State) : same_config s (st (startup_probe s)).
Proof.
  destruct (startup_probe_state s) as [-> | ->]; [reflexivity |].
  unfold same_config; simpl. auto.
Qed.

Lemma lifespan_publish_grows (p : Path) (s : State) : grows s (st (lifespan_publish p s)).
Proof.
  pose proof (lifespan_publish_run p s) as H. cbv zeta in H. rewrite H.
  unfold grows; simpl. repeat split; auto.
  - eexists. reflexivity.
  - right. eexists. split; [reflexivity | lia].
Qed.

Lemma lifespan_branch_frame (cred : bool) outside :
  respects only_world any_event (if cred then lifespan_local else lifespan_deployed outside).
Proof. destruct cred; [apply lifespan_local_frame | apply lifespan_deployed_frame]. Qed.

Lemma lifespan_startup_grows outside (s : State) :
  grows s (st (lifespan_startup outside s)).
Proof.
  assert (Hw : forall A (m : M A), respects only_world any_event m -> respects grows any_event m).
  { intros A m. apply respects_weaken; [apply only_world_grows | auto]. }
  assert (H : respects grows any_event (lifespan_startup outside)).
  { unfold lifespan_startup, lifespan_configure.
    frame_step; [| apply Hw, lifespan_selftest_frame].
    frame_step; [apply respects_emit; [typeclasses eauto | exact I] |].
    frame_step; [apply Hw, gcp_json_credentials_exist_frame |].
    frame_step; [apply Hw, lifespan_branch_frame |].
    intros s0. split; [apply lifespan_publish_grows |].
    apply Forall_forall. intros e _. exact I. }
  apply H.
Qed.

Lemma handle_same_config (r : request) (s : State) : same_config s (handle r s).
Proof.
  destruct r as [| | input_data]; simpl.
  - apply startup_probe_same_config.
  - replace (st (read_root s)) with s; [reflexivity | apply read_root_frame].
  - replace (st (simple_calculator input_data s)) with s;
      [reflexivity | apply (simple_calculator_frame input_data)].
Qed.

Lemma handle_grows (r : request) (s : State) : grows s (handle r s).
Proof.
  destruct r as [| | input_data]; simpl.
  - apply startup_probe_grows.
  - replace (st (read_root s)) with s; [reflexivity | apply read_root_frame].
  - replace (st (simple_calculator input_data s)) with s;
      [reflexivity | apply (simple_calculator_frame input_data)].
Qed.

Lemma step_grows (o : op) (s : State) : grows s (step s o).
Proof.
  destruct o as [r | outside | | change]; simpl.
  - apply handle_grows.
  - apply lifespan_startup_grows.
  - apply only_world_grows, lifespan_shutdown_frame.
  - apply only_world_grows. destruct s; reflexivity.
Qed.

Lemma run_ops_grows (ops : list op) (s : State) : grows s (run_ops ops s).
Proof.
  revert s. induction ops as [| o ops IH]; intros s; simpl.
  - reflexivity.
  - etransitivity; [apply step_grows | apply IH].
Qed.

(** Without a second start-up, the configuration stays as it is. *)
Lemma step_same_config (o : op) (s : State) :
  is_startup o = false -> same_config s (step s o).
Proof.
  destruct o as [r | outside | | change]; simpl; intros Hs.
  - apply handle_same_config.
  - discriminate.
  - apply only_world_same_config, lifespan_shutdown_frame.
  - unfold same_config; simpl. auto.
Qed.

Lemma run_ops_same_config (ops : list op) (s : State) :
  forallb (fun o => negb (is_startup o)) ops = true -> same_config s (run_ops ops s).
Proof.
  revert s. induction ops as [| o ops IH]; intros s; simpl.
  - reflexivity.
  - intros H. apply andb_prop in H as [Ho Hops].
    etransitivity; [apply step_same_config | apply IH; exact Hops].
    destruct (is_startup o); [discriminate | reflexivity].
Qed.

(** C1. The readiness probe is monotonic: once [startup_probe] has
    returned, the flag [probe_succeeded] is true and no operation (a request,
    the start-up or the shut-down of [lifespan], any change made to the file
    system from outside, so also the removal of the marker file) sets it
    back; every later call of [startup_probe] returns the body with status
    ok, records no action at all (so no file system check) and leaves the
    state as it is. *)
Theorem startup_probe_monotonic (s : State) (body : list (string * string))
        (ops : list op) :
  res (startup_probe s) = Returned body ->
  let s1 := st (startup_probe s) in
  let s2 := run_ops ops s1 in
  probe_succeeded s1 = true
  /\ probe_succeeded s2 = true
  /\ startup_probe s2 =
     mkRun (Returned [("status", "ok"); ("message", "FUSE mount and probe confirmed ready.")])
           s2 [].
Proof.
  intros Hres s1 s2.
  assert (H1 : probe_succeeded s1 = true).
  { subst s1. destruct (probe_succeeded s) eqn:Hp.
    - rewrite startup_probe_ready by exact Hp. exact Hp.
    - rewrite startup_probe_pending_run in Hres |- * by exact Hp.
      destruct (node_is_file _); [reflexivity | discriminate]. }
  assert (H2 : probe_succeeded s2 = true).
  { destruct (run_ops_grows ops s1) as (_ & Hflag & _). apply Hflag, H1. }
  split; [exact H1 |]. split; [exact H2 |].
  apply startup_probe_ready, H2.
Qed.


(** ** The module-level [app_config] *)

Lemma module_load_run system home cur f e r :
  module_load (process_start system home cur f e r) =
  mkRun (Returned tt)
        (mkState system home cur f e r [app_config_literal] (Some 0) false None)
        [Print "'api_mcp_fastapi_server.py'  v0.0.0"].
Proof.
  unfold module_load, process_start. autounfold with prims. exec. reflexivity.
Qed.

Lemma app_config_literal_lookup :
  app_config_literal !! "llm_provider" = Some (PyStr "openai")
  /\ app_config_literal !! "embedding_model" = Some (PyStr "text-embedding-3-small")
  /\ app_config_literal !! "max_step_iterations" = Some (PyInt 3)
  /\ app_config_literal !! "path_chroma_db" = Some PyNone
  /\ app_config_literal !! "chroma_collection_name" = Some (PyStr "Biography_of_Christopher_Diaz")
  /\ app_config_literal !! "bucket_mount_path" = Some PyNone.
Proof. unfold app_config_literal. repeat split; simplify_map_eq; reflexivity. Qed.

(** C10. The module-level dict [app_config] is never mutated: whatever
    operations follow the loading of the module, the name [app_config] still
    refers to the dict object made at load time, that object still has all
    its initial values, with [None] for [path_chroma_db] and
    [bucket_mount_path], and [app.state.app_config] is never that object:
    [lifespan] publishes a dict object of its own. *)
Theorem module_app_config_never_mutated system home cur f e r (ops : list op) :
  let s0 := st (module_load (process_start system home cur f e r)) in
  let s := run_ops ops s0 in
  exists l,
    g_app_config s0 = Some l
    /\ g_app_config s = Some l
    /\ heap s0 !! l = Some app_config_literal
    /\ heap s !! l = Some app_config_literal
    /\ app_config_literal !! "path_chroma_db" = Some PyNone
    /\ app_config_literal !! "bucket_mount_path" = Some PyNone
    /\ app_state_app_config s <> Some l.
Proof.
  intros s0 s. subst s s0. rewrite module_load_run. simpl st.
  set (s0 := mkState system home cur f e r [app_config_literal] (Some 0) false None).
  destruct (run_ops_grows ops s0) as (Hg & _ & [k Hk] & Ha).
  exists 0. split; [reflexivity |]. split; [exact Hg |].
  split; [reflexivity |]. split; [rewrite Hk; reflexivity |].
  destruct app_config_literal_lookup as (_ & _ & _ & Hp & _ & Hb).
  split; [exact Hp |]. split; [exact Hb |].
  destruct Ha as [Ha | (l & Hl & Hle)].
  - rewrite Ha. discriminate.
  - rewrite Hl. simpl in Hle. intros [= ->]. lia.
Qed.

(** ** The waiting loop *)

Lemma fs_at_from outside f n : fs_at outside f n = fs_from outside 0 f n.
Proof. induction n as [| n IH]; simpl; [reflexivity | rewrite IH; reflexivity]. Qed.

Lemma fs_from_front outside i0 f k :
  fs_from outside i0 f (S k) = fs_from outside (S i0) (outside i0 f) k.
Proof.
  induction k as [| k IH].
  - simpl. rewrite Nat.add_0_r. reflexivity.
  - change (fs_from outside i0 f (S (S k)))
      with (outside (i0 + S k) (fs_from outside i0 f (S k))).
    rewrite IH. simpl. rewrite Nat.add_succ_r. reflexivity.
Qed.

Lemma set_environ_same (s : State) : set_environ (environ s) s = s.
Proof. destruct s; reflexivity. Qed.

Lemma set_fs_same (s : State) : set_fs (fs s) s = s.
Proof. destruct s; reflexivity. Qed.

Lemma load_dotenv_run (p : Path) (s : State) :
  load_dotenv p s = mkRun (Returned tt) (set_environ (loaded_environ s p) s) [LoadDotenv p].
Proof.
  unfold load_dotenv, loaded_environ. rewrite bind_emit, bind_get.
  destruct (stat p s) as [[c |] |].
  - rewrite modify_run. reflexivity.
  - rewrite ret_run, set_environ_same. reflexivity.
  - rewrite ret_run, set_environ_same. reflexivity.
Qed.

Lemma wait_for_fuse_body_found (p : Path) outside (i : nat) (s : State) :
  node_is_file (stat p s) = true ->
  wait_for_fuse_body p outside i s =
  mkRun (Returned Break) (set_environ (loaded_environ s p) s) (found_check p).
Proof.
  intros H. unfold wait_for_fuse_body, Path_is_file.
  rewrite bind_assoc, bind_get, H. exec.
  rewrite (bind_returned _ _ _ _ _ _ (load_dotenv_run p s)).
  exec. reflexivity.
Qed.

Lemma wait_for_fuse_body_failed (p : Path) outside (i : nat) (s : State) :
  node_is_file (stat p s) = false ->
  wait_for_fuse_body p outside i s =
  mkRun (Returned Continue) (set_fs (outside i (fs s)) s) (failed_check p i).
Proof.
  intros H. unfold wait_for_fuse_body, Path_is_file, asyncio_sleep, print.
  rewrite bind_assoc, bind_get, H. exec. reflexivity.
Qed.

Lemma stat_set_fs (p : Path) (f : gmap Path node) (s : State) :
  stat p (set_fs f s) = lookup_path f (abspath s p).
Proof. reflexivity. Qed.

(** The loop over the iterations [i0], [i0 + 1], ... when the check after
    [k] sleeps is the first that finds the file. *)
Lemma wait_loop_found (p : Path) outside (k : nat) :
  forall (n i0 : nat) (s : State),
    k < n ->
    (forall j, j < k ->
       node_is_file (lookup_path (fs_from outside i0 (fs s) j) (abspath s p)) = false) ->
    node_is_file (lookup_path (fs_from outside i0 (fs s) k) (abspath s p)) = true ->
    for_else (seq i0 n) (wait_for_fuse_body p outside) wait_for_fuse_else s =
    mkRun (Returned tt)
          (set_environ (loaded_environ (set_fs (fs_from outside i0 (fs s) k) s) p)
                       (set_fs (fs_from outside i0 (fs s) k) s))
          (flat_map (failed_check p) (seq i0 k) ++ found_check p).
Proof.
  induction k as [| k IH]; intros n i0 s Hlt Hnot Hfound.
  - destruct n as [| n]; [lia |].
    simpl seq. simpl for_else.
    simpl fs_from in *.
    rewrite (bind_returned _ _ _ _ _ _ (wait_for_fuse_body_found p outside i0 s Hfound)).
    rewrite ret_run, prepend_mkRun, app_nil_r.
    rewrite set_fs_same. reflexivity.
  - destruct n as [| n]; [lia |].
    simpl seq. simpl for_else.
    assert (H0 : node_is_file (stat p s) = false) by (apply (Hnot 0); lia).
    rewrite (bind_returned _ _ _ _ _ _ (wait_for_fuse_body_failed p outside i0 s H0)).
    rewrite (IH n (S i0) (set_fs (outside i0 (fs s)) s)).
    + rewrite prepend_mkRun. rewrite fs_from_front. simpl fs.
      cbn [seq flat_map app failed_check]. reflexivity.
    + lia.
    + intros j Hj. simpl fs. rewrite <- fs_from_front. apply (Hnot (S j)). lia.
    + simpl fs. rewrite <- fs_from_front. exact Hfound.
Qed.


(** The loop never raises. *)
Lemma wait_for_fuse_returns (p : Path) outside (s : State) :
  res (wait_for_fuse p outside s) = Returned tt.
Proof.
  unfold wait_for_fuse. generalize 0 as i0. revert s.
  induction max_checks as [| n IH]; intros s i0.
  - reflexivity.
  - simpl seq. simpl for_else.
    destruct (node_is_file (stat p s)) eqn:H.
    + rewrite (bind_returned _ _ _ _ _ _ (wait_for_fuse_body_found p outside i0 s H)).
      reflexivity.
    + rewrite (bind_returned _ _ _ _ _ _ (wait_for_fuse_body_failed p outside i0 s H)).
      rewrite res_prepend. apply IH.
Qed.

(** ** The deployment path of [lifespan] *)

Lemma lifespan_deployed_unfold outside (s : State) :
  lifespan_deployed outside s =
  prepend [Print ("INFO: Detected Cloud Run/Deployment environment. .env path: "
                  +:+ Path_str (mount_marker s))]
          (bind (wait_for_fuse (mount_marker s) outside) (fun _ => ret (mount_root s)) s).
Proof.
  unfold lifespan_deployed, environ_get_default, print.
  rewrite bind_get, bind_get. cbv zeta. rewrite bind_emit. reflexivity.
Qed.

Lemma count_checks_failed (p : Path) (l : list nat) :
  length (List.filter is_fs_check (flat_map (failed_check p) l)) = length l.
Proof. induction l as [| i l IH]; simpl; [reflexivity | rewrite IH; reflexivity]. Qed.

Lemma count_sleeps_failed (p : Path) (l : list nat) :
  length (List.filter is_sleep (flat_map (failed_check p) l)) = length l.
Proof. induction l as [| i l IH]; simpl; [reflexivity | rewrite IH; reflexivity]. Qed.

Lemma no_load_failed (p : Path) (l : list nat) :
  List.filter is_load (flat_map (failed_check p) l) = [].
Proof. induction l as [| i l IH]; simpl; [reflexivity | exact IH]. Qed.

(** C3. In the deployment path, when the marker file is first there at
    the [N]-th check, 1 <= N <= 10, the waiting loop makes exactly [N]
    checks: [N - 1] times a check that fails, a printed line and a sleep of
    half a second, then the check that succeeds, followed at once by the
    loading of the environment file and the end of the loop.  So there are
    [N - 1] sleeps, each between two checks, and nothing is loaded before
    the [N]-th check. *)
Theorem wait_loop_exact_checks outside (s : State) (N : nat) :
  1 <= N <= max_checks ->
  (forall j, j < N - 1 -> marker_seen outside s (mount_marker s) j = false) ->
  marker_seen outside s (mount_marker s) (N - 1) = true ->
  let r := lifespan_deployed outside s in
  let marker := mount_marker s in
  res r = Returned (mount_root s)
  /\ evs r = Print ("INFO: Detected Cloud Run/Deployment environment. .env path: "
                    +:+ Path_str marker)
             :: flat_map (failed_check marker) (seq 0 (N - 1)) ++ found_check marker
  /\ length (List.filter is_fs_check (evs r)) = N
  /\ length (List.filter is_sleep (evs r)) = N - 1
  /\ List.filter is_load (evs r) = [LoadDotenv marker]
  /\ check_period = (1 # 2)%Q.
Proof.
  intros [H1 H10] Hnot Hfound r marker. subst r marker.
  unfold marker_seen in *.
  rewrite lifespan_deployed_unfold. unfold wait_for_fuse.
  rewrite (bind_returned _ _ _ _ _ _
             (wait_loop_found (mount_marker s) outside (N - 1) max_checks 0 s
                ltac:(lia)
                ltac:(intros j Hj; rewrite <- fs_at_from; apply Hnot; exact Hj)
                ltac:(rewrite <- fs_at_from; exact Hfound))).
  rewrite ret_run, !prepend_mkRun, app_nil_r.
  cbn [res evs app].
  split; [reflexivity |]. split; [reflexivity |].
  cbn [List.filter is_fs_check is_sleep is_load].
  rewrite !List.filter_app, !length_app.
  rewrite count_checks_failed, count_sleeps_failed, no_load_failed, length_seq.
  cbn. repeat split; first [lia | reflexivity].
Qed.

(** ** The configuration step of [lifespan] *)

Lemma gcp_json_credentials_exist_run (verbose b : bool) (s : State) :
  res (gcp_json_credentials_exist verbose s) = Returned b ->
  gcp_json_credentials_exist verbose s
  = mkRun (Returned b) s (evs (gcp_json_credentials_exist verbose s)).
Proof.
  intros H. rewrite (run_eta (gcp_json_credentials_exist verbose s)) at 1.
  rewrite H, gcp_json_credentials_exist_state. reflexivity.
Qed.

Lemma gcp_json_credentials_exist_events (verbose : bool) (s : State) :
  Forall is_observation (evs (gcp_json_credentials_exist verbose s)).
Proof. apply (gcp_json_credentials_exist_pure verbose s). Qed.

(** The configuration step in the deployment path. *)
Lemma lifespan_configure_deployed outside (s : State) :
  res (gcp_json_credentials_exist false s) = Returned false ->
  lifespan_configure outside s =
  prepend (Print "Application lifespan startup sequence initiated."
           :: evs (gcp_json_credentials_exist false s)
           ++ evs (lifespan_deployed outside s))
          (lifespan_publish (mount_root s) (st (lifespan_deployed outside s))).
Proof.
  intros Hc. unfold lifespan_configure, print.
  rewrite bind_emit.
  rewrite (bind_returned _ _ _ _ _ _ (gcp_json_credentials_exist_run false false s Hc)).
  assert (Hd : lifespan_deployed outside s
               = mkRun (Returned (mount_root s)) (st (lifespan_deployed outside s))
                       (evs (lifespan_deployed outside s))).
  { rewrite (run_eta (lifespan_deployed outside s)) at 1. f_equal.
    rewrite lifespan_deployed_unfold, res_prepend. unfold bind.
    rewrite wait_for_fuse_returns. reflexivity. }
  rewrite (bind_returned _ _ _ _ _ _ Hd).
  rewrite !prepend_prepend. reflexivity.
Qed.

Lemma no_load_observations (l : list event) :
  Forall is_observation l -> List.filter is_load l = [].
Proof.
  induction 1 as [| e l He _ IH]; [reflexivity |].
  destruct e; try contradiction; exact IH.
Qed.

Lemma only_world_heap (s s' : State) : only_world s s' -> heap s' = heap s.
Proof. intros H. rewrite H. reflexivity. Qed.

Lemma only_world_flavour (s s' : State) : only_world s s' -> path_flavour s' = path_flavour s.
Proof. intros H. rewrite H. reflexivity. Qed.

Lemma only_world_app_state (s s' : State) :
  only_world s s' -> app_state_app_config s' = app_state_app_config s.
Proof. intros H. rewrite H. reflexivity. Qed.

Lemma lifespan_startup_unfold outside (s : State) :
  res (lifespan_configure outside s) = Returned tt ->
  lifespan_startup outside s =
  prepend (evs (lifespan_configure outside s))
          (lifespan_selftest (st (lifespan_configure outside s))).
Proof.
  intros H. unfold lifespan_startup.
  apply (bind_returned (lifespan_configure outside) (fun _ => lifespan_selftest) s tt).
  rewrite (run_eta (lifespan_configure outside s)) at 1. rewrite H. reflexivity.
Qed.


(** ** The local development path of [lifespan] *)

Lemma lifespan_local_run (s : State) :
  lifespan_local s =
  if node_is_file (stat (local_marker s) s) then
    mkRun (Returned (local_root s))
          (set_environ (loaded_environ s (local_marker s)) s)
          [Print ("INFO: Detected Local Development environment. .env path: "
                  +:+ Path_str (local_marker s));
           FsCheck CkIsFile (local_marker s) true;
           LoadDotenv (local_marker s);
           Print "INFO: Local environment variables loaded successfully."]
  else
    mkRun (Raised (Exception ["CRITICAL: .env file not found locally at "
                              +:+ Path_str (local_marker s) +:+ ". Cannot start."]))
          s
          [Print ("INFO: Detected Local Development environment. .env path: "
                  +:+ Path_str (local_marker s));
           FsCheck CkIsFile (local_marker s) false].
Proof.
  unfold lifespan_local, Path_cwd, Path_is_file, print.
  rewrite bind_get. cbv zeta. fold (local_root s). fold (local_marker s).
  rewrite bind_emit, bind_assoc, bind_get, bind_assoc, bind_emit, bind_ret.
  destruct (node_is_file (stat (local_marker s) s)); cbn [negb when].
  - rewrite bind_ret.
    rewrite (bind_returned _ _ _ _ _ _ (load_dotenv_run (local_marker s) s)).
    rewrite bind_emit, ret_run, !prepend_mkRun. reflexivity.
  - rewrite bind_raise, !prepend_mkRun. reflexivity.
Qed.

(** C4. In the local development path, when there is no [.env] file in
    the current working directory, the start-up raises and stops there: the
    state of the process is left as it was, so nothing is published on
    [app.state.app_config] and no variable is put into the environment, and
    no environment file is loaded. *)
Theorem lifespan_local_missing_env outside (s : State) :
  res (gcp_json_credentials_exist false s) = Returned true ->
  node_is_file (stat (local_marker s) s) = false ->
  let r := lifespan_startup outside s in
  res r = Raised (Exception ["CRITICAL: .env file not found locally at "
                             +:+ Path_str (local_marker s) +:+ ". Cannot start."])
  /\ st r = s
  /\ app_state_app_config (st r) = app_state_app_config s
  /\ heap (st r) = heap s
  /\ environ (st r) = environ s
  /\ List.filter is_load (evs r) = [].
Proof.
  intros Hc Hno r.
  assert (Hr : r = mkRun (Raised (Exception ["CRITICAL: .env file not found locally at "
                                            +:+ Path_str (local_marker s)
                                            +:+ ". Cannot start."]))
                        s
                        (Print "Application lifespan startup sequence initiated."
                         :: evs (gcp_json_credentials_exist false s)
                         ++ [Print ("INFO: Detected Local Development environment. .env path: "
                                    +:+ Path_str (local_marker s));
                             FsCheck CkIsFile (local_marker s) false])).
  { subst r. unfold lifespan_startup, lifespan_configure, print.
    rewrite bind_assoc, bind_emit, bind_assoc.
    rewrite (bind_returned _ _ _ _ _ _ (gcp_json_credentials_exist_run false true s Hc)).
    rewrite bind_assoc.
    pose proof (lifespan_local_run s) as Hl. rewrite Hno in Hl.
    rewrite (bind_raised _ _ _ _ _ _ Hl).
    rewrite !prepend_mkRun. reflexivity. }
  rewrite Hr. cbn [res st evs].
  repeat split.
  cbn [List.filter is_load]. rewrite List.filter_app. cbn [List.filter is_load].
  rewrite app_nil_r.
  apply no_load_observations, gcp_json_credentials_exist_events.
Qed.

(** ** The configuration record *)

Lemma tmp_chroma_path (fl : flavour) :
  joinpath (Path_of_string fl "/tmp") "chroma_langchain_db"
  = mkPath fl (sep_string fl) ["tmp"; "chroma_langchain_db"].
Proof. destruct fl; reflexivity. Qed.

(** When the configuration step returns, it has made one record, from the
    root that the detection of the environment resolved, and has put it on
    [app.state.app_config]. *)
Lemma lifespan_configure_returned outside (s : State) :
  res (lifespan_configure outside s) = Returned tt ->
  exists cred : bool,
    res (gcp_json_credentials_exist false s) = Returned cred
    /\ heap (st (lifespan_configure outside s))
       = heap s ++ [lifespan_config (path_flavour s)
                                    (if cred then local_root s else mount_root s)]
    /\ app_state_app_config (st (lifespan_configure outside s)) = Some (length (heap s)).
Proof.
  intros H.
  destruct (res (gcp_json_credentials_exist false s)) as [cred | e] eqn:Hc.
  - exists cred. split; [reflexivity |].
    destruct cred.
    + (* local development *)
      revert H. unfold lifespan_configure, print.
      rewrite bind_emit.
      rewrite (bind_returned _ _ _ _ _ _ (gcp_json_credentials_exist_run false true s Hc)).
      cbv beta iota.
      pose proof (lifespan_local_run s) as Hl.
      destruct (node_is_file (stat (local_marker s) s)).
      * rewrite (bind_returned _ _ _ _ _ _ Hl).
        pose proof (lifespan_publish_run (local_root s)
                      (set_environ (loaded_environ s (local_marker s)) s)) as Hp.
        cbv zeta in Hp. rewrite Hp. intros _. split; reflexivity.
      * rewrite (bind_raised _ _ _ _ _ _ Hl). discriminate.
    + (* deployment *)
      rewrite (lifespan_configure_deployed outside s Hc).
      pose proof (lifespan_publish_run (mount_root s) (st (lifespan_deployed outside s))) as Hp.
      cbv zeta in Hp. rewrite Hp. cbn [st prepend set_heap set_app_state_app_config heap
                                          app_state_app_config].
      pose proof (lifespan_deployed_frame outside s) as [Hw _].
      rewrite (only_world_heap _ _ Hw), (only_world_flavour _ _ Hw).
      split; reflexivity.
  - exfalso. revert H. unfold lifespan_configure, print.
    rewrite bind_emit.
    erewrite bind_raised; [discriminate |].
    rewrite (run_eta (gcp_json_credentials_exist false s)) at 1. rewrite Hc. reflexivity.
Qed.

(** C8. When the configuration step of the start-up returns, it has made
    exactly one record and published it on [app.state.app_config]: the
    provider is openai, the embedding model text-embedding-3-small, the
    iteration limit 3, the collection Biography_of_Christopher_Diaz,
    [path_chroma_db] is chroma_langchain_db under /tmp, whatever the mount
    root is, and [bucket_mount_path] is the root resolved by the detection
    of the environment (the working directory with local credentials, the
    mount path without).  The rest of the start-up and every later operation
    other than a start-up leave the record and the reference to it as they
    are. *)
Theorem lifespan_publishes_config outside (s : State) (ops : list op) :
  res (lifespan_configure outside s) = Returned tt ->
  forallb (fun o => negb (is_startup o)) ops = true ->
  let s1 := st (lifespan_configure outside s) in
  let s2 := run_ops ops (st (lifespan_startup outside s)) in
  let fl := path_flavour s in
  exists (cred : bool) (record : gmap string pyval),
    res (gcp_json_credentials_exist false s) = Returned cred
    /\ heap s1 = heap s ++ [record]
    /\ app_state_app_config s1 = Some (length (heap s))
    /\ record !! "llm_provider" = Some (PyStr "openai")
    /\ record !! "embedding_model" = Some (PyStr "text-embedding-3-small")
    /\ record !! "max_step_iterations" = Some (PyInt 3)
    /\ record !! "path_chroma_db"
       = Some (PyPath (mkPath fl (sep_string fl) ["tmp"; "chroma_langchain_db"]))
    /\ record !! "chroma_collection_name" = Some (PyStr "Biography_of_Christopher_Diaz")
    /\ record !! "bucket_mount_path"
       = Some (PyPath (if cred then local_root s else mount_root s))
    /\ heap s2 = heap s ++ [record]
    /\ app_state_app_config s2 = Some (length (heap s))
    /\ heap s2 !! length (heap s) = Some record.
Proof.
  intros Hres Hops s1 s2 fl.
  destruct (lifespan_configure_returned outside s Hres) as (cred & Hc & Hheap & Happ).
  exists cred, (lifespan_config fl (if cred then local_root s else mount_root s)).
  destruct (lifespan_config_lookup fl (if cred then local_root s else mount_root s))
    as (Hcoll & Hpath & Hmount & Hllm & Hemb & Hmax).
  rewrite tmp_chroma_path in Hpath.
  assert (Hsame : same_config s1 s2).
  { subst s2. rewrite (lifespan_startup_unfold outside s Hres), st_prepend.
    etransitivity.
    - apply only_world_same_config, lifespan_selftest_frame.
    - apply run_ops_same_config, Hops. }
  destruct Hsame as (Hh & _ & Ha).
  assert (Hheap2 : heap s2 = heap s ++ [lifespan_config fl (if cred then local_root s
                                                                 else mount_root s)]).
  { rewrite Hh. exact Hheap. }
  repeat split; try assumption.
  - rewrite Ha. exact Happ.
  - rewrite Hheap2. apply list_lookup_middle. reflexivity.
Qed.

(** ** The handlers of functional requests *)

Lemma lifespan_configure_started outside (s : State) :
  res (lifespan_configure outside s) = Returned tt ->
  started (st (lifespan_configure outside s)).
Proof.
  intros H. destruct (lifespan_configure_returned outside s H) as (cred & _ & Hh & Ha).
  exists (length (heap s)), (path_flavour s), (if cred then local_root s else mount_root s).
  split; [exact Ha |]. rewrite Hh. apply list_lookup_middle. reflexivity.
Qed.

Lemma started_same_config (s s' : State) : same_config s s' -> started s -> started s'.
Proof.
  intros (Hh & _ & Ha) (l & fl & p & Hl & Hd). exists l, fl, p.
  rewrite Ha, Hh. split; assumption.
Qed.

Lemma read_root_run (s : State) :
  started s ->
  exists lines,
    read_root s =
    mkRun (Returned [("status", "ok");
                     ("message",
                      if truthy (environ s !! "OPENAI_API_KEY")
                      then "Server is running. See /docs for API schema."
                      else "Server is running, BUT OPENAI_API_KEY not found!.")])
          s lines.
Proof.
  intros (l & fl & p & Hl & Hd).
  destruct (lifespan_config_lookup fl p) as (H1 & H2 & H3 & _).
  unfold read_root. autounfold with prims.
  repeat first [ rewrite Hl | rewrite Hd | rewrite H1 | rewrite H2 | rewrite H3
               | exec_step | progress cbv beta iota zeta ].
  destruct (truthy (environ s !! "OPENAI_API_KEY")).
  - repeat first [ exec_step | progress cbv beta iota zeta ]. eexists. reflexivity.
  - repeat first [ exec_step | progress cbv beta iota zeta ]. eexists. reflexivity.
Qed.

(** C9, as the code has it.  After the start-up, GET / always answers
    200 with status ok.  The message notes the missing key when
    OPENAI_API_KEY is absent from the environment and also when it is set to
    the empty string; it is the normal message when the variable is set to a
    string that is not empty.  The state is left as it was. *)
Theorem read_root_status (s : State) :
  started s ->
  let r := read_root s in
  let key := environ s !! "OPENAI_API_KEY" in
  http_status (res r) = 200
  /\ st r = s
  /\ (key = None \/ key = Some "" ->
      res r = Returned [("status", "ok");
                        ("message", "Server is running, BUT OPENAI_API_KEY not found!.")])
  /\ (forall v, key = Some v -> v <> "" ->
      res r = Returned [("status", "ok");
                        ("message", "Server is running. See /docs for API schema.")]).
Proof.
  intros Hs r key. subst r key.
  destruct (read_root_run s Hs) as [lines ->]. cbn [res st http_status].
  split; [reflexivity |]. split; [reflexivity |]. split.
  - intros [-> | ->]; reflexivity.
  - intros v -> Hv. destruct v as [| c v]; [contradiction | reflexivity].
Qed.

Lemma simple_calculator_run (input_data : ToolInput) (s : State) :
  simple_calculator input_data s =
  mkRun (Returned
           (mkToolOutput
              (PrimFloat.add (num1 input_data) (num2 input_data))
              (if String.eqb (operation input_data) "add"
               then "Successfully calculated the sum of " +:+ float_repr (num1 input_data)
                    +:+ " and " +:+ float_repr (num2 input_data) +:+ "."
               else "Operation '" +:+ operation input_data
                    +:+ "' not supported yet. Defaulting to addition.")))
        s [].
Proof.
  unfold simple_calculator.
  destruct (String.eqb (operation input_data) "add"); reflexivity.
Qed.

(** C7. POST /api/calculator returns [num1 + num2] whatever the
    operation is and never raises: with the operation add the message
    reports the sum, with any other operation it says that the operation is
    not supported and the result is the same sum.  So 10 and 3 with the
    operation multiply give 13. *)
Theorem simple_calculator_adds (input_data : ToolInput) (s : State) :
  let r := simple_calculator input_data s in
  let total := PrimFloat.add (num1 input_data) (num2 input_data) in
  http_status (res r) = 200
  /\ st r = s
  /\ (operation input_data = "add" ->
      res r = Returned (mkToolOutput total
                          ("Successfully calculated the sum of "
                           +:+ float_repr (num1 input_data) +:+ " and "
                           +:+ float_repr (num2 input_data) +:+ ".")))
  /\ (operation input_data <> "add" ->
      res r = Returned (mkToolOutput total
                          ("Operation '" +:+ operation input_data
                           +:+ "' not supported yet. Defaulting to addition.")))
  /\ res (simple_calculator (mkToolInput 10 3 "multiply") s)
     = Returned (mkToolOutput 13 "Operation 'multiply' not supported yet. Defaulting to addition.").
Proof.
  intros r total. subst r total. rewrite !simple_calculator_run. cbn [res st http_status].
  split; [reflexivity |]. split; [reflexivity |]. split; [| split].
  - intros ->. reflexivity.
  - intros Hne. destruct (String.eqb_spec (operation input_data) "add") as [He | _];
      [contradiction | reflexivity].
  - reflexivity.
Qed.

(** ** The self-test *)

Lemma set_random_state_same (s : State) :
  set_random_state (fun i => random_state s i) s = s.
Proof. destruct s; reflexivity. Qed.

Lemma map_m_random_choice (chars : string) {A} (xs : list A) :
  forall s : State,
    map_m (fun _ => random_choice chars) xs s =
    mkRun (Returned (drawn_chars chars (length xs) (random_state s)))
          (set_random_state (fun i => random_state s (length xs + i)) s) [].
Proof.
  induction xs as [| x xs IH]; intros s; cbn [map_m length drawn_chars].
  - rewrite ret_run. change (fun i => random_state s (0 + i)) with (fun i => random_state s i).
    rewrite set_random_state_same. reflexivity.
  - rewrite (bind_returned (random_choice chars) _ s _ _ [] eq_refl).
    rewrite prepend_nil.
    rewrite (bind_returned _ _ _ _ _ _ (IH _)).
    cbv beta. rewrite ret_run, prepend_nil. reflexivity.
Qed.

Lemma random_string_run (chars : string) (n : nat) (s : State) :
  random_string chars n s =
  mkRun (Returned (string_of_list_ascii (drawn_chars chars n (random_state s))))
        (set_random_state (fun i => random_state s (n + i)) s) [].
Proof.
  unfold random_string.
  rewrite (bind_returned _ _ _ _ _ _ (map_m_random_choice chars (seq 0 n) s)).
  rewrite ret_run, prepend_nil, length_seq. reflexivity.
Qed.

Lemma file_write_run (p : Path) (data : string) (s : State) :
  file_write p data s =
  mkRun (Returned tt)
        (set_fs (alter (append_data (write_newlines (path_flavour s) data))
                       (abspath s p) (fs s)) s)
        [FileWrite p data].
Proof. unfold file_write. rewrite bind_emit, modify_run. reflexivity. Qed.

(** The writing loop of [fileio_write], over any list of indices. *)
Lemma write_loop_run (p : Path) {A} (xs : list A) :
  forall s : State,
    for_each xs
             (fun _ => bind (random_string (ascii_letters +:+ digits) 40)
                            (fun rnd_str => file_write p (rnd_str +:+ nl))) s =
    mkRun (Returned tt)
          (set_fs (foldl (fun f line =>
                            alter (append_data (write_newlines (path_flavour s) line))
                                  (abspath s p) f)
                         (fs s) (written_lines (length xs) (random_state s)))
                  (set_random_state (fun i => random_state s (length xs * 40 + i)) s))
          (map (FileWrite p) (written_lines (length xs) (random_state s))).
Proof.
  induction xs as [| x xs IH]; intros s.
  - cbn [for_each length written_lines foldl map].
    rewrite ret_run.
    change (fun i => random_state s (0 * 40 + i)) with (fun i => random_state s i).
    rewrite set_random_state_same, set_fs_same. reflexivity.
  - cbn [for_each length written_lines foldl map].
    rewrite bind_assoc.
    rewrite (bind_returned _ _ _ _ _ _ (random_string_run (ascii_letters +:+ digits) 40 s)).
    rewrite prepend_nil.
    rewrite (bind_returned _ _ _ _ _ _ (file_write_run p _ _)).
    rewrite IH, prepend_mkRun. reflexivity.
Qed.

Lemma foldl_append_file (w : string -> string) (q : Path) (lines : list string) :
  forall (c : string) (f : gmap Path node),
    foldl (fun f line => alter (append_data (w line)) q f) (<[q := File c]> f) lines
    = <[q := File (foldl (fun c line => c +:+ w line) c lines)]> f.
Proof.
  induction lines as [| line lines IH]; intros c f; simpl.
  - reflexivity.
  - rewrite alter_insert_eq. simpl. apply IH.
Qed.

Lemma print_lines_run (lines : list string) :
  forall (i : nat) (s : State),
    print_lines i lines s = mkRun (Returned tt) s (printed_lines i lines).
Proof.
  induction lines as [| line rest IH]; intros i s; cbn [print_lines printed_lines].
  - reflexivity.
  - cbv zeta. destruct (Nat.ltb 0 (String.length (strip line))); cbn [when].
    + unfold print. rewrite bind_emit, IH. reflexivity.
    + rewrite bind_ret, IH. reflexivity.
Qed.

(** The reading half returns whatever the file holds: the lines are printed
    and compared with nothing. *)
Lemma fileio_read_back_run (p : Path) (c : string) (s : State) :
  stat p s = Some (File c) ->
  fileio_read_back p s =
  mkRun (Returned tt) s
        ([FsCheck CkIsFile p true;
          Print ("Reading line by line utf-8 text file: " +:+ Path_str p);
          ReadLines p]
         ++ printed_lines 0 (splitlines_keepends c)).
Proof.
  intros H. unfold fileio_read_back, Path_is_file, read_lines, print.
  rewrite bind_assoc, bind_get, H. cbn [node_is_file].
  rewrite bind_assoc, bind_emit, bind_ret. cbn [negb when].
  rewrite bind_ret, bind_emit, bind_assoc, bind_get, H.
  rewrite bind_assoc, bind_emit, bind_ret, print_lines_run, !prepend_mkRun.
  reflexivity.
Qed.

Lemma removelast_length {A} (l : list A) : l <> [] -> length (removelast l) < length l.
Proof.
  induction l as [| x l IH]; [contradiction |]. intros _.
  destruct l as [| y l]; [simpl; lia |].
  change (removelast (x :: y :: l)) with (x :: removelast (y :: l)).
  simpl length. apply -> Nat.succ_lt_mono. apply IH. discriminate.
Qed.

Lemma Path_parent_neq (q : Path) : p_parts q <> [] -> Path_parent q <> q.
Proof.
  intros Hne Heq. apply (f_equal p_parts) in Heq. simpl in Heq.
  pose proof (removelast_length (p_parts q) Hne) as Hlt. rewrite Heq in Hlt. lia.
Qed.

Lemma lookup_path_parts (f : gmap Path node) (q : Path) :
  lookup_path f q <> Some Dir -> p_parts q <> [] /\ lookup_path f q = f !! q.
Proof.
  unfold lookup_path. destruct (p_parts q); [intros H; contradiction |].
  intros _. split; [discriminate | reflexivity].
Qed.

Lemma lookup_path_nonempty (f : gmap Path node) (q : Path) :
  p_parts q <> [] -> lookup_path f q = f !! q.
Proof. unfold lookup_path. destruct (p_parts q); [contradiction | reflexivity]. Qed.

Lemma lookup_path_delete_parent (f : gmap Path node) (q : Path) :
  p_parts q <> [] ->
  lookup_path (delete q f) (Path_parent q) = lookup_path f (Path_parent q).
Proof.
  intros Hne. unfold lookup_path. destruct (p_parts (Path_parent q)); [reflexivity |].
  apply lookup_delete_ne. intros Heq. symmetry in Heq. revert Heq. apply Path_parent_neq, Hne.
Qed.

(** The writing half, where the directory of the file exists and the file
    is not itself a directory. *)
Lemma fileio_write_run (p : Path) (s : State) :
  lookup_path (fs s) (Path_parent (abspath s p)) = Some Dir ->
  stat p s <> Some Dir ->
  let lines := written_lines 5 (random_state s) in
  exists before,
    fileio_write p s =
    mkRun (Returned tt)
          (set_fs (<[abspath s p := File (text_of_lines (path_flavour s) lines)]> (fs s))
                  (set_random_state (fun i => random_state s (200 + i)) s))
          (before ++ map (FileWrite p) lines)
    /\ List.filter is_file_write before = [].
Proof.
  intros Hparent Hnotdir lines.
  destruct (lookup_path_parts _ _ Hnotdir) as [Hne Hlook].
  unfold fileio_write, Path_is_file, print.
  rewrite bind_emit, bind_assoc, bind_get, bind_assoc, bind_emit, bind_ret.
  cbv zeta.
  destruct (stat p s) as [[c |] |] eqn:Hstat; [| contradiction |]; cbn [node_is_file when].
  - (* the file exists: it is removed first *)
    unfold Path_unlink. rewrite bind_assoc, bind_get, Hstat.
    rewrite bind_assoc, bind_emit, bind_modify.
    set (s1 := set_fs (delete (abspath s p) (fs s)) s).
    assert (Hstat1 : stat p s1 = None).
    { unfold stat, s1; cbn [fs set_fs]. change (abspath (set_fs _ s) p) with (abspath s p).
      rewrite lookup_path_nonempty by exact Hne. apply lookup_delete_eq. }
    rewrite bind_assoc, bind_get, Hstat1. cbn [node_is_file].
    rewrite bind_assoc, bind_emit, bind_ret. cbn [when].
    rewrite bind_ret, bind_emit.
    unfold open_w. rewrite bind_assoc, bind_get, Hstat1, bind_assoc, bind_get.
    change (abspath s1 p) with (abspath s p). unfold s1 at 1; cbn [fs set_fs].
    rewrite (lookup_path_delete_parent _ _ Hne), Hparent.
    rewrite bind_assoc, bind_emit, bind_modify.
    rewrite write_loop_run. rewrite !prepend_mkRun.
    subst s1.
    exists [Print ("path_file: " +:+ Path_str p); FsCheck CkIsFile p true; Unlink p;
            FsCheck CkIsFile p false;
            Print ("Writing line by line utf-8 text file: " +:+ Path_str p); OpenWrite p].
    split; [| reflexivity].
    cbn [length seq fs set_fs random_state set_random_state].
    change (abspath (set_fs _ s) p) with (abspath s p).
    rewrite insert_delete_eq, foldl_append_file.
    unfold lines, text_of_lines. change (5 * 40) with 200.
    destruct s.
    cbn [set_fs set_random_state fs random_state platform_system home_dir cur_dir
         environ heap g_app_config probe_succeeded app_state_app_config
         path_flavour abspath app].
    reflexivity.
  - (* there is no file yet *)
    rewrite bind_ret, bind_assoc, bind_get, Hstat. cbn [node_is_file].
    rewrite bind_assoc, bind_emit, bind_ret. cbn [when].
    rewrite bind_ret, bind_emit.
    unfold open_w. rewrite bind_assoc, bind_get, Hstat, bind_assoc, bind_get, Hparent.
    rewrite bind_assoc, bind_emit, bind_modify.
    rewrite write_loop_run. rewrite !prepend_mkRun.
    exists [Print ("path_file: " +:+ Path_str p); FsCheck CkIsFile p false;
            FsCheck CkIsFile p false;
            Print ("Writing line by line utf-8 text file: " +:+ Path_str p); OpenWrite p].
    split; [| reflexivity].
    cbn [length seq fs set_fs random_state set_random_state].
    change (abspath (set_fs _ s) p) with (abspath s p).
    rewrite foldl_append_file.
    unfold lines, text_of_lines. change (5 * 40) with 200.
    destruct s.
    cbn [set_fs set_random_state fs random_state platform_system home_dir cur_dir
         environ heap g_app_config probe_succeeded app_state_app_config
         path_flavour abspath app].
    reflexivity.
Qed.

Lemma list_ascii_length (x : string) : length (list_ascii_of_string x) = String.length x.
Proof. induction x as [| c x IH]; simpl; [reflexivity | rewrite IH; reflexivity]. Qed.

Lemma drawn_chars_spec (chars : string) (n : nat) :
  chars <> "" ->
  forall r,
    length (drawn_chars chars n r) = n
    /\ Forall (fun c => In c (list_ascii_of_string chars)) (drawn_chars chars n r).
Proof.
  intros Hne. induction n as [| n IH]; intros r; cbn [drawn_chars].
  - split; [reflexivity | constructor].
  - destruct (IH (fun i => r (S i))) as [Hlen Hall]. split.
    + cbn [length]. rewrite Hlen. reflexivity.
    + constructor; [| exact Hall].
      apply nth_In. rewrite list_ascii_length.
      apply Nat.mod_upper_bound. destruct chars; [contradiction | discriminate].
Qed.

Lemma written_lines_spec (n : nat) :
  forall r,
    length (written_lines n r) = n
    /\ Forall (fun line =>
                 exists cs, line = string_of_list_ascii cs +:+ nl
                            /\ length cs = 40
                            /\ Forall (fun c => In c (list_ascii_of_string
                                                        (ascii_letters +:+ digits))) cs)
              (written_lines n r).
Proof.
  induction n as [| n IH]; intros r; cbn [written_lines].
  - split; [reflexivity | constructor].
  - destruct (IH (fun i => r (40 + i))) as [Hlen Hall]. split.
    + cbn [length]. rewrite Hlen. reflexivity.
    + constructor; [| exact Hall].
      destruct (drawn_chars_spec (ascii_letters +:+ digits) 40 ltac:(discriminate) r)
        as [Hl Hin].
      eexists. split; [reflexivity |]. split; assumption.
Qed.

Lemma filter_file_writes (p : Path) (lines : list string) :
  List.filter is_file_write (map (FileWrite p) lines) = map (FileWrite p) lines.
Proof. induction lines as [| l lines IH]; simpl; [reflexivity | rewrite IH; reflexivity]. Qed.

Lemma filter_printed_lines (lines : list string) :
  forall i, List.filter is_file_write (printed_lines i lines) = [].
Proof.
  induction lines as [| l lines IH]; intros i; cbn [printed_lines]; [reflexivity |].
  rewrite List.filter_app, IH, app_nil_r.
  destruct (Nat.ltb 0 (String.length (strip l))); reflexivity.
Qed.

(** The whole self-test, where the directory of the file exists and the
    file is not itself a directory. *)
Lemma gcp_fileio_test_run (path_mount : Path) (verbose : bool) (s : State) :
  let path_file := joinpath path_mount "text_file_utf8.txt" in
  let lines := written_lines 5 (random_state s) in
  lookup_path (fs s) (Path_parent (abspath s path_file)) = Some Dir ->
  stat path_file s <> Some Dir ->
  res (gcp_fileio_test path_mount verbose s) = Returned tt
  /\ List.filter is_file_write (evs (gcp_fileio_test path_mount verbose s))
     = map (FileWrite path_file) lines
  /\ stat path_file (st (gcp_fileio_test path_mount verbose s))
     = Some (File (text_of_lines (path_flavour s) lines)).
Proof.
  intros path_file lines Hparent Hnotdir.
  destruct (lookup_path_parts _ _ Hnotdir) as [Hne _].
  destruct (fileio_write_run path_file s Hparent Hnotdir) as (before & Hrun & Hbefore).
  fold lines in Hrun.
  unfold gcp_fileio_test. cbv zeta. fold path_file.
  rewrite (bind_returned _ _ _ _ _ _ Hrun).
  set (s2 := set_fs _ _).
  assert (Hstat2 : stat path_file s2 = Some (File (text_of_lines (path_flavour s) lines))).
  { unfold stat. change (abspath s2 path_file) with (abspath s path_file).
    rewrite lookup_path_nonempty by exact Hne.
    unfold s2; cbn [fs set_fs]. apply lookup_insert_eq. }
  rewrite (fileio_read_back_run path_file _ s2 Hstat2).
  rewrite prepend_mkRun. cbn [res st evs].
  split; [reflexivity |]. split; [| exact Hstat2].
  rewrite !List.filter_app, Hbefore, filter_file_writes.
  cbn [List.filter is_file_write app]. rewrite filter_printed_lines, app_nil_r.
  reflexivity.
Qed.

(** C6, as the code has it.  Where the directory exists and
    [text_file_utf8.txt] is not itself a directory, the self-test
    [gcp_fileio_test] returns after it has written five lines, each of 40
    random letters and digits and a line feed, which are then the content of
    the file.  It reads the lines back only to print them: the reading half
    returns whatever the file holds and compares it with nothing.  And
    [lifespan] does not catch what the self-test raises: when the self-test
    raises, the start-up raises the same exception and does not reach its
    yield. *)
Theorem gcp_fileio_test_as_coded (path_mount : Path) (s : State) :
  let path_file := joinpath path_mount "text_file_utf8.txt" in
  let lines := written_lines 5 (random_state s) in
  lookup_path (fs s) (Path_parent (abspath s path_file)) = Some Dir ->
  stat path_file s <> Some Dir ->
  let r := gcp_fileio_test path_mount false s in
  res r = Returned tt
  /\ List.filter is_file_write (evs r) = map (FileWrite path_file) lines
  /\ length lines = 5
  /\ Forall (fun line =>
               exists cs, line = string_of_list_ascii cs +:+ nl
                          /\ length cs = 40
                          /\ Forall (fun c => In c (list_ascii_of_string
                                                      (ascii_letters +:+ digits))) cs)
            lines
  /\ stat path_file (st r) = Some (File (text_of_lines (path_flavour s) lines))
  /\ (forall (c : string) (s' : State),
         stat path_file s' = Some (File c) ->
         res (fileio_read_back path_file s') = Returned tt
         /\ st (fileio_read_back path_file s') = s')
  /\ (forall outside (s0 : State) (e : exn),
         res (lifespan_configure outside s0) = Returned tt ->
         res (lifespan_selftest (st (lifespan_configure outside s0))) = Raised e ->
         res (lifespan_startup outside s0) = Raised e).
Proof.
  intros path_file lines Hparent Hnotdir r.
  destruct (gcp_fileio_test_run path_mount false s Hparent Hnotdir) as (Hres & Hev & Hst).
  destruct (written_lines_spec 5 (random_state s)) as [Hlen Hall].
  split; [exact Hres |]. split; [exact Hev |]. split; [exact Hlen |].
  split; [exact Hall |]. split; [exact Hst |]. split.
  - intros c s' Hc. rewrite (fileio_read_back_run path_file c s' Hc). split; reflexivity.
  - intros outside s0 e Hconf Hself.
    rewrite (lifespan_startup_unfold outside s0 Hconf), res_prepend. exact Hself.
Qed.

(** * Further properties of the server *)

(** ** The detection of the environment *)

Lemma savvy_get_os_run (verbose : bool) (s : State) :
  savvy_get_os verbose s =
  if String.eqb (platform_system s) "Windows" then mkRun (Returned "Windows") s []
  else if String.eqb (platform_system s) "Linux" then mkRun (Returned "Linux") s []
  else if String.eqb (platform_system s) "Darwin" then mkRun (Returned "macOS") s []
  else mkRun (Raised (Exception ["Unknown OS: "; platform_system s])) s [].
Proof.
  unfold savvy_get_os. rewrite bind_get.
  repeat (destruct (String.eqb _ _); [reflexivity |]). reflexivity.
Qed.

Lemma gcp_json_credentials_exist_unknown (verbose : bool) (s : State) :
  platform_system s <> "Windows" -> platform_system s <> "Linux" ->
  platform_system s <> "Darwin" ->
  gcp_json_credentials_exist verbose s
  = mkRun (Raised (Exception ["Unknown OS: "; platform_system s])) s [].
Proof.
  intros Hw Hl Hd. unfold gcp_json_credentials_exist.
  apply bind_raised. rewrite savvy_get_os_run.
  apply String.eqb_neq in Hw, Hl, Hd. rewrite Hw, Hl, Hd. reflexivity.
Qed.

(** X1. On a platform that is not Windows, Linux or Darwin,
    [savvy_get_os] raises, nothing catches it: the detection of the
    credentials raises before it looks at the file system, and the start-up
    of [lifespan] raises the same exception after its first printed line,
    with the state of the process as it was. *)
Theorem unknown_platform_stops_startup outside (s : State) :
  platform_system s <> "Windows" -> platform_system s <> "Linux" ->
  platform_system s <> "Darwin" ->
  let e := Exception ["Unknown OS: "; platform_system s] in
  (forall verbose, gcp_json_credentials_exist verbose s = mkRun (Raised e) s [])
  /\ lifespan_startup outside s
     = mkRun (Raised e) s [Print "Application lifespan startup sequence initiated."].
Proof.
  intros Hw Hl Hd e. split.
  - intros verbose. apply gcp_json_credentials_exist_unknown; assumption.
  - unfold lifespan_startup, lifespan_configure, print.
    rewrite bind_assoc, bind_emit, bind_assoc.
    rewrite (bind_raised _ _ _ _ _ _ (gcp_json_credentials_exist_unknown false s Hw Hl Hd)).
    rewrite prepend_mkRun. reflexivity.
Qed.

Lemma missing_file_run (p : Path) (s : State) :
  missing_file p s =
  mkRun (Returned (negb (node_is_file (stat p s)))) s
        (FsCheck CkExists p (node_exists (stat p s))
         :: if node_exists (stat p s)
            then [FsCheck CkIsFile p (node_is_file (stat p s))] else []).
Proof.
  unfold missing_file, Path_exists, Path_is_file.
  rewrite !bind_assoc, bind_get, bind_assoc, bind_emit, bind_ret.
  destruct (stat p s) as [[c |] |] eqn:H; cbn [node_exists node_is_file negb].
  - rewrite !bind_assoc, bind_get, H, bind_assoc, bind_emit, !bind_ret, ret_run, prepend_mkRun.
    reflexivity.
  - rewrite !bind_assoc, bind_get, H, bind_assoc, bind_emit, !bind_ret, ret_run, prepend_mkRun.
    reflexivity.
  - rewrite ret_run, prepend_mkRun. reflexivity.
Qed.

(** The detection of the credentials, once the platform is known and the
    home directory is resolved: [sub] is the folder of gcloud below it. *)
Lemma credentials_branch_run (verbose : bool) (home : Path) (sub : string) (s : State) :
  let path_gcloud := joinpath home sub in
  let path_file_json := joinpath path_gcloud "application_default_credentials.json" in
  forall (warn : M unit),
    (forall s', exists t, warn s' = mkRun (Returned tt) s' t
                          /\ List.filter is_fs_check t = []
                          /\ (verbose = false -> t = [])) ->
    let m :=
      e <- Path_exists path_gcloud ;;
      if negb e then
        warn ;;; ret false
      else
        when verbose (print ("path_gcloud: " +:+ Path_str path_gcloud)) ;;;
        m <- missing_file path_file_json ;;
        if m then
          when verbose (print ("WARNING: Application Default Credential JSON file missing: "
                               +:+ Path_str path_file_json)) ;;;
          ret false
        else
          when verbose (print (Path_str path_file_json)) ;;;
          ret true in
    res (m s) = Returned (node_exists (stat path_gcloud s)
                          && node_is_file (stat path_file_json s))
    /\ length (List.filter is_fs_check (evs (m s))) <= 3
    /\ (verbose = false -> Forall (fun e => is_fs_check e = true) (evs (m s))).
Proof.
  intros path_gcloud path_file_json warn Hwarn m. subst m.
  unfold Path_exists, print.
  rewrite bind_assoc, bind_get, bind_assoc, bind_emit, bind_ret.
  destruct (node_exists (stat path_gcloud s)); cbn [negb andb].
  - assert (Hv : forall line (k : unit -> M bool),
               bind (when verbose (emit (Print line))) k s
               = prepend (if verbose then [Print line] else []) (k tt s)).
    { intros line k. destruct verbose; cbn [when].
      - apply bind_emit.
      - rewrite bind_ret, prepend_nil. reflexivity. }
    rewrite Hv.
    rewrite (bind_returned _ _ _ _ _ _ (missing_file_run path_file_json s)).
    destruct (node_is_file (stat path_file_json s)) eqn:Hf; cbn [negb].
    + assert (He : node_exists (stat path_file_json s) = true)
        by (destruct (stat path_file_json s) as [[|]|]; [reflexivity | discriminate ..]).
      rewrite He, Hv, ret_run, !prepend_mkRun. cbn [res evs].
      split; [reflexivity |]. split.
      * destruct verbose; cbn; lia.
      * intros ->. cbn. repeat constructor.
    + rewrite Hv, ret_run, !prepend_mkRun. cbn [res evs].
      split; [reflexivity |]. split.
      * destruct verbose, (node_exists (stat path_file_json s)); cbn; lia.
      * intros ->. destruct (node_exists (stat path_file_json s)); cbn; repeat constructor.
  - destruct (Hwarn s) as (t & Ht & Hchecks & Hquiet).
    rewrite (bind_returned _ _ _ _ _ _ Ht), ret_run, !prepend_mkRun. cbn [res evs].
    split; [reflexivity |]. split.
    + cbn [app List.filter is_fs_check]. rewrite List.filter_app, Hchecks. cbn. lia.
    + intros Hq. rewrite (Hquiet Hq). cbn. repeat constructor.
Qed.

Lemma gcp_json_credentials_exist_known (verbose : bool) (s : State) :
  known_platform s ->
  res (gcp_json_credentials_exist verbose s)
  = Returned (node_exists (stat (gcloud_dir s) s) && node_is_file (stat (adc_json s) s))
  /\ length (List.filter is_fs_check (evs (gcp_json_credentials_exist verbose s))) <= 3
  /\ (verbose = false ->
      Forall (fun e => is_fs_check e = true) (evs (gcp_json_credentials_exist verbose s))).
Proof.
  intros Hk.
  assert (Hos : exists os_name,
             savvy_get_os false s = mkRun (Returned os_name) s []
             /\ String.eqb os_name "Windows" = String.eqb (platform_system s) "Windows").
  { rewrite savvy_get_os_run.
    destruct Hk as [H | [H | H]]; rewrite H; eexists; split; reflexivity. }
  destruct Hos as (os_name & Hos & Hwin).
  unfold gcp_json_credentials_exist, adc_json, gcloud_dir.
  rewrite (bind_returned _ _ _ _ _ _ Hos), prepend_nil, Hwin.
  destruct (String.eqb (platform_system s) "Windows").
  - unfold Path_home. rewrite bind_get.
    apply (credentials_branch_run verbose _ "AppData\Roaming\gcloud" s).
    intros s'. destruct verbose; cbn [when].
    + eexists. split; [apply emit_run |]. split; [reflexivity | discriminate].
    + eexists. split; [apply ret_run |]. split; reflexivity.
  - unfold Path_home. rewrite bind_get.
    apply (credentials_branch_run verbose _ ".config/gcloud/" s).
    intros s'. destruct verbose; cbn [when].
    + eexists. split.
      * unfold print. rewrite bind_emit, emit_run, prepend_mkRun. reflexivity.
      * split; [reflexivity | discriminate].
    + eexists. split; [apply ret_run |]. split; reflexivity.
Qed.


(** ** Structured log entries *)

Lemma entry_set_fresh (k v : string) (entry : list (string * string)) :
  ~ In k (map fst entry) -> entry_set k v entry = entry ++ [(k, v)].
Proof.
  induction entry as [| [k' v'] rest IH]; simpl; intros Hn; [reflexivity |].
  destruct (String.eqb_spec k k') as [-> | Hne].
  - exfalso. apply Hn. left. reflexivity.
  - rewrite IH; [reflexivity |]. intros Hin. apply Hn. right. exact Hin.
Qed.

Lemma entry_update_fresh (kwargs : list (string * string)) :
  forall entry : list (string * string),
    List.NoDup (map fst kwargs) ->
    (forall k, In k (map fst kwargs) -> ~ In k (map fst entry)) ->
    foldl (fun e kv => entry_set kv.1 kv.2 e) entry kwargs = entry ++ kwargs.
Proof.
  induction kwargs as [| [k v] rest IH]; intros entry Hnd Hfresh.
  - simpl. rewrite app_nil_r. reflexivity.
  - cbn [foldl fst snd]. cbn [map fst] in Hnd. apply List.NoDup_cons_iff in Hnd as [Hk Hnd].
    rewrite entry_set_fresh by (apply Hfresh; left; reflexivity).
    rewrite IH.
    + rewrite <- app_assoc. reflexivity.
    + exact Hnd.
    + intros k' Hin. rewrite map_app, in_app_iff. intros [Hin' | [<- | []]].
      * revert Hin'. apply Hfresh. right. exact Hin.
      * apply Hk. exact Hin.
Qed.

Lemma log_structured_message_run (severity message : string)
      (kwargs : list (string * string)) (s : State) :
  List.NoDup (map fst kwargs) ->
  ~ In "severity" (map fst kwargs) ->
  ~ In "message" (map fst kwargs) ->
  log_structured_message severity message kwargs s
  = mkRun (Returned tt) s
          [PrintJson (("severity", severity) :: ("message", message) :: kwargs)].
Proof.
  intros Hnd Hs Hm. unfold log_structured_message. cbv zeta.
  rewrite entry_update_fresh.
  - reflexivity.
  - exact Hnd.
  - intros k Hin [<- | [<- | []]]; [apply Hs | apply Hm]; exact Hin.
Qed.

(** X3. [log_structured_message] prints one JSON object and does
    nothing else: its first two members are [severity] and [message], and
    the keyword arguments follow in the order they were given.  (Keyword
    arguments have distinct names, and Python refuses one that is named
    [severity] or [message].) *)
Theorem log_structured_message_entry (severity message : string)
        (kwargs : list (string * string)) (s : State) :
  List.NoDup (map fst kwargs) ->
  ~ In "severity" (map fst kwargs) ->
  ~ In "message" (map fst kwargs) ->
  let r := log_structured_message severity message kwargs s in
  res r = Returned tt
  /\ st r = s
  /\ evs r = [PrintJson (("severity", severity) :: ("message", message) :: kwargs)].
Proof.
  intros Hnd Hs Hm r. subst r.
  rewrite (log_structured_message_run severity message kwargs s Hnd Hs Hm).
  repeat split.
Qed.

(** ** GET / *)

Lemma read_root_unstarted (s : State) :
  app_state_app_config s = None ->
  read_root s = mkRun (Raised (AttributeError "app_config")) s [].
Proof.
  intros H. unfold read_root, app_state_get.
  rewrite bind_assoc, bind_get, H, bind_raise. reflexivity.
Qed.

(** X4. Until [lifespan] has run, GET / fails: after the module is
    loaded and whatever requests, shut-downs and changes of the file system
    follow, as long as there was no start-up, [app.state] has no
    [app_config], so [read_root] raises AttributeError before it prints
    anything, and the answer is a 500. *)
Theorem read_root_before_startup system home cur f e r (ops : list op) :
  forallb (fun o => negb (is_startup o)) ops = true ->
  let s := run_ops ops (st (module_load (process_start system home cur f e r))) in
  read_root s = mkRun (Raised (AttributeError "app_config")) s []
  /\ http_status (res (read_root s)) = 500.
Proof.
  intros Hops s.
  assert (H : app_state_app_config s = None).
  { subst s.
    destruct (run_ops_same_config ops
                (st (module_load (process_start system home cur f e r))) Hops)
      as (_ & _ & Ha).
    rewrite Ha, module_load_run. reflexivity. }
  rewrite (read_root_unstarted s H). split; reflexivity.
Qed.

Lemma one_kwarg_fresh (k v : string) :
  String.eqb k "severity" = false -> String.eqb k "message" = false ->
  List.NoDup (map fst [(k, v)])
  /\ ~ In "severity" (map fst [(k, v)]) /\ ~ In "message" (map fst [(k, v)]).
Proof.
  intros Hs Hm. apply String.eqb_neq in Hs, Hm. split; [| split].
  - repeat constructor. intros [].
  - intros [Heq | []]. exact (Hs Heq).
  - intros [Heq | []]. exact (Hm Heq).
Qed.

(** What GET / records once the configuration is published. *)
Lemma read_root_trace (s : State) (l : nat) (fl : flavour) (p : Path) :
  app_state_app_config s = Some l ->
  heap s !! l = Some (lifespan_config fl p) ->
  evs (read_root s) =
  [Print "config['chroma_collection_name']: Biography_of_Christopher_Diaz";
   Print ("config['path_chroma_db']: "
          +:+ Path_str (joinpath (Path_of_string fl "/tmp") "chroma_langchain_db"));
   Print ("config['bucket_mount_path']: " +:+ Path_str p);
   Print "get_chroma_db_connection()";
   PrintJson
     (if truthy (environ s !! "OPENAI_API_KEY")
      then [("severity", "INFO");
            ("message", "OpenAI API Key check: Key is SET.");
            ("key_preview",
             "sk-..." +:+ last_chars 4 (default "" (environ s !! "OPENAI_API_KEY")))]
      else [("severity", "CRITICAL");
            ("message", "OpenAI API Key check: Key is MISSING.");
            ("resolution", "Set OPENAI_API_KEY in Cloud Run environment variables.")])].
Proof.
  intros Hl Hd.
  destruct (lifespan_config_lookup fl p) as (H1 & H2 & H3 & _).
  unfold read_root, app_state_get, dict_getitem, get_chroma_db_connection,
    environ_get, print.
  repeat first [ rewrite Hl | rewrite Hd | rewrite H1 | rewrite H2 | rewrite H3
               | exec_step | progress cbv beta iota zeta ].
  destruct (truthy (environ s !! "OPENAI_API_KEY")).
  - destruct (one_kwarg_fresh "key_preview"
                ("sk-..." +:+ last_chars 4 (default "" (environ s !! "OPENAI_API_KEY")))
                eq_refl eq_refl) as (Hnd & Hs & Hm).
    rewrite (bind_returned _ _ _ _ _ _
               (log_structured_message_run _ _ _ s Hnd Hs Hm)).
    rewrite ret_run, !prepend_mkRun. reflexivity.
  - destruct (one_kwarg_fresh "resolution"
                "Set OPENAI_API_KEY in Cloud Run environment variables."
                eq_refl eq_refl) as (Hnd & Hs & Hm).
    rewrite (bind_returned _ _ _ _ _ _
               (log_structured_message_run _ _ _ s Hnd Hs Hm)).
    rewrite ret_run, !prepend_mkRun. reflexivity.
Qed.



Lemma last_chars_short (n : nat) (s : string) :
  String.length s <= n -> last_chars n s = s.
Proof.
  intros H. unfold last_chars. replace (String.length s - n) with 0 by lia.
  apply string_of_list_ascii_of_string.
Qed.

Lemma truthy_nonempty (key : string) : key <> "" -> truthy (Some key) = true.
Proof. intros H. destruct key; [contradiction | reflexivity]. Qed.


(** X6. A key of at most four characters is logged in full: for such a
    value of OPENAI_API_KEY, not empty, the log entry of GET / holds the
    whole key after [sk-...]. *)
Theorem read_root_short_key_logged (s : State) (key : string) :
  started s ->
  environ s !! "OPENAI_API_KEY" = Some key ->
  key <> "" ->
  String.length key <= 4 ->
  In (PrintJson [("severity", "INFO");
                 ("message", "OpenAI API Key check: Key is SET.");
                 ("key_preview", "sk-..." +:+ key)])
     (evs (read_root s)).
Proof.
  intros (l & fl & p & Hl & Hd) He Hk Hlen.
  rewrite (read_root_trace s l fl p Hl Hd), He, (truthy_nonempty key Hk).
  change (default "" (Some key)) with key. rewrite (last_chars_short 4 key Hlen).
  do 4 right. left. reflexivity.
Qed.

(** ** The environment variables *)

Global Instance env_kept_preorder : PreOrder env_kept.
Proof.
  split.
  - intros s k v H. exact H.
  - intros s1 s2 s3 H12 H23 k v H. apply H23, H12, H.
Qed.

Lemma setdefault_env_kept (kvs : list (string * string)) :
  forall (e : gmap string string) (k v : string),
    e !! k = Some v -> foldl setdefault_env e kvs !! k = Some v.
Proof.
  induction kvs as [| kv kvs IH]; intros e k v H; simpl; [exact H |].
  apply IH. unfold setdefault_env. destruct (e !! kv.1) eqn:Hkv; [exact H |].
  rewrite lookup_insert_ne; [exact H |]. intros <-. rewrite Hkv in H. discriminate.
Qed.

Lemma any_events (t : list event) : Forall any_event t.
Proof. apply Forall_forall. intros e _. exact I. Qed.

Lemma load_dotenv_env_kept (p : Path) : respects env_kept any_event (load_dotenv p).
Proof.
  intros s. rewrite load_dotenv_run. cbn [st evs]. split; [| apply any_events].
  intros k v H. cbn [environ set_environ]. unfold loaded_environ.
  destruct (stat p s) as [[c |] |]; [apply setdefault_env_kept | |]; exact H.
Qed.

Lemma random_choice_env_kept (characters : string) :
  respects env_kept any_event (random_choice characters).
Proof. intros s. split; [intros k v H; exact H | constructor]. Qed.

Lemma print_lines_env_kept (lines : list string) (i : nat) :
  respects env_kept any_event (print_lines i lines).
Proof. intros s. rewrite print_lines_run. split; [reflexivity | apply any_events]. Qed.

Lemma gcp_json_credentials_exist_env_kept (verbose : bool) :
  respects env_kept any_event (gcp_json_credentials_exist verbose).
Proof.
  eapply respects_weaken; [| | apply (gcp_json_credentials_exist_pure verbose)].
  - intros s s' <-. reflexivity.
  - intros e _. exact I.
Qed.

Ltac frame_side ::=
  solve [ exact I | reflexivity
        | match goal with s : State |- _ => destruct s; reflexivity end
        | intros ? ? ?; assumption ].

Ltac frame_known ::=
  lazymatch goal with
  | |- respects env_kept _ (random_choice _) => apply random_choice_env_kept
  | |- respects env_kept _ (print_lines _ _) => apply print_lines_env_kept
  | |- respects env_kept _ (load_dotenv _) => apply load_dotenv_env_kept
  | |- respects env_kept _ (gcp_json_credentials_exist _) =>
      apply gcp_json_credentials_exist_env_kept
  | |- respects only_world _ (random_choice _) => apply random_choice_frame
  | |- respects only_world _ (print_lines _ _) => apply print_lines_frame
  | |- respects only_world _ (gcp_json_credentials_exist _) =>
      apply gcp_json_credentials_exist_frame
  | |- respects only_world _ (gcp_fileio_test _ _) => apply gcp_fileio_test_frame
  | |- respects only_world _ (wait_for_fuse _ _) => apply wait_for_fuse_frame
  end.

Lemma gcp_fileio_test_env_kept (path_mount : Path) (verbose : bool) :
  respects env_kept any_event (gcp_fileio_test path_mount verbose).
Proof. unfold gcp_fileio_test, fileio_write, fileio_read_back. frame. Qed.

Ltac frame_known ::=
  lazymatch goal with
  | |- respects env_kept _ (random_choice _) => apply random_choice_env_kept
  | |- respects env_kept _ (print_lines _ _) => apply print_lines_env_kept
  | |- respects env_kept _ (load_dotenv _) => apply load_dotenv_env_kept
  | |- respects env_kept _ (gcp_json_credentials_exist _) =>
      apply gcp_json_credentials_exist_env_kept
  | |- respects env_kept _ (gcp_fileio_test _ _) => apply gcp_fileio_test_env_kept
  | |- respects only_world _ (random_choice _) => apply random_choice_frame
  | |- respects only_world _ (print_lines _ _) => apply print_lines_frame
  | |- respects only_world _ (gcp_json_credentials_exist _) =>
      apply gcp_json_credentials_exist_frame
  | |- respects only_world _ (gcp_fileio_test _ _) => apply gcp_fileio_test_frame
  | |- respects only_world _ (wait_for_fuse _ _) => apply wait_for_fuse_frame
  end.

Lemma lifespan_startup_env_kept outside :
  respects env_kept any_event (lifespan_startup outside).
Proof.
  unfold lifespan_startup, lifespan_configure, lifespan_selftest, lifespan_local,
    lifespan_deployed, lifespan_publish, wait_for_fuse, wait_for_fuse_body,
    wait_for_fuse_else.
  frame.
Qed.

Lemma handle_env_kept (r : request) (s : State) : env_kept s (handle r s).
Proof.
  destruct r as [| | input_data]; cbn [handle].
  - destruct (startup_probe_state s) as [-> | ->]; intros k v H; exact H.
  - replace (st (read_root s)) with s; [reflexivity | apply read_root_frame].
  - replace (st (simple_calculator input_data s)) with s;
      [reflexivity | apply (simple_calculator_frame input_data)].
Qed.

Lemma step_env_kept (o : op) (s : State) : env_kept s (step s o).
Proof.
  destruct o as [r | outside | | change]; cbn [step].
  - apply handle_env_kept.
  - apply lifespan_startup_env_kept.
  - intros k v H. exact H.
  - intros k v H. exact H.
Qed.

Lemma run_ops_env_kept (ops : list op) (s : State) : env_kept s (run_ops ops s).
Proof.
  revert s. induction ops as [| o ops IH]; intros s; simpl.
  - reflexivity.
  - etransitivity; [apply step_env_kept | apply IH].
Qed.

(** X7. No operation of the process changes or removes an environment
    variable that is set: [lifespan] calls [load_dotenv] without
    [override], so the [.env] file only adds variables, and nothing else
    writes to [os.environ].  A variable set in the Cloud Run configuration
    keeps its value, whatever the [.env] file of the bucket holds. *)
Theorem environ_never_overwritten (ops : list op) (s : State) (k v : string) :
  environ s !! k = Some v ->
  environ (run_ops ops s) !! k = Some v.
Proof. apply run_ops_env_kept. Qed.

(** ** The waiting loop, whatever the file system does *)









(** X10. The probe and [lifespan] together: when the start-up of the
    deployment path runs on the state that the first successful call of
    [startup_probe] left, it finds the marker file at its first check, loads
    the environment file there and never sleeps. *)
Theorem probe_then_lifespan_no_wait outside (s : State) (body : list (string * string)) :
  probe_succeeded s = false ->
  res (startup_probe s) = Returned body ->
  let r := lifespan_deployed outside (st (startup_probe s)) in
  res r = Returned (mount_root s)
  /\ evs r = Print ("INFO: Detected Cloud Run/Deployment environment. .env path: "
                    +:+ Path_str (mount_marker s))
             :: found_check (mount_marker s)
  /\ List.filter is_sleep (evs r) = []
  /\ environ (st r) = loaded_environ s (mount_marker s)
  /\ fs (st r) = fs s.
Proof.
  intros Hp Hres r. subst r.
  rewrite (startup_probe_pending_run s Hp) in Hres |- *.
  destruct (node_is_file (stat (mount_marker s) s)) eqn:Hfile; [| discriminate].
  cbn [st]. set (s1 := set_probe_succeeded true s).
  rewrite lifespan_deployed_unfold. unfold wait_for_fuse.
  change (mount_marker s1) with (mount_marker s).
  change (mount_root s1) with (mount_root s).
  rewrite (bind_returned _ _ _ _ _ _
             (wait_loop_found (mount_marker s) outside 0 max_checks 0 s1
                ltac:(unfold max_checks; lia)
                ltac:(intros j Hj; lia)
                Hfile)).
  rewrite ret_run, !prepend_mkRun, app_nil_r.
  cbn [res st evs flat_map seq app fs_from]. repeat split.
Qed.

Lemma no_sleep_observations (l : list event) :
  Forall is_observation l -> List.filter is_sleep l = [].
Proof.
  induction 1 as [| e l He _ IH]; [reflexivity |].
  destruct e; try contradiction; exact IH.
Qed.

(** X11. The local development path when the [.env] file is there: the
    configuration step returns after one check and one load of that file,
    without a sleep; the file system is as it was, the variables of the file
    are in the environment, and the record on [app.state.app_config] has the
    working directory as its [bucket_mount_path]. *)
Theorem lifespan_local_success outside (s : State) :
  res (gcp_json_credentials_exist false s) = Returned true ->
  node_is_file (stat (local_marker s) s) = true ->
  let r := lifespan_configure outside s in
  res r = Returned tt
  /\ List.filter is_load (evs r) = [LoadDotenv (local_marker s)]
  /\ List.filter is_sleep (evs r) = []
  /\ fs (st r) = fs s
  /\ environ (st r) = loaded_environ s (local_marker s)
  /\ app_state_app_config (st r) = Some (length (heap s))
  /\ heap (st r) = heap s ++ [lifespan_config (path_flavour s) (local_root s)].
Proof.
  intros Hc Hfile r.
  assert (Hr : r = mkRun (Returned tt)
                 (set_app_state_app_config (Some (length (heap s)))
                    (set_heap (heap s ++ [lifespan_config (path_flavour s) (local_root s)])
                       (set_environ (loaded_environ s (local_marker s)) s)))
                 (Print "Application lifespan startup sequence initiated."
                  :: evs (gcp_json_credentials_exist false s)
                  ++ [Print ("INFO: Detected Local Development environment. .env path: "
                             +:+ Path_str (local_marker s));
                      FsCheck CkIsFile (local_marker s) true;
                      LoadDotenv (local_marker s);
                      Print "INFO: Local environment variables loaded successfully."]
                  ++ [Print "chroma_collection_name: Biography_of_Christopher_Diaz";
                      Print ("path_chroma_db: "
                             +:+ Path_str (joinpath (Path_of_string (path_flavour s) "/tmp")
                                                    "chroma_langchain_db"));
                      Print ("bucket_mount_path: " +:+ Path_str (local_root s))])).
  { subst r. unfold lifespan_configure, print.
    rewrite bind_emit.
    rewrite (bind_returned _ _ _ _ _ _ (gcp_json_credentials_exist_run false true s Hc)).
    cbv beta iota.
    pose proof (lifespan_local_run s) as Hl. rewrite Hfile in Hl.
    rewrite (bind_returned _ _ _ _ _ _ Hl).
    pose proof (lifespan_publish_run (local_root s)
                  (set_environ (loaded_environ s (local_marker s)) s)) as Hpub.
    cbv zeta in Hpub. rewrite Hpub, !prepend_mkRun. reflexivity. }
  rewrite Hr. cbn [res st evs].
  pose proof (gcp_json_credentials_exist_events false s) as Hobs.
  pose proof (no_sleep_observations _ Hobs) as Hnosleep.
  split; [reflexivity |]. split.
  { cbn [List.filter is_load]. rewrite !List.filter_app.
    rewrite (no_load_observations _ Hobs). reflexivity. }
  split.
  { cbn [List.filter is_sleep]. rewrite !List.filter_app, Hnosleep. reflexivity. }
  repeat split.
Qed.

(** ** Text written and read back *)

Lemma append_cons (c : ascii) (a b : string) : String c a +:+ b = String c (a +:+ b).
Proof. reflexivity. Qed.

Lemma append_nil_l (a : string) : "" +:+ a = a.
Proof. reflexivity. Qed.

Lemma append_assoc (a b c : string) : (a +:+ b) +:+ c = a +:+ (b +:+ c).
Proof.
  induction a as [| x a IH]; [reflexivity |]. rewrite !append_cons, IH. reflexivity.
Qed.

Lemma append_nil_r (a : string) : a +:+ "" = a.
Proof.
  induction a as [| x a IH]; [reflexivity |]. rewrite append_cons, IH. reflexivity.
Qed.

Lemma list_ascii_app (a b : string) :
  list_ascii_of_string (a +:+ b) = list_ascii_of_string a ++ list_ascii_of_string b.
Proof.
  induction a as [| x a IH]; [reflexivity |].
  rewrite append_cons. cbn [list_ascii_of_string app]. rewrite IH. reflexivity.
Qed.

Lemma isspace_line_endings : isspace LF = true /\ isspace CR = true.
Proof. split; reflexivity. Qed.

Lemma not_space_not_ending (c : ascii) :
  isspace c = false -> Ascii.eqb c LF = false /\ Ascii.eqb c CR = false.
Proof.
  intros H. split; apply Ascii.eqb_neq; intros ->; revert H;
    [rewrite (proj1 isspace_line_endings) | rewrite (proj2 isspace_line_endings)];
    discriminate.
Qed.

Lemma write_newlines_app (f : flavour) (a b : string) :
  write_newlines f (a +:+ b) = write_newlines f a +:+ write_newlines f b.
Proof.
  induction a as [| c a IH]; [reflexivity |].
  rewrite append_cons. cbn [write_newlines]. rewrite IH.
  destruct (Ascii.eqb c LF); [destruct f |]; reflexivity.
Qed.

(** Reading in text mode undoes writing in text mode, on Windows too, for
    a text without a carriage return. *)
Lemma universal_write_newlines (f : flavour) (s : string) :
  Forall (fun c => Ascii.eqb c CR = false) (list_ascii_of_string s) ->
  universal_newlines (write_newlines f s) = s.
Proof.
  induction s as [| c s IH]; [reflexivity |].
  cbn [list_ascii_of_string]. intros H. apply Forall_cons in H as [Hc Hs].
  specialize (IH Hs). cbn [write_newlines].
  destruct (Ascii.eqb c LF) eqn:Hlf.
  - apply Ascii.eqb_eq in Hlf. subst c. destruct f.
    + cbn [universal_newlines]. rewrite Hc, IH. reflexivity.
    + cbn [universal_newlines].
      change (Ascii.eqb CR CR) with true. change (Ascii.eqb LF LF) with true.
      cbv iota. rewrite IH. reflexivity.
  - cbn [universal_newlines]. rewrite Hc, IH. reflexivity.
Qed.

Lemma foldl_append (g : string -> string) (lines : list string) :
  forall acc : string,
    foldl (fun c line => c +:+ g line) acc lines
    = acc +:+ foldr (fun line rest => g line +:+ rest) "" lines.
Proof.
  induction lines as [| line lines IH]; intros acc; simpl.
  - rewrite append_nil_r. reflexivity.
  - rewrite IH, append_assoc. reflexivity.
Qed.

Lemma text_of_lines_join (f : flavour) (bodies : list string) :
  text_of_lines f (map (fun b => b +:+ nl) bodies) = write_newlines f (join_lines bodies).
Proof.
  unfold text_of_lines, join_lines. rewrite foldl_append, append_nil_l.
  induction bodies as [| b bodies IH]; [reflexivity |].
  cbn [map foldr]. rewrite IH. symmetry. apply write_newlines_app.
Qed.

Lemma no_space_no_cr (b : string) :
  no_space b -> Forall (fun c => Ascii.eqb c CR = false) (list_ascii_of_string b).
Proof.
  unfold no_space. intros H. eapply Forall_impl; [exact H |].
  intros c Hc. apply (not_space_not_ending c Hc).
Qed.

Lemma join_lines_no_cr (bodies : list string) :
  Forall no_space bodies ->
  Forall (fun c => Ascii.eqb c CR = false) (list_ascii_of_string (join_lines bodies)).
Proof.
  unfold join_lines. induction 1 as [| b bodies Hb _ IH]; [constructor |].
  cbn [foldr]. rewrite !list_ascii_app. apply Forall_app. split.
  - apply Forall_app. split; [apply no_space_no_cr, Hb |].
    repeat constructor.
  - exact IH.
Qed.

Lemma lines_from_line (b : string) :
  no_space b ->
  forall cur rest : string,
    lines_from cur ((b +:+ nl) +:+ rest) = (cur +:+ b +:+ nl) :: lines_from "" rest.
Proof.
  unfold no_space. induction b as [| c b IH]; intros Hb cur rest.
  - change (("" +:+ nl) +:+ rest) with (String LF rest).
    cbn [lines_from]. change (Ascii.eqb LF LF) with true. reflexivity.
  - cbn [list_ascii_of_string] in Hb. apply Forall_cons in Hb as [Hc Hb].
    rewrite !append_cons. cbn [lines_from]. rewrite (proj1 (not_space_not_ending c Hc)).
    rewrite (IH Hb), append_assoc. reflexivity.
Qed.

Lemma lines_from_join (bodies : list string) :
  Forall no_space bodies ->
  lines_from "" (join_lines bodies) = map (fun b => b +:+ nl) bodies.
Proof.
  unfold join_lines. induction 1 as [| b bodies Hb _ IH]; [reflexivity |].
  cbn [foldr map]. rewrite (lines_from_line b Hb), IH. reflexivity.
Qed.

(** What is written in text mode is what is read back, line by line. *)
Lemma text_round_trip (f : flavour) (bodies : list string) :
  Forall no_space bodies ->
  splitlines_keepends (text_of_lines f (map (fun b => b +:+ nl) bodies))
  = map (fun b => b +:+ nl) bodies.
Proof.
  intros H. unfold splitlines_keepends.
  rewrite text_of_lines_join, universal_write_newlines by (apply join_lines_no_cr, H).
  apply lines_from_join, H.
Qed.

Lemma lstrip_no_space (b : string) : no_space b -> lstrip b = b.
Proof.
  unfold no_space. destruct b as [| c b]; [reflexivity |].
  cbn [list_ascii_of_string]. intros H. apply Forall_cons in H as [Hc _].
  cbn [lstrip]. rewrite Hc. reflexivity.
Qed.

Lemma string_rev_involutive (b : string) : string_rev (string_rev b) = b.
Proof.
  unfold string_rev.
  rewrite list_ascii_of_string_of_list_ascii, rev_involutive.
  apply string_of_list_ascii_of_string.
Qed.

Lemma string_rev_no_space (b : string) : no_space b -> no_space (string_rev b).
Proof.
  unfold no_space, string_rev. rewrite list_ascii_of_string_of_list_ascii.
  apply List.Forall_rev.
Qed.

Lemma string_rev_line (b : string) : string_rev (b +:+ nl) = String LF (string_rev b).
Proof.
  unfold string_rev. rewrite list_ascii_app, rev_app_distr. reflexivity.
Qed.

(** [line.strip()] takes the line feed off a line without blanks. *)
Lemma strip_line (b : string) : no_space b -> strip (b +:+ nl) = b.
Proof.
  intros Hb. unfold strip.
  assert (Hr : rstrip (b +:+ nl) = b).
  { unfold rstrip. rewrite string_rev_line. cbn [lstrip].
    rewrite (proj1 isspace_line_endings).
    rewrite (lstrip_no_space _ (string_rev_no_space b Hb)).
    apply string_rev_involutive. }
  destruct b as [| c b].
  - reflexivity.
  - assert (Hl : lstrip (String c b +:+ nl) = String c b +:+ nl).
    { unfold no_space in Hb. cbn [list_ascii_of_string] in Hb.
      apply Forall_cons in Hb as [Hc _]. rewrite append_cons. cbn [lstrip].
      rewrite Hc. reflexivity. }
    rewrite Hl. exact Hr.
Qed.

(** ** The lines of the self-test *)

Lemma alnum_no_space : no_space (ascii_letters +:+ digits).
Proof.
  unfold no_space. apply List.Forall_forall. intros c Hc.
  assert (H : forallb (fun c => negb (isspace c))
                      (list_ascii_of_string (ascii_letters +:+ digits)) = true)
    by (vm_compute; reflexivity).
  rewrite List.forallb_forall in H. specialize (H c Hc).
  destruct (isspace c); [discriminate | reflexivity].
Qed.

Lemma drawn_chars_Forall (P : ascii -> Prop) (chars : string) (n : nat) :
  chars <> "" ->
  Forall P (list_ascii_of_string chars) ->
  forall r, Forall P (drawn_chars chars n r).
Proof.
  intros Hne HP. induction n as [| n IH]; intros r; cbn [drawn_chars]; constructor.
  - apply (proj1 (List.Forall_nth P _) HP).
    rewrite list_ascii_length. apply Nat.mod_upper_bound.
    destruct chars; [contradiction | discriminate].
  - apply IH.
Qed.

Lemma drawn_chars_ext (chars : string) (n : nat) :
  forall r r' : nat -> nat,
    (forall i, r i = r' i) -> drawn_chars chars n r = drawn_chars chars n r'.
Proof.
  induction n as [| n IH]; intros r r' H; cbn [drawn_chars]; [reflexivity |].
  rewrite (H 0). f_equal. apply IH. intros i. apply H.
Qed.

Lemma string_of_list_ascii_length (l : list ascii) :
  String.length (string_of_list_ascii l) = length l.
Proof. rewrite <- list_ascii_length, list_ascii_of_string_of_list_ascii. reflexivity. Qed.

Lemma drawn_string_spec (k : nat) (r : nat -> nat) :
  no_space (drawn_string k r) /\ String.length (drawn_string k r) = 40.
Proof.
  unfold drawn_string, no_space. split.
  - rewrite list_ascii_of_string_of_list_ascii.
    apply drawn_chars_Forall; [discriminate | apply alnum_no_space].
  - rewrite string_of_list_ascii_length.
    apply (drawn_chars_spec (ascii_letters +:+ digits) 40 ltac:(discriminate)).
Qed.

Lemma drawn_string_first (r : nat -> nat) :
  string_of_list_ascii (drawn_chars (ascii_letters +:+ digits) 40 r) = drawn_string 0 r.
Proof. reflexivity. Qed.

Lemma drawn_string_next (k : nat) (r : nat -> nat) :
  drawn_string k (fun i => r (40 + i)) = drawn_string (S k) r.
Proof.
  unfold drawn_string.
  rewrite (drawn_chars_ext _ 40 _ (fun i => r (40 * S k + i))); [reflexivity |].
  intros i. cbv beta. f_equal. lia.
Qed.

Lemma written_lines_drawn (n : nat) :
  forall r, written_lines n r = map (fun k => drawn_string k r +:+ nl) (seq 0 n).
Proof.
  induction n as [| n IH]; intros r; [reflexivity |].
  cbn [written_lines seq map]. rewrite drawn_string_first, IH.
  rewrite <- seq_shift, map_map. f_equal.
  apply map_ext. intros k. rewrite drawn_string_next. reflexivity.
Qed.

Lemma printed_lines_numbered (g : nat -> string) (n : nat) :
  (forall k, no_space (g k) /\ 0 < String.length (g k)) ->
  forall i,
    printed_lines i (map (fun k => g k +:+ nl) (seq i n))
    = map (fun k => Print (pretty (k + 1) +:+ "  " +:+ g k)) (seq i n).
Proof.
  intros Hg. induction n as [| n IH]; intros i; [reflexivity |].
  cbn [seq map printed_lines].
  destruct (Hg i) as [Hs Hlen].
  rewrite (strip_line (g i) Hs). apply Nat.ltb_lt in Hlen. rewrite Hlen.
  cbn [app]. f_equal.
  replace (S i) with (i + 1) by lia. apply IH.
Qed.

(** The writing half with all that it records. *)
Lemma fileio_write_exact (p : Path) (s : State) :
  lookup_path (fs s) (Path_parent (abspath s p)) = Some Dir ->
  stat p s <> Some Dir ->
  fileio_write p s =
  mkRun (Returned tt)
        (set_fs (<[abspath s p := File (text_of_lines (path_flavour s)
                                                       (written_lines 5 (random_state s)))]>
                   (fs s))
                (set_random_state (fun i => random_state s (200 + i)) s))
        ([Print ("path_file: " +:+ Path_str p);
          FsCheck CkIsFile p (node_is_file (stat p s))]
         ++ (if node_is_file (stat p s) then [Unlink p] else [])
         ++ [FsCheck CkIsFile p false;
             Print ("Writing line by line utf-8 text file: " +:+ Path_str p);
             OpenWrite p]
         ++ map (FileWrite p) (written_lines 5 (random_state s))).
Proof.
  intros Hparent Hnotdir.
  destruct (lookup_path_parts _ _ Hnotdir) as [Hne Hlook].
  unfold fileio_write, Path_is_file, print.
  rewrite bind_emit, bind_assoc, bind_get, bind_assoc, bind_emit, bind_ret.
  cbv zeta.
  destruct (stat p s) as [[c |] |] eqn:Hstat; [| contradiction |]; cbn [node_is_file when].
  - unfold Path_unlink. rewrite bind_assoc, bind_get, Hstat.
    rewrite bind_assoc, bind_emit, bind_modify.
    set (s1 := set_fs (delete (abspath s p) (fs s)) s).
    assert (Hstat1 : stat p s1 = None).
    { unfold stat, s1; cbn [fs set_fs]. change (abspath (set_fs _ s) p) with (abspath s p).
      rewrite lookup_path_nonempty by exact Hne. apply lookup_delete_eq. }
    rewrite bind_assoc, bind_get, Hstat1. cbn [node_is_file].
    rewrite bind_assoc, bind_emit, bind_ret. cbn [when].
    rewrite bind_ret, bind_emit.
    unfold open_w. rewrite bind_assoc, bind_get, Hstat1, bind_assoc, bind_get.
    change (abspath s1 p) with (abspath s p). unfold s1 at 1; cbn [fs set_fs].
    rewrite (lookup_path_delete_parent _ _ Hne), Hparent.
    rewrite bind_assoc, bind_emit, bind_modify.
    rewrite write_loop_run. rewrite !prepend_mkRun.
    subst s1.
    cbn [length seq fs set_fs random_state set_random_state].
    change (abspath (set_fs _ s) p) with (abspath s p).
    rewrite insert_delete_eq, foldl_append_file.
    unfold text_of_lines. change (5 * 40) with 200.
    destruct s.
    cbn [set_fs set_random_state fs random_state platform_system home_dir cur_dir
         environ heap g_app_config probe_succeeded app_state_app_config
         path_flavour abspath app].
    reflexivity.
  - rewrite bind_ret, bind_assoc, bind_get, Hstat. cbn [node_is_file].
    rewrite bind_assoc, bind_emit, bind_ret. cbn [when].
    rewrite bind_ret, bind_emit.
    unfold open_w. rewrite bind_assoc, bind_get, Hstat, bind_assoc, bind_get, Hparent.
    rewrite bind_assoc, bind_emit, bind_modify.
    rewrite write_loop_run. rewrite !prepend_mkRun.
    cbn [length seq fs set_fs random_state set_random_state].
    change (abspath (set_fs _ s) p) with (abspath s p).
    rewrite foldl_append_file.
    unfold text_of_lines. change (5 * 40) with 200.
    destruct s.
    cbn [set_fs set_random_state fs random_state platform_system home_dir cur_dir
         environ heap g_app_config probe_succeeded app_state_app_config
         path_flavour abspath app].
    reflexivity.
Qed.

(** The self-test with all that it records, where the directory of the
    file exists and the file is not itself a directory. *)
Lemma gcp_fileio_test_exact (path_mount : Path) (verbose : bool) (s : State) :
  let path_file := joinpath path_mount "text_file_utf8.txt" in
  lookup_path (fs s) (Path_parent (abspath s path_file)) = Some Dir ->
  stat path_file s <> Some Dir ->
  gcp_fileio_test path_mount verbose s =
  mkRun (Returned tt)
        (set_fs (<[abspath s path_file
                   := File (text_of_lines (path_flavour s)
                                          (written_lines 5 (random_state s)))]>
                   (fs s))
                (set_random_state (fun i => random_state s (200 + i)) s))
        (([Print ("path_file: " +:+ Path_str path_file);
           FsCheck CkIsFile path_file (node_is_file (stat path_file s))]
          ++ (if node_is_file (stat path_file s) then [Unlink path_file] else [])
          ++ [FsCheck CkIsFile path_file false;
              Print ("Writing line by line utf-8 text file: " +:+ Path_str path_file);
              OpenWrite path_file]
          ++ map (fun k => FileWrite path_file (drawn_string k (random_state s) +:+ nl))
                 (seq 0 5))
         ++ [FsCheck CkIsFile path_file true;
             Print ("Reading line by line utf-8 text file: " +:+ Path_str path_file);
             ReadLines path_file]
         ++ map (fun k => Print (pretty (k + 1) +:+ "  " +:+ drawn_string k (random_state s)))
                (seq 0 5)).
Proof.
  intros path_file Hparent Hnotdir.
  destruct (lookup_path_parts _ _ Hnotdir) as [Hne _].
  unfold gcp_fileio_test. cbv zeta. fold path_file.
  rewrite (bind_returned _ _ _ _ _ _ (fileio_write_exact path_file s Hparent Hnotdir)).
  set (text := text_of_lines (path_flavour s) (written_lines 5 (random_state s))).
  set (s2 := set_fs _ _).
  assert (Hstat2 : stat path_file s2 = Some (File text)).
  { unfold stat. change (abspath s2 path_file) with (abspath s path_file).
    rewrite lookup_path_nonempty by exact Hne.
    unfold s2; cbn [fs set_fs]. apply lookup_insert_eq. }
  rewrite (fileio_read_back_run path_file _ s2 Hstat2).
  rewrite prepend_mkRun.
  assert (Hback : printed_lines 0 (splitlines_keepends text)
                  = map (fun k => Print (pretty (k + 1) +:+ "  "
                                         +:+ drawn_string k (random_state s)))
                        (seq 0 5)).
  { unfold text. rewrite written_lines_drawn.
    rewrite <- (map_map (fun k => drawn_string k (random_state s)) (fun b => b +:+ nl)).
    rewrite text_round_trip.
    - rewrite map_map.
      apply (printed_lines_numbered (fun k => drawn_string k (random_state s)) 5).
      intros k. destruct (drawn_string_spec k (random_state s)) as [Hs Hl].
      split; [exact Hs | rewrite Hl; lia].
    - apply List.Forall_map. apply Forall_forall. intros k _. apply drawn_string_spec. }
  rewrite Hback, written_lines_drawn, map_map. reflexivity.
Qed.

(** X12. The self-test reads back what it wrote: where the directory
    exists and [text_file_utf8.txt] is not itself a directory,
    [gcp_fileio_test] removes the file if it is there, writes the five
    strings it draws, each followed by a line feed, and then prints exactly
    these five strings, numbered 1 to 5, as the lines read from the file, on
    a platform that writes line feeds as carriage return and line feed
    too. *)
Theorem gcp_fileio_test_prints_what_it_wrote (path_mount : Path) (verbose : bool)
        (s : State) :
  let path_file := joinpath path_mount "text_file_utf8.txt" in
  let r := random_state s in
  lookup_path (fs s) (Path_parent (abspath s path_file)) = Some Dir ->
  stat path_file s <> Some Dir ->
  evs (gcp_fileio_test path_mount verbose s)
  = ([Print ("path_file: " +:+ Path_str path_file);
      FsCheck CkIsFile path_file (node_is_file (stat path_file s))]
     ++ (if node_is_file (stat path_file s) then [Unlink path_file] else [])
     ++ [FsCheck CkIsFile path_file false;
         Print ("Writing line by line utf-8 text file: " +:+ Path_str path_file);
         OpenWrite path_file]
     ++ map (fun k => FileWrite path_file (drawn_string k r +:+ nl)) (seq 0 5))
    ++ [FsCheck CkIsFile path_file true;
        Print ("Reading line by line utf-8 text file: " +:+ Path_str path_file);
        ReadLines path_file]
    ++ map (fun k => Print (pretty (k + 1) +:+ "  " +:+ drawn_string k r)) (seq 0 5)
  /\ (forall k, String.length (drawn_string k r) = 40
                /\ Forall (fun c => In c (list_ascii_of_string (ascii_letters +:+ digits)))
                          (list_ascii_of_string (drawn_string k r))).
Proof.
  intros path_file r Hparent Hnotdir. split.
  - rewrite (gcp_fileio_test_exact path_mount verbose s Hparent Hnotdir). reflexivity.
  - intros k. split; [apply drawn_string_spec |].
    unfold drawn_string. rewrite list_ascii_of_string_of_list_ascii.
    apply (drawn_chars_spec (ascii_letters +:+ digits) 40 ltac:(discriminate)).
Qed.

(** ** The self-test where it cannot write *)

Lemma fileio_write_blocked (p : Path) (s : State) :
  stat p s = Some Dir ->
  fileio_write p s =
  mkRun (Raised (OSError "IsADirectoryError" p)) s
        [Print ("path_file: " +:+ Path_str p);
         FsCheck CkIsFile p false;
         FsCheck CkIsFile p false;
         Print ("Writing line by line utf-8 text file: " +:+ Path_str p)].
Proof.
  intros Hstat. unfold fileio_write, Path_is_file, print.
  rewrite bind_emit, bind_assoc, bind_get, bind_assoc, bind_emit, bind_ret.
  cbv zeta. rewrite Hstat. cbn [node_is_file when].
  rewrite bind_ret, bind_assoc, bind_get, Hstat. cbn [node_is_file].
  rewrite bind_assoc, bind_emit, bind_ret. cbn [when].
  rewrite bind_ret, bind_emit.
  unfold open_w. rewrite bind_assoc, bind_get, Hstat, bind_assoc, bind_get.
  cbv iota. rewrite bind_raise, !prepend_mkRun. reflexivity.
Qed.

Lemma fileio_write_no_directory (p : Path) (s : State) :
  stat p s <> Some Dir ->
  lookup_path (fs s) (Path_parent (abspath s p)) <> Some Dir ->
  exists kind t,
    fileio_write p s =
    mkRun (Raised (OSError kind p))
          (if node_is_file (stat p s) then set_fs (delete (abspath s p) (fs s)) s else s)
          t
    /\ (kind = "NotADirectoryError" \/ kind = "FileNotFoundError")
    /\ List.filter is_file_write t = [].
Proof.
  intros Hnotdir Hparent.
  destruct (lookup_path_parts _ _ Hnotdir) as [Hne Hlook].
  unfold fileio_write, Path_is_file, print.
  rewrite bind_emit, bind_assoc, bind_get, bind_assoc, bind_emit, bind_ret.
  cbv zeta.
  destruct (stat p s) as [[c |] |] eqn:Hstat; [| contradiction |]; cbn [node_is_file when].
  - unfold Path_unlink. rewrite bind_assoc, bind_get, Hstat.
    rewrite bind_assoc, bind_emit, bind_modify.
    set (s1 := set_fs (delete (abspath s p) (fs s)) s).
    assert (Hstat1 : stat p s1 = None).
    { unfold stat, s1; cbn [fs set_fs]. change (abspath (set_fs _ s) p) with (abspath s p).
      rewrite lookup_path_nonempty by exact Hne. apply lookup_delete_eq. }
    rewrite bind_assoc, bind_get, Hstat1. cbn [node_is_file].
    rewrite bind_assoc, bind_emit, bind_ret. cbn [when].
    rewrite bind_ret, bind_emit.
    unfold open_w. rewrite bind_assoc, bind_get, Hstat1, bind_assoc, bind_get.
    change (abspath s1 p) with (abspath s p). unfold s1 at 1; cbn [fs set_fs].
    rewrite (lookup_path_delete_parent _ _ Hne).
    destruct (lookup_path (fs s) (Path_parent (abspath s p))) as [[c' |] |];
      [| contradiction |]; cbv iota.
    + rewrite bind_raise, !prepend_mkRun. eexists _, _.
      split; [reflexivity |]. split; [left; reflexivity | reflexivity].
    + rewrite bind_raise, !prepend_mkRun. eexists _, _.
      split; [reflexivity |]. split; [right; reflexivity | reflexivity].
  - rewrite bind_ret, bind_assoc, bind_get, Hstat. cbn [node_is_file].
    rewrite bind_assoc, bind_emit, bind_ret. cbn [when].
    rewrite bind_ret, bind_emit.
    unfold open_w. rewrite bind_assoc, bind_get, Hstat, bind_assoc, bind_get.
    destruct (lookup_path (fs s) (Path_parent (abspath s p))) as [[c' |] |];
      [| contradiction |]; cbv iota.
    + rewrite bind_raise, !prepend_mkRun. eexists _, _.
      split; [reflexivity |]. split; [left; reflexivity | reflexivity].
    + rewrite bind_raise, !prepend_mkRun. eexists _, _.
      split; [reflexivity |]. split; [right; reflexivity | reflexivity].
Qed.

(** Whether [open(file=path_file, mode="w")] can succeed. *)
Lemma can_write_dec (p : Path) (s : State) :
  (lookup_path (fs s) (Path_parent (abspath s p)) = Some Dir /\ stat p s <> Some Dir)
  \/ stat p s = Some Dir
  \/ (stat p s <> Some Dir /\ lookup_path (fs s) (Path_parent (abspath s p)) <> Some Dir).
Proof.
  destruct (stat p s) as [[c |] |]; [| right; left; reflexivity |];
    (destruct (lookup_path (fs s) (Path_parent (abspath s p))) as [[c' |] |];
     [right; right; split; discriminate
     | left; split; [reflexivity | discriminate]
     | right; right; split; discriminate]).
Qed.

(** The self-test when it raises. *)
Lemma gcp_fileio_test_raises (path_mount : Path) (verbose : bool) (s : State) :
  let path_file := joinpath path_mount "text_file_utf8.txt" in
  stat path_file s = Some Dir
  \/ (stat path_file s <> Some Dir
      /\ lookup_path (fs s) (Path_parent (abspath s path_file)) <> Some Dir) ->
  exists kind t,
    gcp_fileio_test path_mount verbose s =
    mkRun (Raised (OSError kind path_file))
          (if node_is_file (stat path_file s)
           then set_fs (delete (abspath s path_file) (fs s)) s else s)
          t
    /\ (kind = "IsADirectoryError" \/ kind = "NotADirectoryError"
        \/ kind = "FileNotFoundError")
    /\ List.filter is_file_write t = [].
Proof.
  intros path_file [Hdir | [Hnotdir Hparent]]; unfold gcp_fileio_test; cbv zeta;
    fold path_file.
  - rewrite (bind_raised _ _ _ _ _ _ (fileio_write_blocked path_file s Hdir)).
    rewrite Hdir. cbn [node_is_file]. eexists _, _.
    split; [reflexivity |]. split; [left; reflexivity | reflexivity].
  - destruct (fileio_write_no_directory path_file s Hnotdir Hparent)
      as (kind & t & Hrun & Hkind & Ht).
    rewrite (bind_raised _ _ _ _ _ _ Hrun). exists kind, t.
    split; [reflexivity |]. split; [| exact Ht].
    destruct Hkind as [-> | ->]; [right; left | right; right]; reflexivity.
Qed.

(** X13. [gcp_fileio_test] returns exactly when the directory of
    [text_file_utf8.txt] exists and the path is not itself a directory.
    Otherwise it raises the OSError of [open] for that path, never one of
    its own two exceptions, and it has then written nothing and drawn no
    random character. *)
Theorem gcp_fileio_test_returns_iff (path_mount : Path) (verbose : bool) (s : State) :
  let path_file := joinpath path_mount "text_file_utf8.txt" in
  let r := gcp_fileio_test path_mount verbose s in
  (res r = Returned tt <->
   lookup_path (fs s) (Path_parent (abspath s path_file)) = Some Dir
   /\ stat path_file s <> Some Dir)
  /\ (res r <> Returned tt ->
      exists kind,
        res r = Raised (OSError kind path_file)
        /\ List.filter is_file_write (evs r) = []
        /\ random_state (st r) = random_state s).
Proof.
  intros path_file r. subst r.
  destruct (can_write_dec path_file s) as [[Hparent Hnotdir] | Hfail].
  - rewrite (gcp_fileio_test_exact path_mount verbose s Hparent Hnotdir).
    cbn [res]. split.
    + split; [intros _; split; assumption | reflexivity].
    + intros H. contradiction H. reflexivity.
  - destruct (gcp_fileio_test_raises path_mount verbose s Hfail)
      as (kind & t & Hrun & Hkind & Ht).
    fold path_file in Hrun. rewrite Hrun. cbn [res st evs]. split.
    + split; [discriminate |]. intros [Hparent Hnotdir].
      destruct Hfail as [Hdir | [_ Hno]]; contradiction.
    + intros _. exists kind. split; [reflexivity |].
      split; [exact Ht |].
      destruct (node_is_file (stat path_file s)); reflexivity.
Qed.

(** X14. The self-test touches one file: whether it returns or raises,
    [gcp_fileio_test] leaves every path of the file system other than
    [text_file_utf8.txt] in the given directory as it was, and it changes
    neither the environment nor the configuration. *)
Theorem gcp_fileio_test_touches_one_file (path_mount : Path) (verbose : bool)
        (s : State) (q : Path) :
  q <> abspath s (joinpath path_mount "text_file_utf8.txt") ->
  let r := gcp_fileio_test path_mount verbose s in
  fs (st r) !! q = fs s !! q
  /\ environ (st r) = environ s
  /\ heap (st r) = heap s
  /\ app_state_app_config (st r) = app_state_app_config s
  /\ probe_succeeded (st r) = probe_succeeded s.
Proof.
  intros Hq r. subst r.
  destruct (can_write_dec (joinpath path_mount "text_file_utf8.txt") s)
    as [[Hparent Hnotdir] | Hfail].
  - rewrite (gcp_fileio_test_exact path_mount verbose s Hparent Hnotdir).
    cbn [st fs environ heap app_state_app_config probe_succeeded set_fs set_random_state].
    split; [| repeat split]. apply lookup_insert_ne. intros Heq. apply Hq. symmetry. exact Heq.
  - destruct (gcp_fileio_test_raises path_mount verbose s Hfail)
      as (kind & t & Hrun & _ & _).
    rewrite Hrun. cbn [st].
    destruct (node_is_file (stat (joinpath path_mount "text_file_utf8.txt") s)).
    + cbn [fs environ heap app_state_app_config probe_succeeded set_fs].
      split; [| repeat split]. apply lookup_delete_ne. intros Heq. apply Hq. symmetry. exact Heq.
    + repeat split.
Qed.

(** ** Paths *)

Lemma joinpath_test_file (p : Path) :
  joinpath p "text_file_utf8.txt"
  = mkPath (p_flavour p) (p_root p) (p_parts p ++ ["text_file_utf8.txt"]).
Proof. unfold joinpath. destruct (p_flavour p); reflexivity. Qed.

Lemma joinpath_adc_json (p : Path) :
  joinpath p "application_default_credentials.json"
  = mkPath (p_flavour p) (p_root p)
           (p_parts p ++ ["application_default_credentials.json"]).
Proof. unfold joinpath. destruct (p_flavour p); reflexivity. Qed.

Lemma ends_with_abspath (s : State) (p : Path) (x : string) :
  ends_with p x -> ends_with (abspath s p) x.
Proof.
  intros [l Hl]. unfold abspath, resolve.
  destruct (String.eqb (p_root p) "").
  - eexists. cbn [p_parts]. rewrite Hl, app_assoc. reflexivity.
  - exists l. exact Hl.
Qed.

Lemma ends_with_neq (q q' : Path) (x y : string) :
  ends_with q x -> ends_with q' y -> x <> y -> q <> q'.
Proof.
  intros [l Hl] [l' Hl'] Hxy ->. rewrite Hl in Hl'.
  apply app_inj_tail in Hl' as [_ Heq]. contradiction.
Qed.


Lemma test_file_ends (s : State) (p : Path) :
  ends_with (abspath s (joinpath p "text_file_utf8.txt")) "text_file_utf8.txt".
Proof.
  apply ends_with_abspath. rewrite joinpath_test_file. eexists. reflexivity.
Qed.

Lemma gcloud_dir_ends (s : State) : ends_with (gcloud_dir s) "gcloud".
Proof.
  unfold gcloud_dir, joinpath, path_flavour.
  destruct (String.eqb (platform_system s) "Windows"); cbn [Path_of_string p_flavour].
  - change (Path_of_string Windows "AppData\Roaming\gcloud")
      with (mkPath Windows "" ["AppData"; "Roaming"; "gcloud"]).
    cbn [p_root String.eqb p_parts]. exists (p_parts (Path_of_string Windows (home_dir s))
                                              ++ ["AppData"; "Roaming"]).
    rewrite <- app_assoc. reflexivity.
  - change (Path_of_string Posix ".config/gcloud/")
      with (mkPath Posix "" [".config"; "gcloud"]).
    cbn [p_root String.eqb p_parts]. exists (p_parts (Path_of_string Posix (home_dir s))
                                              ++ [".config"]).
    rewrite <- app_assoc. reflexivity.
Qed.

Lemma adc_json_ends (s : State) :
  ends_with (adc_json s) "application_default_credentials.json".
Proof. unfold adc_json. rewrite joinpath_adc_json. eexists. reflexivity. Qed.

Lemma lookup_path_agree (f f' : gmap Path node) (q : Path) :
  f' !! q = f !! q -> lookup_path f' q = lookup_path f q.
Proof. intros H. unfold lookup_path. destruct (p_parts q); [reflexivity | exact H]. Qed.




(** ** The detection of the credentials after the self-test *)

Lemma credentials_returned_known (verbose b : bool) (s : State) :
  res (gcp_json_credentials_exist verbose s) = Returned b -> known_platform s.
Proof.
  intros H. unfold known_platform.
  destruct (String.eqb_spec (platform_system s) "Windows") as [Hw | Hw]; [auto |].
  destruct (String.eqb_spec (platform_system s) "Linux") as [Hl | Hl]; [auto |].
  destruct (String.eqb_spec (platform_system s) "Darwin") as [Hd | Hd]; [auto |].
  rewrite (gcp_json_credentials_exist_unknown verbose s Hw Hl Hd) in H. discriminate.
Qed.

(** A change of the file system at a path whose last component is
    [text_file_utf8.txt], and of the random draws, is not seen by the
    detection of the credentials. *)
Lemma credentials_after_test (verbose : bool) (s : State) (f' : gmap Path node)
      (r' : nat -> nat) (q0 : Path) :
  known_platform s ->
  ends_with q0 "text_file_utf8.txt" ->
  (forall q, q <> q0 -> f' !! q = fs s !! q) ->
  res (gcp_json_credentials_exist verbose (set_fs f' (set_random_state r' s)))
  = res (gcp_json_credentials_exist verbose s).
Proof.
  intros Hk Hq0 Hagree.
  set (s1 := set_fs f' (set_random_state r' s)).
  assert (Hk1 : known_platform s1) by exact Hk.
  destruct (gcp_json_credentials_exist_known verbose s Hk) as (-> & _).
  destruct (gcp_json_credentials_exist_known verbose s1 Hk1) as (-> & _).
  change (gcloud_dir s1) with (gcloud_dir s). change (adc_json s1) with (adc_json s).
  assert (Hstat : forall p x, ends_with p x -> x <> "text_file_utf8.txt" ->
                              stat p s1 = stat p s).
  { intros p x Hp Hx. unfold stat. change (abspath s1 p) with (abspath s p).
    apply lookup_path_agree. cbn [s1 fs set_fs]. apply Hagree.
    apply (ends_with_neq _ _ x "text_file_utf8.txt");
      [apply ends_with_abspath, Hp | exact Hq0 | exact Hx]. }
  rewrite (Hstat _ _ (gcloud_dir_ends s)) by discriminate.
  rewrite (Hstat _ _ (adc_json_ends s)) by discriminate.
  reflexivity.
Qed.

(** ** The folder of the Chroma database *)



(** ** The self-tests of the start-up *)

Lemma filter_none (f : event -> bool) (t : list event) :
  Forall (fun e => f e = false) t -> List.filter f t = [].
Proof.
  induction 1 as [| e t He _ IH]; [reflexivity |].
  cbn [List.filter]. rewrite He. exact IH.
Qed.

Lemma observations_write_nothing (t : list event) :
  Forall is_observation t ->
  List.filter is_file_write t = [] /\ List.filter is_mkdir t = [].
Proof.
  induction 1 as [| e t He _ [IH1 IH2]]; [split; reflexivity |].
  destruct e; try contradiction; split; assumption.
Qed.

Lemma random_choice_no_mkdir (characters : string) :
  respects only_world no_mkdir (random_choice characters).
Proof. intros s; split; [destruct s; reflexivity | constructor]. Qed.

Lemma print_lines_no_mkdir (lines : list string) (i : nat) :
  respects only_world no_mkdir (print_lines i lines).
Proof.
  intros s. rewrite print_lines_run. split; [reflexivity |]. cbn [evs].
  revert i. induction lines as [| line rest IH]; intros i; cbn [printed_lines].
  - constructor.
  - apply Forall_app. split; [| apply IH].
    destruct (Nat.ltb 0 (String.length (strip line))); repeat constructor.
Qed.

Ltac frame_side ::=
  solve [ exact I | reflexivity | exact eq_refl
        | match goal with s : State |- _ => destruct s; reflexivity end
        | intros ? ? ?; assumption ].

Ltac frame_known ::=
  lazymatch goal with
  | |- respects only_world no_mkdir (random_choice _) => apply random_choice_no_mkdir
  | |- respects only_world no_mkdir (print_lines _ _) => apply print_lines_no_mkdir
  | |- respects env_kept _ (random_choice _) => apply random_choice_env_kept
  | |- respects env_kept _ (print_lines _ _) => apply print_lines_env_kept
  | |- respects env_kept _ (load_dotenv _) => apply load_dotenv_env_kept
  | |- respects env_kept _ (gcp_json_credentials_exist _) =>
      apply gcp_json_credentials_exist_env_kept
  | |- respects env_kept _ (gcp_fileio_test _ _) => apply gcp_fileio_test_env_kept
  | |- respects only_world _ (random_choice _) => apply random_choice_frame
  | |- respects only_world _ (print_lines _ _) => apply print_lines_frame
  | |- respects only_world _ (gcp_json_credentials_exist _) =>
      apply gcp_json_credentials_exist_frame
  | |- respects only_world _ (gcp_fileio_test _ _) => apply gcp_fileio_test_frame
  | |- respects only_world _ (wait_for_fuse _ _) => apply wait_for_fuse_frame
  end.

(** The self-test never creates a directory. *)
Lemma gcp_fileio_test_no_mkdir (path_mount : Path) (verbose : bool) :
  respects only_world no_mkdir (gcp_fileio_test path_mount verbose).
Proof. unfold gcp_fileio_test, fileio_write, fileio_read_back. frame. Qed.

Lemma gcp_fileio_test_mkdirs (path_mount : Path) (verbose : bool) (s : State) :
  List.filter is_mkdir (evs (gcp_fileio_test path_mount verbose s)) = [].
Proof. apply filter_none, (gcp_fileio_test_no_mkdir path_mount verbose s). Qed.

(** The self-test where it can write: the state it leaves and what it
    writes. *)
Lemma gcp_fileio_test_success (path_mount : Path) (verbose : bool) (s : State) :
  let path_file := joinpath path_mount "text_file_utf8.txt" in
  lookup_path (fs s) (Path_parent (abspath s path_file)) = Some Dir ->
  stat path_file s <> Some Dir ->
  gcp_fileio_test path_mount verbose s
  = mkRun (Returned tt)
          (set_fs (<[abspath s path_file
                     := File (text_of_lines (path_flavour s)
                                            (written_lines 5 (random_state s)))]>
                     (fs s))
                  (set_random_state (fun i => random_state s (200 + i)) s))
          (evs (gcp_fileio_test path_mount verbose s))
  /\ length (List.filter is_file_write (evs (gcp_fileio_test path_mount verbose s))) = 5.
Proof.
  intros path_file Hparent Hnotdir.
  destruct (gcp_fileio_test_run path_mount verbose s Hparent Hnotdir) as (_ & Hw & _).
  split.
  - rewrite (run_eta (gcp_fileio_test path_mount verbose s)) at 1.
    rewrite (gcp_fileio_test_exact path_mount verbose s Hparent Hnotdir) at 1 2.
    reflexivity.
  - rewrite Hw, length_map. apply written_lines_spec.
Qed.

Lemma lifespan_selftest_unfold (s : State) (l : nat) (fl : flavour) (mount : Path) :
  app_state_app_config s = Some l ->
  heap s !! l = Some (lifespan_config fl mount) ->
  lifespan_selftest s =
  bind (gcp_fileio_test mount false)
       (fun _ =>
          cred <- gcp_json_credentials_exist false ;;
          when (negb cred)
               (c <- app_state_get ;; v <- dict_getitem c "path_chroma_db" ;;
                fl <- get path_flavour ;;
                let path_chroma_db := Path_of_string fl (py_str v) in
                d <- Path_is_dir path_chroma_db ;;
                when (negb d) (Path_mkdir_parents path_chroma_db) ;;;
                gcp_fileio_test path_chroma_db false)) s.
Proof.
  intros Hl Hd.
  destruct (lifespan_config_lookup fl mount) as (_ & _ & H3 & _).
  unfold lifespan_selftest.
  unfold app_state_get at 1. rewrite !bind_assoc, bind_get, Hl, bind_ret.
  unfold dict_getitem at 1. rewrite !bind_assoc, bind_get, Hd, H3, bind_ret.
  cbn [as_path]. rewrite bind_ret. reflexivity.
Qed.





(** X16. With local credentials the start-up tests one place only: after
    publishing the configuration, [lifespan] runs [gcp_fileio_test] on the
    configured root and that is all; it ends as this self-test ends and
    leaves the state this self-test leaves, it creates no directory and
    writes no other file, so nothing under /tmp. *)
Theorem lifespan_selftest_local (s : State) (l : nat) (fl : flavour) (mount : Path) :
  app_state_app_config s = Some l ->
  heap s !! l = Some (lifespan_config fl mount) ->
  res (gcp_json_credentials_exist false s) = Returned true ->
  let r := lifespan_selftest s in
  let r1 := gcp_fileio_test mount false s in
  res r = res r1
  /\ st r = st r1
  /\ List.filter is_mkdir (evs r) = []
  /\ List.filter is_file_write (evs r) = List.filter is_file_write (evs r1).
Proof.
  intros Hl Hd Hc r r1. subst r r1.
  rewrite (lifespan_selftest_unfold s l fl mount Hl Hd).
  destruct (can_write_dec (joinpath mount "text_file_utf8.txt") s)
    as [[Hparent Hnotdir] | Hfail].
  - destruct (gcp_fileio_test_success mount false s Hparent Hnotdir) as (Hrun1 & _).
    pose proof (gcp_fileio_test_mkdirs mount false s) as Hm1.
    revert Hrun1 Hm1. generalize (evs (gcp_fileio_test mount false s)). intros t1 Hrun1 Hm1.
    set (s1 := set_fs _ _) in Hrun1.
    assert (Hc1 : res (gcp_json_credentials_exist false s1) = Returned true).
    { unfold s1.
      rewrite (credentials_after_test false s _ _
                 (abspath s (joinpath mount "text_file_utf8.txt")));
        [exact Hc | | apply test_file_ends |].
      - apply (credentials_returned_known false true s Hc).
      - intros q Hq. apply lookup_insert_ne. intros Heq. apply Hq. symmetry. exact Heq. }
    rewrite (bind_returned _ _ _ _ _ _ Hrun1).
    rewrite (bind_returned _ _ _ _ _ _ (gcp_json_credentials_exist_run false true s1 Hc1)).
    cbn [negb when]. rewrite ret_run, !prepend_mkRun, Hrun1. cbn [res st evs].
    pose proof (gcp_json_credentials_exist_events false s1) as Hobs.
    destruct (observations_write_nothing _ Hobs) as (Hcw & Hcm).
    rewrite !List.filter_app, Hm1, Hcm, Hcw, !app_nil_r.
    repeat split.
  - destruct (gcp_fileio_test_raises mount false s Hfail) as (kind & t & Hrun1 & _ & _).
    pose proof (gcp_fileio_test_mkdirs mount false s) as Hm1.
    rewrite (bind_raised _ _ _ _ _ _ Hrun1). rewrite Hrun1 in Hm1 |- *.
    cbn [res st evs] in Hm1 |- *. repeat split. exact Hm1.
Qed.

(** ** The answers of the handlers *)


Lemma same_config_unstarted (s s' : State) :
  same_config s s' -> app_state_app_config s = None -> app_state_app_config s' = None.
Proof. intros (_ & _ & Ha) H. rewrite Ha. exact H. Qed.

(** When the configuration step raises, it has published nothing. *)
Lemma lifespan_configure_raised outside (s : State) (e : exn) :
  res (lifespan_configure outside s) = Raised e ->
  same_config s (st (lifespan_configure outside s)).
Proof.
  unfold lifespan_configure, print. rewrite bind_emit, res_prepend, st_prepend.
  destruct (res (gcp_json_credentials_exist false s)) as [cred | e'] eqn:Hc.
  - rewrite (bind_returned _ _ _ _ _ _ (gcp_json_credentials_exist_run false cred s Hc)).
    rewrite res_prepend, st_prepend.
    set (branch := if cred then lifespan_local else lifespan_deployed outside).
    pose proof (lifespan_branch_frame cred outside s) as [Hw _]. fold branch in Hw.
    destruct (res (branch s)) as [p | e''] eqn:Hb.
    + rewrite (bind_returned branch _ s p (st (branch s)) (evs (branch s))).
      * pose proof (lifespan_publish_run p (st (branch s))) as Hpub. cbv zeta in Hpub.
        rewrite Hpub. discriminate.
      * rewrite (run_eta (branch s)) at 1. rewrite Hb. reflexivity.
    + rewrite (bind_raised branch _ s e'' (st (branch s)) (evs (branch s))).
      * intros _. apply only_world_same_config, Hw.
      * rewrite (run_eta (branch s)) at 1. rewrite Hb. reflexivity.
  - rewrite (bind_raised _ _ s e' s (evs (gcp_json_credentials_exist false s))).
    + intros _. reflexivity.
    + rewrite (run_eta (gcp_json_credentials_exist false s)) at 1.
      rewrite Hc, gcp_json_credentials_exist_state. reflexivity.
Qed.

Lemma lifespan_startup_config outside (s : State) :
  app_state_app_config s = None \/ started s ->
  app_state_app_config (st (lifespan_startup outside s)) = None
  \/ started (st (lifespan_startup outside s)).
Proof.
  intros Hinv.
  destruct (res (lifespan_configure outside s)) as [[] | e] eqn:Hconf.
  - right. rewrite (lifespan_startup_unfold outside s Hconf), st_prepend.
    apply (started_same_config (st (lifespan_configure outside s))).
    + apply only_world_same_config, lifespan_selftest_frame.
    + apply lifespan_configure_started, Hconf.
  - assert (Hst : st (lifespan_startup outside s) = st (lifespan_configure outside s)).
    { unfold lifespan_startup.
      rewrite (bind_raised (lifespan_configure outside) _ s e
                 (st (lifespan_configure outside s)) (evs (lifespan_configure outside s)));
        [reflexivity |].
      rewrite (run_eta (lifespan_configure outside s)) at 1. rewrite Hconf. reflexivity. }
    rewrite Hst. pose proof (lifespan_configure_raised outside s e Hconf) as Hsame.
    destruct Hinv as [Hnone | Hstarted].
    + left. apply (same_config_unstarted s); assumption.
    + right. apply (started_same_config s); assumption.
Qed.

Lemma step_config (o : op) (s : State) :
  app_state_app_config s = None \/ started s ->
  app_state_app_config (step s o) = None \/ started (step s o).
Proof.
  intros Hinv. destruct (is_startup o) eqn:Ho.
  - destruct o as [r | outside | | change]; try discriminate.
    apply lifespan_startup_config, Hinv.
  - pose proof (step_same_config o s Ho) as Hsame.
    destruct Hinv as [Hnone | Hstarted].
    + left. apply (same_config_unstarted s); assumption.
    + right. apply (started_same_config s); assumption.
Qed.

Lemma run_ops_config (ops : list op) (s : State) :
  app_state_app_config s = None \/ started s ->
  app_state_app_config (run_ops ops s) = None \/ started (run_ops ops s).
Proof.
  revert s. induction ops as [| o ops IH]; intros s Hinv; [exact Hinv |].
  apply (IH (step s o)), step_config, Hinv.
Qed.

(** X18. GET / answers 200 or 500 after whether a start-up has published
    the configuration, and for no other reason: in every state that the
    process reaches from the loading of the module, either
    [app.state.app_config] is not there and [read_root] answers 500, or it
    is a record that [lifespan] made and [read_root] answers 200.  A lookup
    in the record never fails. *)
Theorem read_root_tracks_startup system home cur f e r (ops : list op) :
  let s := run_ops ops (st (module_load (process_start system home cur f e r))) in
  (app_state_app_config s = None
   /\ res (read_root s) = Raised (AttributeError "app_config")
   /\ http_status (res (read_root s)) = 500)
  \/ (started s /\ http_status (res (read_root s)) = 200).
Proof.
  intros s.
  assert (Hinv : app_state_app_config s = None \/ started s).
  { subst s. apply run_ops_config. left. rewrite module_load_run. reflexivity. }
  destruct Hinv as [Hnone | Hstarted].
  - left. rewrite (read_root_unstarted s Hnone). repeat split. exact Hnone.
  - right. split; [exact Hstarted |].
    destruct (read_root_run s Hstarted) as [lines ->]. reflexivity.
Qed.

End Server.

(** * Examples

    The theorems above at concrete processes: a Cloud Run container (Linux,
    no gcloud credentials, the bucket mounted at /mnt/storage) and a
    developer's machine (gcloud credentials in the home directory). *)

(** A [.env] parser that finds no pair, and a [repr] that prints nothing. *)
Definition no_pairs : string -> list (string * string) := fun _ => [].
Definition no_repr : PrimFloat.float -> string := fun _ => "".

Definition posix (s : string) : Path := Path_of_string Posix s.

(** The container after the module is loaded, with the file system [f]
    and the environment [e]. *)
Definition cloud_run (f : gmap Path node) (e : gmap string string) : State :=
  st (module_load (process_start "Linux" "/root" "/app" f e (fun k => 7 * k + 3))).

(** The mount point and /tmp exist, the bucket is not mounted yet. *)
Definition fs_unmounted : gmap Path node :=
  <[posix "/mnt/storage" := Dir]> (<[posix "/tmp" := Dir]> ∅).

(** The bucket is mounted: its [.env] is there. *)
Definition fs_mounted : gmap Path node :=
  <[posix "/mnt/storage/.env" := File "OPENAI_API_KEY=sk-test"]> fs_unmounted.

(** The bucket is mounted, and text_file_utf8.txt is a directory in it. *)
Definition fs_blocked : gmap Path node :=
  <[posix "/mnt/storage/text_file_utf8.txt" := Dir]> fs_mounted.

(** Nothing happens to the file system during the sleeps. *)
Definition quiet : nat -> gmap Path node -> gmap Path node := fun _ f => f.

(** The bucket gets mounted during the sleep of iteration 2. *)
Definition mounts_at_2 : nat -> gmap Path node -> gmap Path node :=
  fun i f => if Nat.eqb i 2 then fs_mounted else f.

(** A developer's machine: credentials of gcloud, no [.env] in /work. *)
Definition dev_machine : State :=
  st (module_load
        (process_start "Linux" "/home/dev" "/work"
           (<[posix "/home/dev/.config/gcloud" := Dir]>
              (<[posix "/home/dev/.config/gcloud/application_default_credentials.json"
                 := File "{}"]>
                 (<[posix "/work" := Dir]> ∅)))
           ∅ (fun k => k))).

Lemma startup_probe_monotonic_witness :
  res (startup_probe (cloud_run fs_mounted ∅)) = Returned ready_first
  /\ probe_succeeded
       (run_ops no_pairs no_repr
          [Outside (fun _ => ∅); Handle GetRoot; Startup quiet; Handle GetReady]
          (st (startup_probe (cloud_run fs_mounted ∅)))) = true.
Proof.
  assert (H : res (startup_probe (cloud_run fs_mounted ∅)) = Returned ready_first)
    by (vm_compute; reflexivity).
  split; [exact H |].
  exact (proj1 (proj2 (startup_probe_monotonic no_pairs no_repr _ _
                         [Outside (fun _ => ∅); Handle GetRoot; Startup quiet;
                          Handle GetReady] H))).
Defined.


Lemma wait_loop_exact_checks_witness :
  1 <= 4 <= max_checks
  /\ (forall j, j < 3 ->
        marker_seen mounts_at_2 (cloud_run fs_unmounted ∅)
                    (mount_marker (cloud_run fs_unmounted ∅)) j = false)
  /\ marker_seen mounts_at_2 (cloud_run fs_unmounted ∅)
                 (mount_marker (cloud_run fs_unmounted ∅)) 3 = true
  /\ length (List.filter is_fs_check
               (evs (lifespan_deployed no_pairs mounts_at_2 (cloud_run fs_unmounted ∅)))) = 4.
Proof.
  assert (H1 : 1 <= 4 <= max_checks) by (unfold max_checks; lia).
  assert (H2 : forall j, j < 4 - 1 ->
                 marker_seen mounts_at_2 (cloud_run fs_unmounted ∅)
                             (mount_marker (cloud_run fs_unmounted ∅)) j = false).
  { intros j Hj. destruct j as [| [| [| j]]]; [vm_compute; reflexivity .. | lia]. }
  assert (H3 : marker_seen mounts_at_2 (cloud_run fs_unmounted ∅)
                           (mount_marker (cloud_run fs_unmounted ∅)) (4 - 1) = true)
    by (vm_compute; reflexivity).
  split; [exact H1 |]. split; [exact H2 |]. split; [exact H3 |].
  exact (proj1 (proj2 (proj2 (wait_loop_exact_checks no_pairs mounts_at_2 _ 4 H1 H2 H3)))).
Defined.


Lemma lifespan_local_missing_env_witness :
  res (gcp_json_credentials_exist false dev_machine) = Returned true
  /\ node_is_file (stat (local_marker dev_machine) dev_machine) = false
  /\ st (lifespan_startup no_pairs quiet dev_machine) = dev_machine.
Proof.
  assert (H1 : res (gcp_json_credentials_exist false dev_machine) = Returned true)
    by (vm_compute; reflexivity).
  assert (H2 : node_is_file (stat (local_marker dev_machine) dev_machine) = false)
    by (vm_compute; reflexivity).
  split; [exact H1 |]. split; [exact H2 |].
  exact (proj1 (proj2 (lifespan_local_missing_env no_pairs quiet _ H1 H2))).
Defined.

Lemma lifespan_publishes_config_witness :
  res (lifespan_configure no_pairs mounts_at_2 (cloud_run fs_unmounted ∅)) = Returned tt
  /\ app_state_app_config
       (run_ops no_pairs no_repr
          [Handle GetReady; Handle GetRoot; Handle (PostCalculator (mkToolInput 10 3 "add"));
           Outside (fun _ => ∅); Shutdown]
          (st (lifespan_startup no_pairs mounts_at_2 (cloud_run fs_unmounted ∅)))) = Some 1.
Proof.
  assert (H1 : res (lifespan_configure no_pairs mounts_at_2 (cloud_run fs_unmounted ∅))
               = Returned tt) by (vm_compute; reflexivity).
  split; [exact H1 |].
  destruct (lifespan_publishes_config no_pairs no_repr mounts_at_2 _
              [Handle GetReady; Handle GetRoot;
               Handle (PostCalculator (mkToolInput 10 3 "add"));
               Outside (fun _ => ∅); Shutdown] H1 eq_refl)
    as (cred & record & H).
  exact (proj1 (proj2 (proj2 (proj2 (proj2 (proj2 (proj2 (proj2 (proj2 (proj2 (proj2 H))))))))))).
Defined.

Lemma read_root_status_witness :
  started (st (lifespan_startup no_pairs quiet (cloud_run fs_unmounted ∅)))
  /\ http_status
       (res (read_root (st (lifespan_startup no_pairs quiet (cloud_run fs_unmounted ∅)))))
     = 200.
Proof.
  assert (H : started (st (lifespan_startup no_pairs quiet (cloud_run fs_unmounted ∅)))).
  { exists 1, Posix, (posix "/mnt/storage"). split; vm_compute; reflexivity. }
  split; [exact H |].
  exact (proj1 (read_root_status _ H)).
Defined.

Lemma gcp_fileio_test_as_coded_witness :
  lookup_path (fs (cloud_run fs_unmounted ∅))
              (Path_parent (abspath (cloud_run fs_unmounted ∅)
                                    (joinpath (posix "/mnt/storage") "text_file_utf8.txt")))
  = Some Dir
  /\ stat (joinpath (posix "/mnt/storage") "text_file_utf8.txt") (cloud_run fs_unmounted ∅)
     = None
  /\ res (gcp_fileio_test (posix "/mnt/storage") false (cloud_run fs_unmounted ∅))
     = Returned tt.
Proof.
  assert (H1 : lookup_path (fs (cloud_run fs_unmounted ∅))
                 (Path_parent (abspath (cloud_run fs_unmounted ∅)
                                 (joinpath (posix "/mnt/storage") "text_file_utf8.txt")))
               = Some Dir) by (vm_compute; reflexivity).
  assert (H2 : stat (joinpath (posix "/mnt/storage") "text_file_utf8.txt")
                    (cloud_run fs_unmounted ∅) = None) by (vm_compute; reflexivity).
  assert (H3 : stat (joinpath (posix "/mnt/storage") "text_file_utf8.txt")
                    (cloud_run fs_unmounted ∅) <> Some Dir)
    by (rewrite H2; discriminate).
  split; [exact H1 |]. split; [exact H2 |].
  exact (proj1 (gcp_fileio_test_as_coded no_pairs (posix "/mnt/storage") _ H1 H3)).
Defined.

(** ** Where the specification says more than the code does *)


(** A failing self-test stops the start-up, and a file that holds other
    lines than the ones written passes the reading half. *)
Lemma selftest_failure_counterexample :
  res (lifespan_configure no_pairs quiet (cloud_run fs_blocked ∅)) = Returned tt
  /\ res (lifespan_startup no_pairs quiet (cloud_run fs_blocked ∅))
     = Raised (OSError "IsADirectoryError" (posix "/mnt/storage/text_file_utf8.txt"))
  /\ res (fileio_read_back (posix "/mnt/storage/.env") (cloud_run fs_mounted ∅))
     = Returned tt.
Proof. repeat split; vm_compute; reflexivity. Qed.

(** OPENAI_API_KEY is in the environment, with the empty string as its
    value: GET / reports it as not found. *)
Lemma read_root_empty_key_counterexample :
  res (lifespan_startup no_pairs quiet (cloud_run fs_unmounted {["OPENAI_API_KEY" := ""]}))
  = Returned tt
  /\ environ (st (lifespan_startup no_pairs quiet
                    (cloud_run fs_unmounted {["OPENAI_API_KEY" := ""]})))
     !! "OPENAI_API_KEY" = Some ""
  /\ res (read_root (st (lifespan_startup no_pairs quiet
                           (cloud_run fs_unmounted {["OPENAI_API_KEY" := ""]}))))
     = Returned [("status", "ok");
                 ("message", "Server is running, BUT OPENAI_API_KEY not found!.")].
Proof. repeat split; vm_compute; reflexivity. Qed.

(** ** Examples of the further properties *)

(** A machine whose platform [savvy_get_os] does not know. *)
Definition bsd_machine : State :=
  st (module_load (process_start "FreeBSD" "/root" "/app" ∅ ∅ (fun k => k))).

(** A developer's machine with a [.env] file in the working directory. *)
Definition dev_machine_env : State :=
  st (module_load
        (process_start "Linux" "/home/dev" "/work"
           (<[posix "/home/dev/.config/gcloud" := Dir]>
              (<[posix "/home/dev/.config/gcloud/application_default_credentials.json"
                 := File "{}"]>
                 (<[posix "/work" := Dir]>
                    (<[posix "/work/.env" := File "OPENAI_API_KEY=sk-test"]> ∅))))
           ∅ (fun k => k))).

(** A [.env] parser that finds a key and one more variable. *)
Definition key_pairs : string -> list (string * string) :=
  fun _ => [("OPENAI_API_KEY", "from-file"); ("OTHER", "x")].

(** The container after a start-up without the bucket. *)
Definition degraded : State :=
  st (lifespan_startup no_pairs quiet (cloud_run fs_unmounted ∅)).

Lemma unknown_platform_stops_startup_witness :
  platform_system bsd_machine <> "Windows"
  /\ platform_system bsd_machine <> "Linux"
  /\ platform_system bsd_machine <> "Darwin"
  /\ lifespan_startup no_pairs quiet bsd_machine
     = mkRun (Raised (Exception ["Unknown OS: "; platform_system bsd_machine])) bsd_machine
             [Print "Application lifespan startup sequence initiated."].
Proof.
  assert (H1 : platform_system bsd_machine <> "Windows") by discriminate.
  assert (H2 : platform_system bsd_machine <> "Linux") by discriminate.
  assert (H3 : platform_system bsd_machine <> "Darwin") by discriminate.
  split; [exact H1 |]. split; [exact H2 |]. split; [exact H3 |].
  exact (proj2 (unknown_platform_stops_startup no_pairs quiet bsd_machine H1 H2 H3)).
Defined.


Lemma log_structured_message_entry_witness :
  List.NoDup (map fst [("key_preview", "sk-...abcd")])
  /\ ~ In "severity" (map fst [("key_preview", "sk-...abcd")])
  /\ ~ In "message" (map fst [("key_preview", "sk-...abcd")])
  /\ evs (log_structured_message "INFO" "OpenAI API Key check: Key is SET."
            [("key_preview", "sk-...abcd")] dev_machine)
     = [PrintJson [("severity", "INFO");
                   ("message", "OpenAI API Key check: Key is SET.");
                   ("key_preview", "sk-...abcd")]].
Proof.
  assert (H1 : List.NoDup (map fst [("key_preview", "sk-...abcd")])).
  { repeat constructor. intros []. }
  assert (H2 : ~ In "severity" (map fst [("key_preview", "sk-...abcd")])).
  { intros [H | []]. discriminate H. }
  assert (H3 : ~ In "message" (map fst [("key_preview", "sk-...abcd")])).
  { intros [H | []]. discriminate H. }
  split; [exact H1 |]. split; [exact H2 |]. split; [exact H3 |].
  exact (proj2 (proj2 (log_structured_message_entry "INFO" "OpenAI API Key check: Key is SET."
                         [("key_preview", "sk-...abcd")] dev_machine H1 H2 H3))).
Defined.

Lemma read_root_before_startup_witness :
  forallb (fun o => negb (is_startup o))
          [Handle GetReady; Outside (fun _ => fs_mounted); Handle GetReady; Shutdown] = true
  /\ http_status
       (res (read_root
               (run_ops no_pairs no_repr
                  [Handle GetReady; Outside (fun _ => fs_mounted); Handle GetReady; Shutdown]
                  (st (module_load (process_start "Linux" "/root" "/app" fs_unmounted ∅
                                                  (fun k => k)))))))
     = 500.
Proof.
  assert (H : forallb (fun o => negb (is_startup o))
                      [Handle GetReady; Outside (fun _ => fs_mounted); Handle GetReady;
                       Shutdown] = true) by reflexivity.
  split; [exact H |].
  exact (proj2 (read_root_before_startup no_pairs no_repr "Linux" "/root" "/app" fs_unmounted ∅
                  (fun k => k) _ H)).
Defined.


Lemma read_root_short_key_logged_witness :
  started (set_environ {["OPENAI_API_KEY" := "abc"]} degraded)
  /\ environ (set_environ {["OPENAI_API_KEY" := "abc"]} degraded) !! "OPENAI_API_KEY"
     = Some "abc"
  /\ "abc" <> ""
  /\ String.length "abc" <= 4
  /\ In (PrintJson [("severity", "INFO");
                    ("message", "OpenAI API Key check: Key is SET.");
                    ("key_preview", "sk-...abc")])
        (evs (read_root (set_environ {["OPENAI_API_KEY" := "abc"]} degraded))).
Proof.
  assert (H1 : started (set_environ {["OPENAI_API_KEY" := "abc"]} degraded)).
  { exists 1, Posix, (posix "/mnt/storage"). split; vm_compute; reflexivity. }
  assert (H2 : environ (set_environ {["OPENAI_API_KEY" := "abc"]} degraded)
               !! "OPENAI_API_KEY" = Some "abc") by reflexivity.
  assert (H3 : "abc" <> "") by discriminate.
  assert (H4 : String.length "abc" <= 4) by (simpl; lia).
  split; [exact H1 |]. split; [exact H2 |]. split; [exact H3 |]. split; [exact H4 |].
  exact (read_root_short_key_logged _ "abc" H1 H2 H3 H4).
Defined.

Lemma environ_never_overwritten_witness :
  environ (cloud_run fs_mounted {["OPENAI_API_KEY" := "cloud"]}) !! "OPENAI_API_KEY"
  = Some "cloud"
  /\ environ (run_ops key_pairs no_repr [Handle GetReady; Startup quiet; Handle GetRoot]
                      (cloud_run fs_mounted {["OPENAI_API_KEY" := "cloud"]}))
     !! "OPENAI_API_KEY" = Some "cloud".
Proof.
  assert (H : environ (cloud_run fs_mounted {["OPENAI_API_KEY" := "cloud"]})
              !! "OPENAI_API_KEY" = Some "cloud") by reflexivity.
  split; [exact H |].
  exact (environ_never_overwritten key_pairs no_repr _ _ _ _ H).
Defined.


Lemma probe_then_lifespan_no_wait_witness :
  probe_succeeded (cloud_run fs_mounted ∅) = false
  /\ res (startup_probe (cloud_run fs_mounted ∅)) = Returned ready_first
  /\ List.filter is_sleep
       (evs (lifespan_deployed no_pairs quiet (st (startup_probe (cloud_run fs_mounted ∅)))))
     = [].
Proof.
  assert (H1 : probe_succeeded (cloud_run fs_mounted ∅) = false) by reflexivity.
  assert (H2 : res (startup_probe (cloud_run fs_mounted ∅)) = Returned ready_first)
    by (vm_compute; reflexivity).
  split; [exact H1 |]. split; [exact H2 |].
  exact (proj1 (proj2 (proj2 (probe_then_lifespan_no_wait no_pairs quiet _ _ H1 H2)))).
Defined.

Lemma lifespan_local_success_witness :
  res (gcp_json_credentials_exist false dev_machine_env) = Returned true
  /\ node_is_file (stat (local_marker dev_machine_env) dev_machine_env) = true
  /\ res (lifespan_configure no_pairs quiet dev_machine_env) = Returned tt.
Proof.
  assert (H1 : res (gcp_json_credentials_exist false dev_machine_env) = Returned true)
    by (vm_compute; reflexivity).
  assert (H2 : node_is_file (stat (local_marker dev_machine_env) dev_machine_env) = true)
    by (vm_compute; reflexivity).
  split; [exact H1 |]. split; [exact H2 |].
  exact (proj1 (lifespan_local_success no_pairs quiet _ H1 H2)).
Defined.

Lemma gcp_fileio_test_prints_what_it_wrote_witness :
  lookup_path (fs (cloud_run fs_unmounted ∅))
              (Path_parent (abspath (cloud_run fs_unmounted ∅)
                                    (joinpath (posix "/mnt/storage") "text_file_utf8.txt")))
  = Some Dir
  /\ stat (joinpath (posix "/mnt/storage") "text_file_utf8.txt") (cloud_run fs_unmounted ∅)
     = None
  /\ String.length (drawn_string 0 (random_state (cloud_run fs_unmounted ∅))) = 40.
Proof.
  assert (H1 : lookup_path (fs (cloud_run fs_unmounted ∅))
                 (Path_parent (abspath (cloud_run fs_unmounted ∅)
                                 (joinpath (posix "/mnt/storage") "text_file_utf8.txt")))
               = Some Dir) by (vm_compute; reflexivity).
  assert (H2 : stat (joinpath (posix "/mnt/storage") "text_file_utf8.txt")
                    (cloud_run fs_unmounted ∅) = None) by (vm_compute; reflexivity).
  assert (H3 : stat (joinpath (posix "/mnt/storage") "text_file_utf8.txt")
                    (cloud_run fs_unmounted ∅) <> Some Dir)
    by (rewrite H2; discriminate).
  split; [exact H1 |]. split; [exact H2 |].
  exact (proj1 (proj2 (gcp_fileio_test_prints_what_it_wrote (posix "/mnt/storage") false
                         _ H1 H3) 0)).
Defined.

Lemma gcp_fileio_test_touches_one_file_witness :
  posix "/mnt/storage/.env"
  <> abspath (cloud_run fs_mounted ∅) (joinpath (posix "/mnt/storage") "text_file_utf8.txt")
  /\ fs (st (gcp_fileio_test (posix "/mnt/storage") false (cloud_run fs_mounted ∅)))
     !! posix "/mnt/storage/.env"
     = fs (cloud_run fs_mounted ∅) !! posix "/mnt/storage/.env".
Proof.
  assert (H : posix "/mnt/storage/.env"
              <> abspath (cloud_run fs_mounted ∅)
                         (joinpath (posix "/mnt/storage") "text_file_utf8.txt"))
    by (vm_compute; discriminate).
  split; [exact H |].
  exact (proj1 (gcp_fileio_test_touches_one_file (posix "/mnt/storage") false _ _ H)).
Defined.


Definition dev_configured : State :=
  st (lifespan_configure no_pairs quiet dev_machine_env).


Lemma lifespan_selftest_local_witness :
  app_state_app_config dev_configured = Some 1
  /\ heap dev_configured !! 1 = Some (lifespan_config Posix (posix "/work"))
  /\ res (gcp_json_credentials_exist false dev_configured) = Returned true
  /\ List.filter is_mkdir (evs (lifespan_selftest dev_configured)) = [].
Proof.
  assert (H1 : app_state_app_config dev_configured = Some 1) by (vm_compute; reflexivity).
  assert (H2 : heap dev_configured !! 1 = Some (lifespan_config Posix (posix "/work")))
    by (vm_compute; reflexivity).
  assert (H3 : res (gcp_json_credentials_exist false dev_configured) = Returned true)
    by (vm_compute; reflexivity).
  split; [exact H1 |]. split; [exact H2 |]. split; [exact H3 |].
  exact (proj1 (proj2 (proj2 (lifespan_selftest_local dev_configured 1 Posix (posix "/work")
                                H1 H2 H3)))).
Defined.
